(** * Academic timetable generator: data model and generation engine

    The first part embeds [src/app/models.py]: the four string enums, the
    persistent SQLModel classes the timetable is made of and their
    create/update schemas, each with the validation its [Field(...)]
    declarations ask for (bounds [ge]/[le], [max_length], defaults,
    enum membership), as [model_validate] runs it on keyword arguments of
    the annotated types. The constructor of a [table=True] class runs none
    of it ([Course.construct]). [primary_key], [unique], [foreign_key] and
    [sa_column] are declarations for the database and take no part in it;
    strings are sequences of characters, and [max_length] counts them.

    The second part models the timetable generation engine that the
    specification describes on top of that schema. *)

From Stdlib Require Import ZArith String List Bool Lia Sorted Permutation.
From stdpp Require Import base option list gmap strings.

Local Open Scope string_scope.
Local Open Scope Z_scope.
Local Open Scope list_scope.

(** ** Python values used by the schema *)

(** [datetime.time]: a naive wall-clock time, ordered field by field. *)
Record time := mk_time {
  hour : Z;
  minute : Z;
  second : Z;
  microsecond : Z
}.

(** What [datetime.time] compares: the fields in order. *)
Definition time_key (t : time) : Z :=
  ((hour t * 60 + minute t) * 60 + second t) * 1000000 + microsecond t.

(** The constructor of [datetime.time] refuses fields out of range. *)
Definition time_wf (t : time) : bool :=
  (0 <=? hour t) && (hour t <? 24) &&
  (0 <=? minute t) && (minute t <? 60) &&
  (0 <=? second t) && (second t <? 60) &&
  (0 <=? microsecond t) && (microsecond t <? 1000000).

Definition time_ltb (a b : time) : bool := time_key a <? time_key b.

(** [datetime.datetime], as microseconds since the epoch. *)
Definition datetime := Z.

(** A JSON value, as held by a [Dict[str, Any]] column. *)
#[warnings="-register-all"]
Inductive json :=
| JNull
| JBool (b : bool)
| JInt (n : Z)
| JStr (s : string)
| JList (l : list json)
| JObject (l : list (string * json)).

(** The outcome of validating keyword arguments against a model class:
    the instance, or the names of the fields that were refused. *)
Inductive validated (A : Type) :=
| Valid (a : A)
| ValidationError (fields : list string).
Arguments Valid {A} a.
Arguments ValidationError {A} fields.

Definition check (field : string) (ok : bool) : list string :=
  if ok then [] else [field].

(** [Field(max_length=n)] on a [str]. *)
Definition max_length (n : nat) (s : string) : bool :=
  Nat.leb (String.length s) n.

(** [Field(ge=lo, le=hi)] on an [int]. *)
Definition ge_le (lo hi : Z) (n : Z) : bool := (lo <=? n) && (n <=? hi).

(** A constraint on an [Optional[...]] field applies to a value that is
    there; [None] passes. *)
Definition opt_ok {A} (p : A -> bool) (o : option A) : bool :=
  match o with Some a => p a | None => true end.

Definition finish {A} (errors : list string) (a : A) : validated A :=
  match errors with
  | [] => Valid a
  | _ :: _ => ValidationError errors
  end.

(** ** The enums (models.py 7-36) *)

Module DayOfWeek.
Inductive t :=
| MONDAY | TUESDAY | WEDNESDAY | THURSDAY | FRIDAY | SATURDAY | SUNDAY.

Definition value (d : t) : string :=
  match d with
  | MONDAY => "MONDAY"
  | TUESDAY => "TUESDAY"
  | WEDNESDAY => "WEDNESDAY"
  | THURSDAY => "THURSDAY"
  | FRIDAY => "FRIDAY"
  | SATURDAY => "SATURDAY"
  | SUNDAY => "SUNDAY"
  end.

Definition members : list t :=
  [MONDAY; TUESDAY; WEDNESDAY; THURSDAY; FRIDAY; SATURDAY; SUNDAY].

(** [DayOfWeek(s)]: the member whose value is [s], if there is one. *)
Definition of_value (s : string) : option t :=
  List.find (fun d => String.eqb (value d) s) members.

Definition eqb (a b : t) : bool := String.eqb (value a) (value b).
End DayOfWeek.

Module CourseType.
Inductive t := THEORY | LAB | PRACTICAL | SEMINAR | PROJECT.

Definition value (c : t) : string :=
  match c with
  | THEORY => "THEORY"
  | LAB => "LAB"
  | PRACTICAL => "PRACTICAL"
  | SEMINAR => "SEMINAR"
  | PROJECT => "PROJECT"
  end.

Definition members : list t := [THEORY; LAB; PRACTICAL; SEMINAR; PROJECT].

Definition of_value (s : string) : option t :=
  List.find (fun c => String.eqb (value c) s) members.
End CourseType.

Module RoomType.
Inductive t := CLASSROOM | LAB | AUDITORIUM | SEMINAR_HALL | CONFERENCE_ROOM.

Definition value (r : t) : string :=
  match r with
  | CLASSROOM => "CLASSROOM"
  | LAB => "LAB"
  | AUDITORIUM => "AUDITORIUM"
  | SEMINAR_HALL => "SEMINAR_HALL"
  | CONFERENCE_ROOM => "CONFERENCE_ROOM"
  end.

Definition members : list t :=
  [CLASSROOM; LAB; AUDITORIUM; SEMINAR_HALL; CONFERENCE_ROOM].

Definition of_value (s : string) : option t :=
  List.find (fun r => String.eqb (value r) s) members.

Definition eqb (a b : t) : bool := String.eqb (value a) (value b).
End RoomType.

Module TimetableStatus.
Inductive t := DRAFT | PUBLISHED | ARCHIVED.

Definition value (s : t) : string :=
  match s with
  | DRAFT => "DRAFT"
  | PUBLISHED => "PUBLISHED"
  | ARCHIVED => "ARCHIVED"
  end.

Definition members : list t := [DRAFT; PUBLISHED; ARCHIVED].

Definition of_value (s : string) : option t :=
  List.find (fun x => String.eqb (value x) s) members.
End TimetableStatus.

(** An enum-typed field takes the member's value as a string and is
    refused when no member has it. *)
Definition enum_field {E} (of_value : string -> option E) (s : string) : bool :=
  match of_value s with Some _ => true | None => false end.

(** An [Optional[Enum]] field: [None] stays [None], a string has to be a
    member's value. *)
Definition opt_enum {E} (of_value : string -> option E) (o : option string)
  : option (option E) :=
  match o with
  | None => Some None
  | Some s => option_map Some (of_value s)
  end.

(** ** Teacher, TeacherCreate, TeacherUpdate (models.py 94-115, 278-300) *)

Module Teacher.
Record t := mk {
  id : option Z;
  employee_id : string;
  first_name : string;
  last_name : string;
  email : string;
  phone : option string;
  department_id : Z;
  specializations : list string;
  max_hours_per_week : Z;
  preferred_time_slots : list Z;
  unavailable_days : list string;
  is_active : bool;
  created_at : datetime;
  updated_at : datetime
}.

(** Keyword arguments: a field with a default may be left out. *)
Record args := mk_args {
  a_id : option Z;
  a_employee_id : string;
  a_first_name : string;
  a_last_name : string;
  a_email : string;
  a_phone : option string;
  a_department_id : Z;
  a_specializations : option (list string);
  a_max_hours_per_week : option Z;
  a_preferred_time_slots : option (list Z);
  a_unavailable_days : option (list string);
  a_is_active : option bool;
  a_created_at : option datetime;
  a_updated_at : option datetime
}.

(** Each [default_factory] reads the clock when its field is left out. *)
Definition validate (created_now updated_now : datetime) (a : args) : validated t :=
  finish
    (check "employee_id" (max_length 20 (a_employee_id a)) ++
     check "first_name" (max_length 50 (a_first_name a)) ++
     check "last_name" (max_length 50 (a_last_name a)) ++
     check "email" (max_length 255 (a_email a)) ++
     check "phone" (opt_ok (max_length 20) (a_phone a)) ++
     check "max_hours_per_week" (opt_ok (ge_le 1 40) (a_max_hours_per_week a)))
    {| id := a_id a;
       employee_id := a_employee_id a;
       first_name := a_first_name a;
       last_name := a_last_name a;
       email := a_email a;
       phone := a_phone a;
       department_id := a_department_id a;
       specializations := default [] (a_specializations a);
       max_hours_per_week := default 20 (a_max_hours_per_week a);
       preferred_time_slots := default [] (a_preferred_time_slots a);
       unavailable_days := default [] (a_unavailable_days a);
       is_active := default true (a_is_active a);
       created_at := default created_now (a_created_at a);
       updated_at := default updated_now (a_updated_at a) |}.
End Teacher.

Module TeacherCreate.
Record t := mk {
  employee_id : string;
  first_name : string;
  last_name : string;
  email : string;
  phone : option string;
  department_id : Z;
  specializations : list string;
  max_hours_per_week : Z;
  preferred_time_slots : list Z;
  unavailable_days : list string
}.

Record args := mk_args {
  a_employee_id : string;
  a_first_name : string;
  a_last_name : string;
  a_email : string;
  a_phone : option string;
  a_department_id : Z;
  a_specializations : option (list string);
  a_max_hours_per_week : option Z;
  a_preferred_time_slots : option (list Z);
  a_unavailable_days : option (list string)
}.

Definition validate (a : args) : validated t :=
  finish
    (check "employee_id" (max_length 20 (a_employee_id a)) ++
     check "first_name" (max_length 50 (a_first_name a)) ++
     check "last_name" (max_length 50 (a_last_name a)) ++
     check "email" (max_length 255 (a_email a)) ++
     check "phone" (opt_ok (max_length 20) (a_phone a)) ++
     check "max_hours_per_week" (opt_ok (ge_le 1 40) (a_max_hours_per_week a)))
    {| employee_id := a_employee_id a;
       first_name := a_first_name a;
       last_name := a_last_name a;
       email := a_email a;
       phone := a_phone a;
       department_id := a_department_id a;
       specializations := default [] (a_specializations a);
       max_hours_per_week := default 20 (a_max_hours_per_week a);
       preferred_time_slots := default [] (a_preferred_time_slots a);
       unavailable_days := default [] (a_unavailable_days a) |}.
End TeacherCreate.

Module TeacherUpdate.
(** Every field is [Optional] with default [None]: the arguments and the
    instance have the same shape. *)
Record t := mk {
  first_name : option string;
  last_name : option string;
  email : option string;
  phone : option string;
  specializations : option (list string);
  max_hours_per_week : option Z;
  preferred_time_slots : option (list Z);
  unavailable_days : option (list string);
  is_active : option bool
}.

Definition validate (a : t) : validated t :=
  finish
    (check "first_name" (opt_ok (max_length 50) (first_name a)) ++
     check "last_name" (opt_ok (max_length 50) (last_name a)) ++
     check "email" (opt_ok (max_length 255) (email a)) ++
     check "phone" (opt_ok (max_length 20) (phone a)) ++
     check "max_hours_per_week" (opt_ok (ge_le 1 40) (max_hours_per_week a)))
    a.
End TeacherUpdate.

(** ** Course, CourseCreate (models.py 138-160, 323-334) *)

Module Course.
Record t := mk {
  id : option Z;
  course_code : string;
  name : string;
  description : option string;
  credits : Z;
  course_type : CourseType.t;
  hours_per_week : Z;
  required_room_type : option RoomType.t;
  required_equipment : list string;
  semester_number : Z;
  department_id : Z;
  prerequisites : list Z;
  is_active : bool;
  created_at : datetime;
  updated_at : datetime
}.

Record args := mk_args {
  a_id : option Z;
  a_course_code : string;
  a_name : string;
  a_description : option string;
  a_credits : Z;
  a_course_type : string;
  a_hours_per_week : Z;
  a_required_room_type : option string;
  a_required_equipment : option (list string);
  a_semester_number : Z;
  a_department_id : Z;
  a_prerequisites : option (list Z);
  a_is_active : option bool;
  a_created_at : option datetime;
  a_updated_at : option datetime
}.

(** Each [default_factory] reads the clock when its field is left out. *)
Definition validate (created_now updated_now : datetime) (a : args) : validated t :=
  let errors : list string :=
   (check "course_code" (max_length 20 (a_course_code a)) ++
    check "name" (max_length 200 (a_name a)) ++
    check "description" (opt_ok (max_length 1000) (a_description a)) ++
    check "credits" (ge_le 1 10 (a_credits a)) ++
    check "course_type" (enum_field CourseType.of_value (a_course_type a)) ++
    check "hours_per_week" (ge_le 1 10 (a_hours_per_week a)) ++
    check "required_room_type"
      (opt_ok (enum_field RoomType.of_value) (a_required_room_type a)) ++
    check "semester_number" (ge_le 1 8 (a_semester_number a)))%list in
  match CourseType.of_value (a_course_type a),
        opt_enum RoomType.of_value (a_required_room_type a) with
  | Some ct, Some rt =>
      finish errors
        {| id := a_id a;
           course_code := a_course_code a;
           name := a_name a;
           description := a_description a;
           credits := a_credits a;
           course_type := ct;
           hours_per_week := a_hours_per_week a;
           required_room_type := rt;
           required_equipment := default [] (a_required_equipment a);
           semester_number := a_semester_number a;
           department_id := a_department_id a;
           prerequisites := default [] (a_prerequisites a);
           is_active := default true (a_is_active a);
           created_at := default created_now (a_created_at a);
           updated_at := default updated_now (a_updated_at a) |}
  | _, _ => ValidationError errors
  end.

(** [Course(...)]: a [table=True] class is built without validation: the
    constructor stores the keyword arguments it is given, taken here at their
    annotated types, and fills the defaults of the fields left out. *)
Record kwargs := mk_kwargs {
  k_id : option Z;
  k_course_code : string;
  k_name : string;
  k_description : option string;
  k_credits : Z;
  k_course_type : CourseType.t;
  k_hours_per_week : Z;
  k_required_room_type : option RoomType.t;
  k_required_equipment : option (list string);
  k_semester_number : Z;
  k_department_id : Z;
  k_prerequisites : option (list Z);
  k_is_active : option bool;
  k_created_at : option datetime;
  k_updated_at : option datetime
}.

Definition construct (created_now updated_now : datetime) (k : kwargs) : t :=
  {| id := k_id k;
     course_code := k_course_code k;
     name := k_name k;
     description := k_description k;
     credits := k_credits k;
     course_type := k_course_type k;
     hours_per_week := k_hours_per_week k;
     required_room_type := k_required_room_type k;
     required_equipment := default [] (k_required_equipment k);
     semester_number := k_semester_number k;
     department_id := k_department_id k;
     prerequisites := default [] (k_prerequisites k);
     is_active := default true (k_is_active k);
     created_at := default created_now (k_created_at k);
     updated_at := default updated_now (k_updated_at k) |}.
End Course.

Module CourseCreate.
Record t := mk {
  course_code : string;
  name : string;
  description : option string;
  credits : Z;
  course_type : CourseType.t;
  hours_per_week : Z;
  required_room_type : option RoomType.t;
  required_equipment : list string;
  semester_number : Z;
  department_id : Z;
  prerequisites : list Z
}.

Record args := mk_args {
  a_course_code : string;
  a_name : string;
  a_description : option string;
  a_credits : Z;
  a_course_type : string;
  a_hours_per_week : Z;
  a_required_room_type : option string;
  a_required_equipment : option (list string);
  a_semester_number : Z;
  a_department_id : Z;
  a_prerequisites : option (list Z)
}.

Definition validate (a : args) : validated t :=
  let errors : list string :=
   (check "course_code" (max_length 20 (a_course_code a)) ++
    check "name" (max_length 200 (a_name a)) ++
    check "description" (opt_ok (max_length 1000) (a_description a)) ++
    check "credits" (ge_le 1 10 (a_credits a)) ++
    check "course_type" (enum_field CourseType.of_value (a_course_type a)) ++
    check "hours_per_week" (ge_le 1 10 (a_hours_per_week a)) ++
    check "required_room_type"
      (opt_ok (enum_field RoomType.of_value) (a_required_room_type a)) ++
    check "semester_number" (ge_le 1 8 (a_semester_number a)))%list in
  match CourseType.of_value (a_course_type a),
        opt_enum RoomType.of_value (a_required_room_type a) with
  | Some ct, Some rt =>
      finish errors
        {| course_code := a_course_code a;
           name := a_name a;
           description := a_description a;
           credits := a_credits a;
           course_type := ct;
           hours_per_week := a_hours_per_week a;
           required_room_type := rt;
           required_equipment := default [] (a_required_equipment a);
           semester_number := a_semester_number a;
           department_id := a_department_id a;
           prerequisites := default [] (a_prerequisites a) |}
  | _, _ => ValidationError errors
  end.
End CourseCreate.

(** ** TimeSlot, TimeSlotCreate (models.py 163-175, 349-353) *)

Module TimeSlot.
Record t := mk {
  id : option Z;
  name : string;
  start_time : time;
  end_time : time;
  day_of_week : DayOfWeek.t;
  is_active : bool;
  created_at : datetime
}.

Record args := mk_args {
  a_id : option Z;
  a_name : string;
  a_start_time : time;
  a_end_time : time;
  a_day_of_week : string;
  a_is_active : option bool;
  a_created_at : option datetime
}.

(** The class declares a length bound on [name] and the enum type of
    [day_of_week]; [start_time] and [end_time] are plain [time] fields. *)
Definition validate (utcnow : datetime) (a : args) : validated t :=
  let errors : list string :=
   (check "name" (max_length 50 (a_name a)) ++
    check "day_of_week" (enum_field DayOfWeek.of_value (a_day_of_week a)))%list in
  match DayOfWeek.of_value (a_day_of_week a) with
  | Some d =>
      finish errors
        {| id := a_id a;
           name := a_name a;
           start_time := a_start_time a;
           end_time := a_end_time a;
           day_of_week := d;
           is_active := default true (a_is_active a);
           created_at := default utcnow (a_created_at a) |}
  | None => ValidationError errors
  end.
End TimeSlot.

Module TimeSlotCreate.
Record t := mk {
  name : string;
  start_time : time;
  end_time : time;
  day_of_week : DayOfWeek.t
}.

Record args := mk_args {
  a_name : string;
  a_start_time : time;
  a_end_time : time;
  a_day_of_week : string
}.

Definition validate (a : args) : validated t :=
  let errors : list string :=
   (check "name" (max_length 50 (a_name a)) ++
    check "day_of_week" (enum_field DayOfWeek.of_value (a_day_of_week a)))%list in
  match DayOfWeek.of_value (a_day_of_week a) with
  | Some d =>
      finish errors
        {| name := a_name a;
           start_time := a_start_time a;
           end_time := a_end_time a;
           day_of_week := d |}
  | None => ValidationError errors
  end.
End TimeSlotCreate.

(** ** Timetable, TimetableCreate (models.py 193-208, 370-373) *)

Module Timetable.
Record t := mk {
  id : option Z;
  name : string;
  semester_id : Z;
  status : TimetableStatus.t;
  generation_rules : gmap string json;
  created_at : datetime;
  updated_at : datetime;
  generated_at : option datetime;
  generated_by : option string
}.

Record args := mk_args {
  a_id : option Z;
  a_name : string;
  a_semester_id : Z;
  a_status : option string;
  a_generation_rules : option (gmap string json);
  a_created_at : option datetime;
  a_updated_at : option datetime;
  a_generated_at : option datetime;
  a_generated_by : option string
}.

(** Each [default_factory] reads the clock when its field is left out. *)
Definition validate (created_now updated_now : datetime) (a : args) : validated t :=
  let errors : list string :=
   (check "name" (max_length 100 (a_name a)) ++
    check "status" (opt_ok (enum_field TimetableStatus.of_value) (a_status a)) ++
    check "generated_by" (opt_ok (max_length 100) (a_generated_by a)))%list in
  match opt_enum TimetableStatus.of_value (a_status a) with
  | Some st =>
      finish errors
        {| id := a_id a;
           name := a_name a;
           semester_id := a_semester_id a;
           status := default TimetableStatus.DRAFT st;
           generation_rules := default ∅ (a_generation_rules a);
           created_at := default created_now (a_created_at a);
           updated_at := default updated_now (a_updated_at a);
           generated_at := a_generated_at a;
           generated_by := a_generated_by a |}
  | None => ValidationError errors
  end.

(** Only the two fields without a default are given. *)
Definition required_only (name : string) (semester_id : Z) : args :=
  {| a_id := None;
     a_name := name;
     a_semester_id := semester_id;
     a_status := None;
     a_generation_rules := None;
     a_created_at := None;
     a_updated_at := None;
     a_generated_at := None;
     a_generated_by := None |}.
End Timetable.

Module TimetableCreate.
Record t := mk {
  name : string;
  semester_id : Z;
  generation_rules : gmap string json
}.

Record args := mk_args {
  a_name : string;
  a_semester_id : Z;
  a_generation_rules : option (gmap string json)
}.

Definition validate (a : args) : validated t :=
  finish
    (check "name" (max_length 100 (a_name a)))
    {| name := a_name a;
       semester_id := a_semester_id a;
       generation_rules := default ∅ (a_generation_rules a) |}.
End TimetableCreate.

(** ** TimetableEntry (models.py 211-231) *)

Module TimetableEntry.
Record t := mk {
  id : option Z;
  timetable_id : Z;
  course_id : Z;
  teacher_id : Z;
  room_id : Z;
  section_id : Z;
  time_slot_id : Z;
  notes : option string;
  created_at : datetime;
  updated_at : datetime
}.

Record args := mk_args {
  a_id : option Z;
  a_timetable_id : Z;
  a_course_id : Z;
  a_teacher_id : Z;
  a_room_id : Z;
  a_section_id : Z;
  a_time_slot_id : Z;
  a_notes : option string;
  a_created_at : option datetime;
  a_updated_at : option datetime
}.

(** Each [default_factory] reads the clock when its field is left out. *)
Definition validate (created_now updated_now : datetime) (a : args) : validated t :=
  finish
    (check "notes" (opt_ok (max_length 500) (a_notes a)))
    {| id := a_id a;
       timetable_id := a_timetable_id a;
       course_id := a_course_id a;
       teacher_id := a_teacher_id a;
       room_id := a_room_id a;
       section_id := a_section_id a;
       time_slot_id := a_time_slot_id a;
       notes := a_notes a;
       created_at := default created_now (a_created_at a);
       updated_at := default updated_now (a_updated_at a) |}.
End TimetableEntry.

(** ** Department, Semester, Section, Room, CourseAssignment *)

Module Department.
(** [Department] (models.py 40-55). *)
Record t := mk {
  id : option Z;
  name : string;
  code : string;
  description : option string;
  is_active : bool;
  created_at : datetime;
  updated_at : datetime
}.

Record args := mk_args {
  a_id : option Z;
  a_name : string;
  a_code : string;
  a_description : option string;
  a_is_active : option bool;
  a_created_at : option datetime;
  a_updated_at : option datetime
}.

(** Each [default_factory] reads the clock when its field is left out. *)
Definition validate (created_now updated_now : datetime) (a : args) : validated t :=
  finish
    (check "name" (max_length 100 (a_name a)) ++
     check "code" (max_length 10 (a_code a)) ++
     check "description" (opt_ok (max_length 500) (a_description a)))%list
    {| id := a_id a;
       name := a_name a;
       code := a_code a;
       description := a_description a;
       is_active := default true (a_is_active a);
       created_at := default created_now (a_created_at a);
       updated_at := default updated_now (a_updated_at a) |}.
End Department.

Module Semester.
(** [Semester] (models.py 58-75). *)
Record t := mk {
  id : option Z;
  name : string;
  year : Z;
  semester_number : Z;
  start_date : datetime;
  end_date : datetime;
  department_id : Z;
  is_active : bool;
  created_at : datetime;
  updated_at : datetime
}.

Record args := mk_args {
  a_id : option Z;
  a_name : string;
  a_year : Z;
  a_semester_number : Z;
  a_start_date : datetime;
  a_end_date : datetime;
  a_department_id : Z;
  a_is_active : option bool;
  a_created_at : option datetime;
  a_updated_at : option datetime
}.

(** Each [default_factory] reads the clock when its field is left out. *)
Definition validate (created_now updated_now : datetime) (a : args) : validated t :=
  finish
    (check "name" (max_length 50 (a_name a)) ++
     check "year" (ge_le 2020 2050 (a_year a)) ++
     check "semester_number" (ge_le 1 8 (a_semester_number a)))%list
    {| id := a_id a;
       name := a_name a;
       year := a_year a;
       semester_number := a_semester_number a;
       start_date := a_start_date a;
       end_date := a_end_date a;
       department_id := a_department_id a;
       is_active := default true (a_is_active a);
       created_at := default created_now (a_created_at a);
       updated_at := default updated_now (a_updated_at a) |}.
End Semester.

Module Section.
(** [Section] (models.py 78-91). *)
Record t := mk {
  id : option Z;
  name : string;
  capacity : Z;
  semester_id : Z;
  is_active : bool;
  created_at : datetime;
  updated_at : datetime
}.

Record args := mk_args {
  a_id : option Z;
  a_name : string;
  a_capacity : Z;
  a_semester_id : Z;
  a_is_active : option bool;
  a_created_at : option datetime;
  a_updated_at : option datetime
}.

(** Each [default_factory] reads the clock when its field is left out. *)
Definition validate (created_now updated_now : datetime) (a : args) : validated t :=
  finish
    (check "name" (max_length 10 (a_name a)) ++
     check "capacity" (ge_le 1 200 (a_capacity a)))%list
    {| id := a_id a;
       name := a_name a;
       capacity := a_capacity a;
       semester_id := a_semester_id a;
       is_active := default true (a_is_active a);
       created_at := default created_now (a_created_at a);
       updated_at := default updated_now (a_updated_at a) |}.
End Section.

Module Room.
(** [Room] (models.py 118-135). *)
Record t := mk {
  id : option Z;
  room_number : string;
  building : string;
  floor : option Z;
  capacity : Z;
  room_type : RoomType.t;
  equipment : list string;
  department_id : option Z;
  is_available : bool;
  created_at : datetime;
  updated_at : datetime
}.

Record args := mk_args {
  a_id : option Z;
  a_room_number : string;
  a_building : string;
  a_floor : option Z;
  a_capacity : Z;
  a_room_type : string;
  a_equipment : option (list string);
  a_department_id : option Z;
  a_is_available : option bool;
  a_created_at : option datetime;
  a_updated_at : option datetime
}.

(** Each [default_factory] reads the clock when its field is left out. *)
Definition validate (created_now updated_now : datetime) (a : args) : validated t :=
  let errors : list string :=
     (check "room_number" (max_length 20 (a_room_number a)) ++
      check "building" (max_length 50 (a_building a)) ++
      check "capacity" (ge_le 1 500 (a_capacity a)) ++
      check "room_type" (enum_field RoomType.of_value (a_room_type a)))%list in
  match RoomType.of_value (a_room_type a) with
  | Some v_room_type =>
      finish errors
        {| id := a_id a;
           room_number := a_room_number a;
           building := a_building a;
           floor := a_floor a;
           capacity := a_capacity a;
           room_type := v_room_type;
           equipment := default [] (a_equipment a);
           department_id := a_department_id a;
           is_available := default true (a_is_available a);
           created_at := default created_now (a_created_at a);
           updated_at := default updated_now (a_updated_at a) |}
  | _ => ValidationError errors
  end.
End Room.

Module CourseAssignment.
(** [CourseAssignment] (models.py 178-190). *)
Record t := mk {
  id : option Z;
  teacher_id : Z;
  course_id : Z;
  assigned_at : datetime;
  is_primary : bool;
  is_active : bool
}.

Record args := mk_args {
  a_id : option Z;
  a_teacher_id : Z;
  a_course_id : Z;
  a_assigned_at : option datetime;
  a_is_primary : option bool;
  a_is_active : option bool
}.

(** Each [default_factory] reads the clock when its field is left out. *)
Definition validate (assigned_now : datetime) (a : args) : validated t :=
  finish
    []
    {| id := a_id a;
       teacher_id := a_teacher_id a;
       course_id := a_course_id a;
       assigned_at := default assigned_now (a_assigned_at a);
       is_primary := default true (a_is_primary a);
       is_active := default true (a_is_active a) |}.
End CourseAssignment.

(** ** The create and update schemas of the other classes *)

Module DepartmentCreate.
(** [DepartmentCreate] (models.py 235-238). *)
Record t := mk {
  name : string;
  code : string;
  description : option string
}.

Definition validate (a : t) : validated t :=
  finish
    (check "name" (max_length 100 (name a)) ++
     check "code" (max_length 10 (code a)) ++
     check "description" (opt_ok (max_length 500) (description a)))%list
    a.
End DepartmentCreate.

Module DepartmentUpdate.
(** [DepartmentUpdate] (models.py 241-245). *)
Record t := mk {
  name : option string;
  code : option string;
  description : option string;
  is_active : option bool
}.

Definition validate (a : t) : validated t :=
  finish
    (check "name" (opt_ok (max_length 100) (name a)) ++
     check "code" (opt_ok (max_length 10) (code a)) ++
     check "description" (opt_ok (max_length 500) (description a)))%list
    a.
End DepartmentUpdate.

Module SemesterCreate.
(** [SemesterCreate] (models.py 248-254). *)
Record t := mk {
  name : string;
  year : Z;
  semester_number : Z;
  start_date : datetime;
  end_date : datetime;
  department_id : Z
}.

Definition validate (a : t) : validated t :=
  finish
    (check "name" (max_length 50 (name a)) ++
     check "year" (ge_le 2020 2050 (year a)) ++
     check "semester_number" (ge_le 1 8 (semester_number a)))%list
    a.
End SemesterCreate.

Module SemesterUpdate.
(** [SemesterUpdate] (models.py 257-263). *)
Record t := mk {
  name : option string;
  year : option Z;
  semester_number : option Z;
  start_date : option datetime;
  end_date : option datetime;
  is_active : option bool
}.

Definition validate (a : t) : validated t :=
  finish
    (check "name" (opt_ok (max_length 50) (name a)) ++
     check "year" (opt_ok (ge_le 2020 2050) (year a)) ++
     check "semester_number" (opt_ok (ge_le 1 8) (semester_number a)))%list
    a.
End SemesterUpdate.

Module SectionCreate.
(** [SectionCreate] (models.py 266-269). *)
Record t := mk {
  name : string;
  capacity : Z;
  semester_id : Z
}.

Definition validate (a : t) : validated t :=
  finish
    (check "name" (max_length 10 (name a)) ++
     check "capacity" (ge_le 1 200 (capacity a)))%list
    a.
End SectionCreate.

Module SectionUpdate.
(** [SectionUpdate] (models.py 272-275). *)
Record t := mk {
  name : option string;
  capacity : option Z;
  is_active : option bool
}.

Definition validate (a : t) : validated t :=
  finish
    (check "name" (opt_ok (max_length 10) (name a)) ++
     check "capacity" (opt_ok (ge_le 1 200) (capacity a)))%list
    a.
End SectionUpdate.

Module RoomCreate.
(** [RoomCreate] (models.py 303-310). *)
Record t := mk {
  room_number : string;
  building : string;
  floor : option Z;
  capacity : Z;
  room_type : RoomType.t;
  equipment : list string;
  department_id : option Z
}.

Record args := mk_args {
  a_room_number : string;
  a_building : string;
  a_floor : option Z;
  a_capacity : Z;
  a_room_type : string;
  a_equipment : option (list string);
  a_department_id : option Z
}.

Definition validate (a : args) : validated t :=
  let errors : list string :=
     (check "room_number" (max_length 20 (a_room_number a)) ++
      check "building" (max_length 50 (a_building a)) ++
      check "capacity" (ge_le 1 500 (a_capacity a)) ++
      check "room_type" (enum_field RoomType.of_value (a_room_type a)))%list in
  match RoomType.of_value (a_room_type a) with
  | Some v_room_type =>
      finish errors
        {| room_number := a_room_number a;
           building := a_building a;
           floor := a_floor a;
           capacity := a_capacity a;
           room_type := v_room_type;
           equipment := default [] (a_equipment a);
           department_id := a_department_id a |}
  | _ => ValidationError errors
  end.
End RoomCreate.

Module RoomUpdate.
(** [RoomUpdate] (models.py 313-320). *)
Record t := mk {
  room_number : option string;
  building : option string;
  floor : option Z;
  capacity : option Z;
  room_type : option RoomType.t;
  equipment : option (list string);
  is_available : option bool
}.

Record args := mk_args {
  a_room_number : option string;
  a_building : option string;
  a_floor : option Z;
  a_capacity : option Z;
  a_room_type : option string;
  a_equipment : option (list string);
  a_is_available : option bool
}.

Definition validate (a : args) : validated t :=
  let errors : list string :=
     (check "room_number" (opt_ok (max_length 20) (a_room_number a)) ++
      check "building" (opt_ok (max_length 50) (a_building a)) ++
      check "capacity" (opt_ok (ge_le 1 500) (a_capacity a)) ++
      check "room_type" (opt_ok (enum_field RoomType.of_value) (a_room_type a)))%list in
  match opt_enum RoomType.of_value (a_room_type a) with
  | Some v_room_type =>
      finish errors
        {| room_number := a_room_number a;
           building := a_building a;
           floor := a_floor a;
           capacity := a_capacity a;
           room_type := v_room_type;
           equipment := a_equipment a;
           is_available := a_is_available a |}
  | _ => ValidationError errors
  end.
End RoomUpdate.

Module CourseUpdate.
(** [CourseUpdate] (models.py 337-346). *)
Record t := mk {
  name : option string;
  description : option string;
  credits : option Z;
  course_type : option CourseType.t;
  hours_per_week : option Z;
  required_room_type : option RoomType.t;
  required_equipment : option (list string);
  prerequisites : option (list Z);
  is_active : option bool
}.

Record args := mk_args {
  a_name : option string;
  a_description : option string;
  a_credits : option Z;
  a_course_type : option string;
  a_hours_per_week : option Z;
  a_required_room_type : option string;
  a_required_equipment : option (list string);
  a_prerequisites : option (list Z);
  a_is_active : option bool
}.

Definition validate (a : args) : validated t :=
  let errors : list string :=
     (check "name" (opt_ok (max_length 200) (a_name a)) ++
      check "description" (opt_ok (max_length 1000) (a_description a)) ++
      check "credits" (opt_ok (ge_le 1 10) (a_credits a)) ++
      check "course_type" (opt_ok (enum_field CourseType.of_value) (a_course_type a)) ++
      check "hours_per_week" (opt_ok (ge_le 1 10) (a_hours_per_week a)) ++
      check "required_room_type"
        (opt_ok (enum_field RoomType.of_value) (a_required_room_type a)))%list in
  match opt_enum CourseType.of_value (a_course_type a),
        opt_enum RoomType.of_value (a_required_room_type a) with
  | Some v_course_type, Some v_required_room_type =>
      finish errors
        {| name := a_name a;
           description := a_description a;
           credits := a_credits a;
           course_type := v_course_type;
           hours_per_week := a_hours_per_week a;
           required_room_type := v_required_room_type;
           required_equipment := a_required_equipment a;
           prerequisites := a_prerequisites a;
           is_active := a_is_active a |}
  | _, _ => ValidationError errors
  end.
End CourseUpdate.

Module TimeSlotUpdate.
(** [TimeSlotUpdate] (models.py 356-361). *)
Record t := mk {
  name : option string;
  start_time : option time;
  end_time : option time;
  day_of_week : option DayOfWeek.t;
  is_active : option bool
}.

Record args := mk_args {
  a_name : option string;
  a_start_time : option time;
  a_end_time : option time;
  a_day_of_week : option string;
  a_is_active : option bool
}.

Definition validate (a : args) : validated t :=
  let errors : list string :=
     (check "name" (opt_ok (max_length 50) (a_name a)) ++
      check "day_of_week" (opt_ok (enum_field DayOfWeek.of_value) (a_day_of_week a)))%list in
  match opt_enum DayOfWeek.of_value (a_day_of_week a) with
  | Some v_day_of_week =>
      finish errors
        {| name := a_name a;
           start_time := a_start_time a;
           end_time := a_end_time a;
           day_of_week := v_day_of_week;
           is_active := a_is_active a |}
  | _ => ValidationError errors
  end.
End TimeSlotUpdate.

Module CourseAssignmentCreate.
(** [CourseAssignmentCreate] (models.py 364-367). *)
Record t := mk {
  teacher_id : Z;
  course_id : Z;
  is_primary : bool
}.

Record args := mk_args {
  a_teacher_id : Z;
  a_course_id : Z;
  a_is_primary : option bool
}.

Definition validate (a : args) : validated t :=
  finish
    []
    {| teacher_id := a_teacher_id a;
       course_id := a_course_id a;
       is_primary := default true (a_is_primary a) |}.
End CourseAssignmentCreate.

Module TimetableUpdate.
(** [TimetableUpdate] (models.py 376-379). *)
Record t := mk {
  name : option string;
  status : option TimetableStatus.t;
  generation_rules : option (gmap string json)
}.

Record args := mk_args {
  a_name : option string;
  a_status : option string;
  a_generation_rules : option (gmap string json)
}.

Definition validate (a : args) : validated t :=
  let errors : list string :=
     (check "name" (opt_ok (max_length 100) (a_name a)) ++
      check "status" (opt_ok (enum_field TimetableStatus.of_value) (a_status a)))%list in
  match opt_enum TimetableStatus.of_value (a_status a) with
  | Some v_status =>
      finish errors
        {| name := a_name a;
           status := v_status;
           generation_rules := a_generation_rules a |}
  | _ => ValidationError errors
  end.
End TimetableUpdate.

Module TimetableEntryCreate.
(** [TimetableEntryCreate] (models.py 382-389). *)
Record t := mk {
  timetable_id : Z;
  course_id : Z;
  teacher_id : Z;
  room_id : Z;
  section_id : Z;
  time_slot_id : Z;
  notes : option string
}.

Definition validate (a : t) : validated t :=
  finish
    (check "notes" (opt_ok (max_length 500) (notes a)))%list
    a.
End TimetableEntryCreate.

Module TimetableEntryUpdate.
(** [TimetableEntryUpdate] (models.py 392-398). *)
Record t := mk {
  course_id : option Z;
  teacher_id : option Z;
  room_id : option Z;
  section_id : option Z;
  time_slot_id : option Z;
  notes : option string
}.

Definition validate (a : t) : validated t :=
  finish
    (check "notes" (opt_ok (max_length 500) (notes a)))%list
    a.
End TimetableEntryUpdate.


(** ** The tables and how they refer to each other *)

Module Schema.
(** A [Relationship(back_populates=...)] attribute: the class that declares
    it, its name, the class it leads to, the attribute named by
    [back_populates], and whether it is annotated as a [List]. *)
Record relationship := mk_relationship {
  rel_owner : string;
  rel_attr : string;
  rel_target : string;
  rel_back : string;
  rel_many : bool
}.

(** A [table=True] class: its name, its [__tablename__], and its
    [foreign_key="..."] columns with what they name. *)
Record table := mk_table {
  class_name : string;
  table_name : string;
  foreign_keys : list (string * string)
}.

(** The ten persistent classes (models.py 40-231). *)
Definition tables : list table :=
  [ mk_table "Department" "departments" [];
    mk_table "Semester" "semesters" [("department_id", "departments.id")];
    mk_table "Section" "sections" [("semester_id", "semesters.id")];
    mk_table "Teacher" "teachers" [("department_id", "departments.id")];
    mk_table "Room" "rooms" [("department_id", "departments.id")];
    mk_table "Course" "courses" [("department_id", "departments.id")];
    mk_table "TimeSlot" "time_slots" [];
    mk_table "CourseAssignment" "course_assignments"
      [("teacher_id", "teachers.id"); ("course_id", "courses.id")];
    mk_table "Timetable" "timetables" [("semester_id", "semesters.id")];
    mk_table "TimetableEntry" "timetable_entries"
      [("timetable_id", "timetables.id"); ("course_id", "courses.id");
       ("teacher_id", "teachers.id"); ("room_id", "rooms.id");
       ("section_id", "sections.id"); ("time_slot_id", "time_slots.id")] ].

(** Their relationship attributes, in the order of the file. *)
Definition relationships : list relationship :=
  [ mk_relationship "Department" "semesters" "Semester" "department" true;
    mk_relationship "Department" "teachers" "Teacher" "department" true;
    mk_relationship "Department" "courses" "Course" "department" true;
    mk_relationship "Department" "rooms" "Room" "department" true;
    mk_relationship "Semester" "department" "Department" "semesters" false;
    mk_relationship "Semester" "sections" "Section" "semester" true;
    mk_relationship "Semester" "timetables" "Timetable" "semester" true;
    mk_relationship "Section" "semester" "Semester" "sections" false;
    mk_relationship "Section" "timetable_entries" "TimetableEntry" "section" true;
    mk_relationship "Teacher" "department" "Department" "teachers" false;
    mk_relationship "Teacher" "course_assignments" "CourseAssignment" "teacher" true;
    mk_relationship "Teacher" "timetable_entries" "TimetableEntry" "teacher" true;
    mk_relationship "Room" "department" "Department" "rooms" false;
    mk_relationship "Room" "timetable_entries" "TimetableEntry" "room" true;
    mk_relationship "Course" "department" "Department" "courses" false;
    mk_relationship "Course" "course_assignments" "CourseAssignment" "course" true;
    mk_relationship "Course" "timetable_entries" "TimetableEntry" "course" true;
    mk_relationship "TimeSlot" "timetable_entries" "TimetableEntry" "time_slot" true;
    mk_relationship "CourseAssignment" "teacher" "Teacher" "course_assignments" false;
    mk_relationship "CourseAssignment" "course" "Course" "course_assignments" false;
    mk_relationship "Timetable" "semester" "Semester" "timetables" false;
    mk_relationship "Timetable" "timetable_entries" "TimetableEntry" "timetable" true;
    mk_relationship "TimetableEntry" "timetable" "Timetable" "timetable_entries" false;
    mk_relationship "TimetableEntry" "course" "Course" "timetable_entries" false;
    mk_relationship "TimetableEntry" "teacher" "Teacher" "timetable_entries" false;
    mk_relationship "TimetableEntry" "room" "Room" "timetable_entries" false;
    mk_relationship "TimetableEntry" "section" "Section" "timetable_entries" false;
    mk_relationship "TimetableEntry" "time_slot" "TimeSlot" "timetable_entries" false ].

Definition find_table (class : string) : option table :=
  List.find (fun t => String.eqb (class_name t) class) tables.

(** The key that a foreign key to the table of a class names. *)
Definition key_of (t : table) : string := (table_name t ++ ".id")%string.

(** [r'] is the attribute that [r] names in [back_populates], and names [r]
    back. *)
Definition mirrors (r r' : relationship) : bool :=
  String.eqb (rel_owner r') (rel_target r) && String.eqb (rel_attr r') (rel_back r) &&
  String.eqb (rel_target r') (rel_owner r) && String.eqb (rel_back r') (rel_attr r).

(** The class of a single-valued relationship holds a foreign key to the
    table of the class it leads to. *)
Definition holds_key (r : relationship) : bool :=
  match find_table (rel_owner r), find_table (rel_target r) with
  | Some t, Some t' =>
      existsb (fun fk => String.eqb (snd fk) (key_of t')) (foreign_keys t)
  | _, _ => false
  end.
End Schema.

(** * The generation engine

    [models.py] holds the schema only; the engine that fills a timetable is
    described by the specification (sections 3 to 7) and is modelled here
    from that description, over the identifiers, enums and times of the
    schema above. *)

Module Engine.

(** ** Working set (specification, section 3) *)

(** Modelled from the spec: the CourseDemand row of the working-set table,
    the need for one course to be delivered to one section. The snapshot
    loader, which is outside the engine, resolves the section's capacity
    for the room-fitness constraint. *)
Record CourseDemand := mk_demand {
  cd_course : Z;
  cd_section : Z;
  cd_hours : Z;
  cd_course_type : CourseType.t;
  cd_required_room_type : option RoomType.t;
  cd_required_equipment : list string;
  cd_section_capacity : Z
}.

(** Modelled from the spec: the TeacherCapacity row; the eligible courses
    come from the active course assignments, each with its [is_primary]. *)
Record TeacherCapacity := mk_teacher {
  tc_id : Z;
  tc_courses : list (Z * bool);
  tc_max_hours : Z;
  tc_unavailable_days : list DayOfWeek.t;
  tc_preferred_slots : list Z
}.

(** Modelled from the spec: the RoomResource row. *)
Record RoomResource := mk_room {
  rr_id : Z;
  rr_capacity : Z;
  rr_room_type : RoomType.t;
  rr_equipment : list string;
  rr_available : bool
}.

(** Modelled from the spec: the TimeSlotResource row. *)
Record TimeSlotResource := mk_slot {
  ts_id : Z;
  ts_day : DayOfWeek.t;
  ts_start : time;
  ts_end : time
}.

(** Modelled from the spec: the Assignment row, one hour-unit of a demand
    (named by its course and section) placed on a teacher, a room and a
    time slot. *)
Record Assignment := mk_assignment {
  as_course : Z;
  as_section : Z;
  as_teacher : Z;
  as_room : Z;
  as_slot : Z
}.

(** Modelled from the spec: the immutable snapshot that the loader of
    section 4.1 hands to the engine. *)
Record Snapshot := mk_snapshot {
  demands : list CourseDemand;
  teachers : list TeacherCapacity;
  rooms : list RoomResource;
  slots : list TimeSlotResource
}.

(** Modelled from the spec: the CourseDemand that the snapshot loader of
    section 4.1 derives from a stored course and a stored section that takes
    it: the ids of the two rows, the weekly hours, type and room needs of the
    course, the capacity of the section. A row that was never stored has no
    id and gives no demand. *)
Definition demand_of (c : Course.t) (sec : Section.t) : option CourseDemand :=
  match Course.id c, Section.id sec with
  | Some course, Some section =>
      Some {| cd_course := course;
              cd_section := section;
              cd_hours := Course.hours_per_week c;
              cd_course_type := Course.course_type c;
              cd_required_room_type := Course.required_room_type c;
              cd_required_equipment := Course.required_equipment c;
              cd_section_capacity := Section.capacity sec |}
  | _, _ => None
  end.

(** Modelled from the spec: the eight hard constraints of section 4.2, in
    the order they are listed there. *)
Inductive ConstraintKind :=
| TeacherEligibility
| TeacherOverlap
| RoomOverlap
| SectionOverlap
| RoomFitness
| TeacherAvailability
| TeacherLoad
| WeeklyCoverage.

(** Modelled from the spec: the Conflict row: the constraint violated, the
    demand it is about and a readable explanation. *)
Record Conflict := mk_conflict {
  cf_kind : ConstraintKind;
  cf_course : Z;
  cf_section : Z;
  cf_explanation : string
}.

(** Modelled from the spec: the two reasons a ModelError carries
    (section 7). *)
Inductive ModelErrorReason := NoEligibleTeacher | NoFittingRoom.

(** Modelled from the spec: how a run ends (sections 3 and 7): the ordered
    assignments, or one of the terminal failures. The SnapshotError belongs
    to the loader and is raised before the engine has a snapshot. *)
Inductive Outcome :=
| Generated (assignments : list Assignment)
| ModelError (course section : Z) (reason : ModelErrorReason)
| SearchConflict (conflicts : list Conflict)
| TimeoutError.

(** Modelled from the spec: the result of a run with the number of search
    steps it executed. *)
Record Report := mk_report {
  outcome : Outcome;
  search_steps : Z
}.

(** ** Configuration (specification, section 6) *)

(** Modelled from the spec: the recognised options of [generation_rules]. *)
Record Config := mk_config {
  max_search_steps : Z;
  soft_weight_preferred_slot : Z;
  soft_weight_primary_teacher : Z;
  lock_existing_entries : bool
}.

(** Modelled from the spec: an integer option of [generation_rules], or its default when
    the key is absent or holds something else. *)
Definition int_option (rules : gmap string json) (key : string) (dflt : Z) : Z :=
  match rules !! key with
  | Some (JInt n) => n
  | _ => dflt
  end.

(** Modelled from the spec: a boolean option of [generation_rules], or its default. *)
Definition bool_option (rules : gmap string json) (key : string) (dflt : bool) : bool :=
  match rules !! key with
  | Some (JBool b) => b
  | _ => dflt
  end.

(** Modelled from the spec: the options read from [generation_rules]; the
    step budget defaults to the 200000 the specification suggests. *)
Definition read_config (rules : gmap string json) : Config :=
  {| max_search_steps := int_option rules "max_search_steps" 200000;
     soft_weight_preferred_slot := int_option rules "soft_weight_preferred_slot" 1;
     soft_weight_primary_teacher := int_option rules "soft_weight_primary_teacher" 1;
     lock_existing_entries := bool_option rules "lock_existing_entries" false |}.

(** ** Constraint model (specification, section 4.2) *)

(** Modelled from the spec: the id to entity lookups of the working set (section 9),
    first match in snapshot order. *)
Definition find_slot (s : Snapshot) (id : Z) : option TimeSlotResource :=
  List.find (fun sl => ts_id sl =? id) (slots s).

(** Modelled from the spec: the teacher an id names. *)
Definition find_teacher (s : Snapshot) (id : Z) : option TeacherCapacity :=
  List.find (fun t => tc_id t =? id) (teachers s).

(** Modelled from the spec: a demand is named by its course and its section. *)
Definition same_demand (d : CourseDemand) (course section : Z) : bool :=
  (cd_course d =? course) && (cd_section d =? section).

(** Modelled from the spec: the demand a course and a section name. *)
Definition find_demand (s : Snapshot) (course section : Z) : option CourseDemand :=
  List.find (fun d => same_demand d course section) (demands s).

(** Modelled from the spec: two time slots overlap when they are the same
    slot, or lie on the same day with intersecting intervals. *)
Definition slots_overlap (a b : TimeSlotResource) : bool :=
  DayOfWeek.eqb (ts_day a) (ts_day b) &&
  time_ltb (ts_start a) (ts_end b) && time_ltb (ts_start b) (ts_end a).

(** Modelled from the spec: overlap of the slots that two ids name; a slot overlaps
    itself. *)
Definition slot_overlap (s : Snapshot) (i j : Z) : bool :=
  (i =? j) ||
  match find_slot s i, find_slot s j with
  | Some a, Some b => slots_overlap a b
  | _, _ => false
  end.

(** Modelled from the spec: hard constraint 1. *)
Definition eligible (d : CourseDemand) (t : TeacherCapacity) : bool :=
  existsb (fun cp => fst cp =? cd_course d) (tc_courses t).

(** Modelled from the spec: the second soft preference: the teacher holds the course as
    primary teacher. *)
Definition primary (d : CourseDemand) (t : TeacherCapacity) : bool :=
  existsb (fun cp => (fst cp =? cd_course d) && snd cp) (tc_courses t).

(** Modelled from the spec: hard constraint 5, for a room that is
    available at all. *)
Definition fits (d : CourseDemand) (r : RoomResource) : bool :=
  rr_available r &&
  (cd_section_capacity d <=? rr_capacity r) &&
  match cd_required_room_type d with
  | Some rt => RoomType.eqb rt (rr_room_type r)
  | None => true
  end &&
  forallb (fun e => existsb (String.eqb e) (rr_equipment r)) (cd_required_equipment d).

(** Modelled from the spec: hard constraint 6. *)
Definition available (t : TeacherCapacity) (sl : TimeSlotResource) : bool :=
  negb (existsb (DayOfWeek.eqb (ts_day sl)) (tc_unavailable_days t)).

(** Modelled from the spec: the eligible teachers of a demand, in snapshot order. *)
Definition eligible_teachers (s : Snapshot) (d : CourseDemand) : list TeacherCapacity :=
  List.filter (eligible d) (teachers s).

(** Modelled from the spec: the fitting rooms of a demand, in snapshot order. *)
Definition fitting_rooms (s : Snapshot) (d : CourseDemand) : list RoomResource :=
  List.filter (fits d) (rooms s).

(** Modelled from the spec: a candidate triple for one hour-unit, with the
    two soft preferences it satisfies. *)
Record Candidate := mk_candidate {
  c_teacher : Z;
  c_room : Z;
  c_slot : Z;
  c_preferred : bool;
  c_primary : bool
}.

(** Modelled from the spec: the tie-break order of section 4.3: a preferred
    slot first, then the primary teacher, then the lowest slot id. *)
Definition tie_break_leb (a b : Candidate) : bool :=
  match c_preferred a, c_preferred b with
  | true, false => true
  | false, true => false
  | _, _ =>
      match c_primary a, c_primary b with
      | true, false => true
      | false, true => false
      | _, _ => c_slot a <=? c_slot b
      end
  end.

(** Modelled from the spec: ordering by a preference, as an insertion into a sorted
    list that keeps equal elements in their order. *)
Fixpoint insert_by {A} (leb : A -> A -> bool) (x : A) (l : list A) : list A :=
  match l with
  | [] => [x]
  | y :: l' => if leb x y then x :: l else y :: insert_by leb x l'
  end.

(** Modelled from the spec: a stable insertion sort. *)
Definition sort_by {A} (leb : A -> A -> bool) (l : list A) : list A :=
  fold_right (insert_by leb) [] l.

(** Modelled from the spec: the candidate a teacher, a room and a slot make, when the
    teacher is available on the day of the slot. *)
Definition candidates_of (d : CourseDemand) (t : TeacherCapacity) (r : RoomResource)
    (sl : TimeSlotResource) : list Candidate :=
  if available t sl
  then [ {| c_teacher := tc_id t;
            c_room := rr_id r;
            c_slot := ts_id sl;
            c_preferred := existsb (Z.eqb (ts_id sl)) (tc_preferred_slots t);
            c_primary := primary d t |} ]
  else [].

(** Modelled from the spec: the candidates of a demand: every eligible
    teacher with every fitting room on every slot of a day the teacher is
    available, in tie-break order. *)
Definition initial_domain (s : Snapshot) (d : CourseDemand) : list Candidate :=
  sort_by tie_break_leb
    (flat_map (fun t =>
       flat_map (fun r =>
         flat_map (candidates_of d t r) (slots s))
       (fitting_rooms s d))
     (eligible_teachers s d)).

(** Modelled from the spec: the remaining candidates of each demand. *)
Definition Domains := list (CourseDemand * list Candidate).

(** Modelled from the spec: construction of the constraint model: the
    first demand without an eligible teacher, or without a fitting room,
    stops it with a ModelError; otherwise every demand gets its domain. *)
Fixpoint build_model (s : Snapshot) (ds : list CourseDemand)
  : Domains + (Z * Z * ModelErrorReason) :=
  match ds with
  | [] => inl []
  | d :: ds' =>
      match eligible_teachers s d, fitting_rooms s d with
      | [], _ => inr (cd_course d, cd_section d, NoEligibleTeacher)
      | _ :: _, [] => inr (cd_course d, cd_section d, NoFittingRoom)
      | _ :: _, _ :: _ =>
          match build_model s ds' with
          | inl doms => inl ((d, initial_domain s d) :: doms)
          | inr e => inr e
          end
      end
  end.

(** Modelled from the spec: the remaining candidates of a demand. *)
Definition domain_of (doms : Domains) (d : CourseDemand) : list Candidate :=
  match List.find (fun dc => same_demand (fst dc) (cd_course d) (cd_section d)) doms with
  | Some dc => snd dc
  | None => []
  end.

(** Modelled from the spec: the assignment that places one hour-unit of [d] on [c]. *)
Definition assign (d : CourseDemand) (c : Candidate) : Assignment :=
  {| as_course := cd_course d;
     as_section := cd_section d;
     as_teacher := c_teacher c;
     as_room := c_room c;
     as_slot := c_slot c |}.

(** ** Hard constraints among assignments *)

(** Modelled from the spec: hard constraints 2, 3 and 4 between two
    assignments. *)
Definition teacher_clash (s : Snapshot) (a b : Assignment) : bool :=
  (as_teacher a =? as_teacher b) && slot_overlap s (as_slot a) (as_slot b).

(** Modelled from the spec: hard constraint 3 between two assignments. *)
Definition room_clash (s : Snapshot) (a b : Assignment) : bool :=
  (as_room a =? as_room b) && slot_overlap s (as_slot a) (as_slot b).

(** Modelled from the spec: hard constraint 4 between two assignments. *)
Definition section_clash (s : Snapshot) (a b : Assignment) : bool :=
  (as_section a =? as_section b) && slot_overlap s (as_slot a) (as_slot b).

(** Modelled from the spec: hard constraints 2 to 4 together. *)
Definition clashes (s : Snapshot) (a b : Assignment) : bool :=
  teacher_clash s a b || room_clash s a b || section_clash s a b.

(** Modelled from the spec: one slot is one hour-unit: a teacher's load is
    the number of assignments held. *)
Definition teacher_load (partial : list Assignment) (teacher : Z) : Z :=
  Z.of_nat (length (List.filter (fun b => as_teacher b =? teacher) partial)).

(** Modelled from the spec: hard constraint 7 for one more assignment. *)
Definition load_ok (s : Snapshot) (partial : list Assignment) (a : Assignment) : bool :=
  match find_teacher s (as_teacher a) with
  | Some t => teacher_load partial (as_teacher a) <? tc_max_hours t
  | None => false
  end.

(** Modelled from the spec: the hour-units of a demand that a partial
    assignment places. *)
Definition covered (partial : list Assignment) (course section : Z) : Z :=
  Z.of_nat (length (List.filter
    (fun b => (as_course b =? course) && (as_section b =? section)) partial)).

(** Modelled from the spec: the hour-units of a demand that the partial
    assignment leaves open. *)
Definition remaining (partial : list Assignment) (d : CourseDemand) : nat :=
  Z.to_nat (cd_hours d - covered partial (cd_course d) (cd_section d)).

(** Modelled from the spec: whether a hard constraint refuses adding [a] to
    [partial]. An assignment for a course that the section does not take
    has nothing left to cover. *)
Definition violates (s : Snapshot) (partial : list Assignment) (a : Assignment)
    (k : ConstraintKind) : bool :=
  match k with
  | TeacherEligibility =>
      match find_demand s (as_course a) (as_section a) with
      | Some d => negb (existsb (fun t => (tc_id t =? as_teacher a) && eligible d t) (teachers s))
      | None => false
      end
  | TeacherOverlap => existsb (teacher_clash s a) partial
  | RoomOverlap => existsb (room_clash s a) partial
  | SectionOverlap => existsb (section_clash s a) partial
  | RoomFitness =>
      match find_demand s (as_course a) (as_section a) with
      | Some d => negb (existsb (fun r => (rr_id r =? as_room a) && fits d r) (rooms s))
      | None => false
      end
  | TeacherAvailability =>
      match find_demand s (as_course a) (as_section a) with
      | Some d =>
          negb (existsb (fun t => (tc_id t =? as_teacher a) && eligible d t &&
                                  existsb (fun sl => (ts_id sl =? as_slot a) && available t sl)
                                          (slots s))
                        (teachers s))
      | None => false
      end
  | TeacherLoad => negb (load_ok s partial a)
  | WeeklyCoverage =>
      match find_demand s (as_course a) (as_section a) with
      | Some d => cd_hours d <=? covered partial (as_course a) (as_section a)
      | None => true
      end
  end.

(** Modelled from the spec: the hard constraints in the order of section 4.2. *)
Definition all_kinds : list ConstraintKind :=
  [TeacherEligibility; TeacherOverlap; RoomOverlap; SectionOverlap;
   RoomFitness; TeacherAvailability; TeacherLoad; WeeklyCoverage].

(** Modelled from the spec: the first hard constraint, in the order of
    section 4.2, that refuses adding [a] to [partial]; [None] when all eight
    allow it. *)
Definition refusal (s : Snapshot) (partial : list Assignment) (a : Assignment)
  : option ConstraintKind :=
  List.find (violates s partial a) all_kinds.

(** Modelled from the spec: the readable explanation of a conflict. *)
Definition explanation (k : ConstraintKind) : string :=
  match k with
  | TeacherEligibility => "teacher not eligible for the course"
  | TeacherOverlap => "teacher non-overlap"
  | RoomOverlap => "room non-overlap"
  | SectionOverlap => "section non-overlap"
  | RoomFitness => "no fitting room"
  | TeacherAvailability => "no teacher available"
  | TeacherLoad => "teacher load exceeded"
  | WeeklyCoverage => "weekly coverage exceeded"
  end.

(** Modelled from the spec: the conflict recorded for a demand and a
    constraint. *)
Definition conflict_of (course section : Z) (k : ConstraintKind) : Conflict :=
  {| cf_kind := k; cf_course := course; cf_section := section;
     cf_explanation := explanation k |}.

(** ** Solver (specification, section 4.3) *)

(** Modelled from the spec: propagation: once [a] is placed, the candidates
    of the other demands that would put its teacher, its room or its
    section on an overlapping slot leave their domains. *)
Definition propagate (s : Snapshot) (a : Assignment) (doms : Domains) : Domains :=
  map (fun dc =>
         (fst dc,
          List.filter (fun c => negb (clashes s (assign (fst dc) c) a)) (snd dc)))
      doms.

(** Modelled from the spec: the hard constraints that depend on what is
    placed already; the others are settled in the domains. *)
Definition search_kinds : list ConstraintKind :=
  [TeacherOverlap; RoomOverlap; SectionOverlap; TeacherLoad].

(** Modelled from the spec: the hard constraint recorded when a demand runs
    out of candidates: the one that refuses all of its candidates, failing
    that the one that refuses its best candidate; a demand with no candidate
    at all has no slot on a day an eligible teacher is available. *)
Definition blocking (s : Snapshot) (partial : list Assignment) (d : CourseDemand)
  : list Conflict :=
  match initial_domain s d with
  | [] => [conflict_of (cd_course d) (cd_section d) TeacherAvailability]
  | c0 :: _ as cands =>
      match List.find (fun k => forallb (fun c => violates s partial (assign d c) k) cands)
                      search_kinds with
      | Some k => [conflict_of (cd_course d) (cd_section d) k]
      | None =>
          match List.find (violates s partial (assign d c0)) search_kinds with
          | Some k => [conflict_of (cd_course d) (cd_section d) k]
          | None => []
          end
      end
  end.

(** Modelled from the spec: how the search ends: a complete assignment, the
    candidates exhausted with the trail of blocking constraints, or the
    budget spent. *)
Inductive SearchResult :=
| Found (partial : list Assignment)
| Exhausted (trail : list Conflict)
| OutOfBudget.

(** Modelled from the spec: the step budget; [None] is a search that
    nothing stops. *)
Definition out_of_budget (limit : option Z) (steps : Z) : bool :=
  match limit with
  | Some l => l <=? steps
  | None => false
  end.

(** Modelled from the spec: the candidates of one hour-unit tried in
    tie-break order. Each tentative assignment is one step, taken only
    while the budget lasts; a candidate that the teacher-load constraint
    refuses is passed over; a placed candidate is kept when the rest of the
    search succeeds below it ([descend]), undone when the search below is
    exhausted, and the next candidate is tried. *)
Fixpoint try_candidates (limit : option Z) (allowed : Candidate -> bool)
    (descend : Candidate -> Z -> SearchResult * Z)
    (dead_end : list Conflict)
    (cands : list Candidate) (steps : Z) (trail : list Conflict)
  : SearchResult * Z :=
  match cands with
  | [] => (Exhausted (trail ++ dead_end), steps)
  | c :: cands' =>
      if out_of_budget limit steps then (OutOfBudget, steps)
      else if allowed c then
        match descend c (steps + 1) with
        | (Exhausted below, steps') =>
            try_candidates limit allowed descend dead_end cands' steps' (trail ++ below)
        | found_or_stopped => found_or_stopped
        end
      else try_candidates limit allowed descend dead_end cands' (steps + 1) trail
  end.

(** Modelled from the spec: depth-first backtracking over the open
    hour-units, with the newest assignment at the head of [partial]. *)
Fixpoint search (s : Snapshot) (limit : option Z) (vars : list CourseDemand)
    (doms : Domains) (partial : list Assignment) (steps : Z)
  : SearchResult * Z :=
  match vars with
  | [] => (Found partial, steps)
  | d :: vars' =>
      try_candidates limit
        (fun c => load_ok s partial (assign d c))
        (fun c steps' =>
           search s limit vars' (propagate s (assign d c) doms)
                  (assign d c :: partial) steps')
        (blocking s partial d)
        (domain_of doms d) steps []
  end.

(** Modelled from the spec: with [lock_existing_entries], the published
    entries are placed first, in their order, each against the ones before
    it; an entry that a hard constraint refuses ends the run. *)
Fixpoint preassign (s : Snapshot) (locked : list Assignment) (partial : list Assignment)
  : list Assignment + Conflict :=
  match locked with
  | [] => inl partial
  | a :: locked' =>
      match refusal s partial a with
      | None => preassign s locked' (a :: partial)
      | Some k => inr (conflict_of (as_course a) (as_section a) k)
      end
  end.

(** Modelled from the spec: most-constrained-first: fewest candidates
    first. *)
Definition fewer_candidates (a b : CourseDemand * list Candidate) : bool :=
  Nat.leb (length (snd a)) (length (snd b)).

(** Modelled from the spec: the demands in the order the search takes
    them. *)
Definition search_order (doms : Domains) : list CourseDemand :=
  map fst (sort_by fewer_candidates doms).

(** Modelled from the spec: one variable per open hour-unit. *)
Definition open_units (partial : list Assignment) (ds : list CourseDemand)
  : list CourseDemand :=
  flat_map (fun d => repeat d (remaining partial d)) ds.

(** ** Conflict reporter (specification, section 4.4) *)

(** Modelled from the spec: two conflicts about the same demand. *)
Definition same_conflict_demand (a b : Conflict) : bool :=
  (cf_course a =? cf_course b) && (cf_section a =? cf_section b).

(** Modelled from the spec: the trail collapsed to one conflict per
    demand, the first recorded. *)
Fixpoint report_conflicts (trail : list Conflict) : list Conflict :=
  match trail with
  | [] => []
  | c :: trail' =>
      c :: List.filter (fun c' => negb (same_conflict_demand c c')) (report_conflicts trail')
  end.

(** ** A generation run *)

(** Modelled from the spec: the end of the search as the outcome of the
    run: the assignments, oldest first, on success; the reported conflicts
    when the candidates are exhausted; the timeout when the budget is. *)
Definition conclude (r : SearchResult * Z) : Report :=
  match r with
  | (Found partial, n) => {| outcome := Generated (rev partial); search_steps := n |}
  | (Exhausted trail, n) =>
      {| outcome := SearchConflict (report_conflicts trail); search_steps := n |}
  | (OutOfBudget, n) => {| outcome := TimeoutError; search_steps := n |}
  end.

(** Modelled from the spec: the control flow of section 2: constraint
    model, then the locked entries, then the search, then the result or the
    conflict report. *)
Definition run (s : Snapshot) (published : list Assignment) (limit : option Z)
    (cfg : Config) : Report :=
  match build_model s (demands s) with
  | inr (course, section, reason) =>
      {| outcome := ModelError course section reason; search_steps := 0 |}
  | inl doms =>
      match preassign s (if lock_existing_entries cfg then published else []) [] with
      | inr c => {| outcome := SearchConflict [c]; search_steps := 0 |}
      | inl locked =>
          conclude (search s limit (open_units locked (search_order doms))
                           (fold_right (propagate s) doms locked) locked 0)
      end
  end.

(** Modelled from the spec: a generation run under the step budget of its
    [generation_rules]. *)
Definition generate (s : Snapshot) (published : list Assignment)
    (rules : gmap string json) : Report :=
  run s published (Some (max_search_steps (read_config rules))) (read_config rules).

(** Modelled from the spec: the same run with no step budget, the measure of
    what the search needs. *)
Definition generate_unbounded (s : Snapshot) (published : list Assignment)
    (rules : gmap string json) : Report :=
  run s published None (read_config rules).

(** ** Result materializer (specification, section 4.5) *)

(** Modelled from the spec: an assignment as a [TimetableEntry] record of
    the timetable being generated. *)
Definition entry_of (timetable_id : Z) (now : datetime) (a : Assignment)
  : TimetableEntry.t :=
  {| TimetableEntry.id := None;
     TimetableEntry.timetable_id := timetable_id;
     TimetableEntry.course_id := as_course a;
     TimetableEntry.teacher_id := as_teacher a;
     TimetableEntry.room_id := as_room a;
     TimetableEntry.section_id := as_section a;
     TimetableEntry.time_slot_id := as_slot a;
     TimetableEntry.notes := None;
     TimetableEntry.created_at := now;
     TimetableEntry.updated_at := now |}.

(** Modelled from the spec: the entries of a generated result. *)
Definition materialize (timetable_id : Z) (now : datetime) (assignments : list Assignment)
  : list TimetableEntry.t :=
  map (entry_of timetable_id now) assignments.

(** Modelled from the spec: whether an assignment is on a slot its teacher
    prefers. *)
Definition preferred_slot (s : Snapshot) (a : Assignment) : bool :=
  match find_teacher s (as_teacher a) with
  | Some t => existsb (Z.eqb (as_slot a)) (tc_preferred_slots t)
  | None => false
  end.

(** Modelled from the spec: whether an assignment is held by the primary teacher
    of its course. *)
Definition primary_teacher (s : Snapshot) (a : Assignment) : bool :=
  match find_teacher s (as_teacher a) with
  | Some t => existsb (fun cp => (fst cp =? as_course a) && snd cp) (tc_courses t)
  | None => false
  end.

(** Modelled from the spec: the soft-constraint score of the generation
    report, satisfied preferences over all of them, as numerator and
    denominator, each preference counting with its configured weight. *)
Definition soft_score (s : Snapshot) (cfg : Config) (assignments : list Assignment)
  : Z * Z :=
  (fold_right Z.add 0
     (map (fun a =>
        (if preferred_slot s a then soft_weight_preferred_slot cfg else 0) +
        (if primary_teacher s a then soft_weight_primary_teacher cfg else 0))
      assignments),
   (soft_weight_preferred_slot cfg + soft_weight_primary_teacher cfg) *
   Z.of_nat (length assignments)).

(** Modelled from the spec: a published entry read back as the assignment it
    records. *)
Definition assignment_of (e : TimetableEntry.t) : Assignment :=
  {| as_course := TimetableEntry.course_id e;
     as_section := TimetableEntry.section_id e;
     as_teacher := TimetableEntry.teacher_id e;
     as_room := TimetableEntry.room_id e;
     as_slot := TimetableEntry.time_slot_id e |}.

(** ** Predicates on the state of a run *)

Definition demand_key (d : CourseDemand) : Z * Z := (cd_course d, cd_section d).

(** No two elements of a partial assignment clash. *)
Fixpoint compatible (s : Snapshot) (partial : list Assignment) : Prop :=
  match partial with
  | [] => True
  | a :: partial' =>
      (forall b, In b partial' -> clashes s a b = false) /\ compatible s partial'
  end.

(** Every candidate left in a domain is free of clashes with what is
    placed. *)
Definition pruned (s : Snapshot) (doms : Domains) (partial : list Assignment) : Prop :=
  forall dc c b, In dc doms -> In c (snd dc) -> In b partial ->
                 clashes s (assign (fst dc) c) b = false.





(** [cs] places the open hour-units [vars] one after the other on top of
    [partial]: each candidate is one of its demand, clashes with nothing
    placed before it and keeps its teacher within the weekly load. *)
Fixpoint places (s : Snapshot) (vars : list CourseDemand) (partial : list Assignment)
    (cs : list Candidate) : Prop :=
  match vars, cs with
  | [], [] => True
  | d :: vars', c :: cs' =>
      In c (initial_domain s d) /\
      (forall b, In b partial -> clashes s (assign d c) b = false) /\
      load_ok s partial (assign d c) = true /\
      places s vars' (assign d c :: partial) cs'
  | _, _ => False
  end.






(** Propagation removes nothing that could still be placed. *)
Definition domains_complete (s : Snapshot) (doms : Domains) (partial : list Assignment)
  : Prop :=
  forall d c, In d (demands s) -> In c (initial_domain s d) ->
    (forall b, In b partial -> clashes s (assign d c) b = false) ->
    In c (domain_of doms d).

(** How a run under budget [l] relates to the run that nothing stops: the
    same result when the latter needs no more steps than the budget gives,
    out of budget otherwise. *)
Definition agrees (l : Z) (free bounded : SearchResult * Z) : Prop :=
  if snd free <=? Z.max 0 l then bounded = free else fst bounded = OutOfBudget.

End Engine.

(** ** Scenarios of the specification, section 8 *)

Module Scenario.
Import Engine.

Definition period (id : Z) (day : DayOfWeek.t) (h : Z) : TimeSlotResource :=
  {| ts_id := id; ts_day := day; ts_start := mk_time h 0 0 0; ts_end := mk_time (h + 1) 0 0 0 |}.

Definition lecture (course section hours : Z) : CourseDemand :=
  {| cd_course := course; cd_section := section; cd_hours := hours;
     cd_course_type := CourseType.THEORY;
     cd_required_room_type := None; cd_required_equipment := [];
     cd_section_capacity := 30 |}.

Definition lecturer (id : Z) (courses : list (Z * bool)) (max_hours : Z) : TeacherCapacity :=
  {| tc_id := id; tc_courses := courses; tc_max_hours := max_hours;
     tc_unavailable_days := []; tc_preferred_slots := [] |}.

Definition classroom (id : Z) : RoomResource :=
  {| rr_id := id; rr_capacity := 40; rr_room_type := RoomType.CLASSROOM;
     rr_equipment := []; rr_available := true |}.

(** Trivial success: one demand of one hour, one teacher, one room, one
    slot. *)
Definition trivial : Snapshot :=
  {| demands := [lecture 101 1 1];
     teachers := [ {| tc_id := 7; tc_courses := [(101, true)]; tc_max_hours := 20;
                      tc_unavailable_days := []; tc_preferred_slots := [1] |} ];
     rooms := [classroom 5];
     slots := [period 1 DayOfWeek.MONDAY 9] |}.

(** Forced conflict: two demands of the same section, one slot. *)
Definition forced_conflict : Snapshot :=
  {| demands := [lecture 101 1 1; lecture 102 1 1];
     teachers := [lecturer 7 [(101, true)] 20; lecturer 8 [(102, true)] 20];
     rooms := [classroom 5; classroom 6];
     slots := [period 1 DayOfWeek.MONDAY 9] |}.

(** Load exhaustion: one teacher with two hours a week, two demands of two
    hours each. *)
Definition load_exhaustion : Snapshot :=
  {| demands := [lecture 101 1 2; lecture 102 2 2];
     teachers := [lecturer 7 [(101, true); (102, true)] 2];
     rooms := [classroom 5; classroom 6];
     slots := [period 1 DayOfWeek.MONDAY 9; period 2 DayOfWeek.MONDAY 10;
               period 3 DayOfWeek.TUESDAY 9; period 4 DayOfWeek.TUESDAY 10] |}.

(** A feasible week: three courses for two sections, two teachers. *)
Definition week : Snapshot :=
  {| demands := [lecture 101 1 2; lecture 102 1 2; lecture 101 2 2];
     teachers := [ {| tc_id := 7; tc_courses := [(101, true); (102, false)];
                      tc_max_hours := 4; tc_unavailable_days := [DayOfWeek.TUESDAY];
                      tc_preferred_slots := [2] |};
                   lecturer 8 [(102, true); (101, false)] 4 ];
     rooms := [classroom 5; classroom 6];
     slots := [period 1 DayOfWeek.MONDAY 9; period 2 DayOfWeek.MONDAY 10;
               period 3 DayOfWeek.TUESDAY 9; period 4 DayOfWeek.TUESDAY 10] |}.

(** A course nobody is assigned to teach. *)
Definition no_teacher : Snapshot :=
  {| demands := [lecture 101 1 1; lecture 103 1 1];
     teachers := [lecturer 7 [(101, true)] 20];
     rooms := [classroom 5];
     slots := [period 1 DayOfWeek.MONDAY 9] |}.




Definition rules (steps : Z) (lock : bool) : gmap string json :=
  <["max_search_steps" := JInt steps]> (<["lock_existing_entries" := JBool lock]> ∅).

End Scenario.


(** ** Sample inputs *)

Module Samples.
(** A slot that ends an hour before it starts. *)
Definition backwards_slot : TimeSlotCreate.args :=
  {| TimeSlotCreate.a_name := "Period 1";
     TimeSlotCreate.a_start_time := mk_time 10 0 0 0;
     TimeSlotCreate.a_end_time := mk_time 9 0 0 0;
     TimeSlotCreate.a_day_of_week := "MONDAY" |}.

Definition backwards_slot_row : TimeSlot.args :=
  {| TimeSlot.a_id := None;
     TimeSlot.a_name := "Period 1";
     TimeSlot.a_start_time := mk_time 10 0 0 0;
     TimeSlot.a_end_time := mk_time 9 0 0 0;
     TimeSlot.a_day_of_week := "MONDAY";
     TimeSlot.a_is_active := None;
     TimeSlot.a_created_at := None |}.

Definition algebra : CourseCreate.args :=
  {| CourseCreate.a_course_code := "MA101";
     CourseCreate.a_name := "Linear Algebra";
     CourseCreate.a_description := None;
     CourseCreate.a_credits := 4;
     CourseCreate.a_course_type := "THEORY";
     CourseCreate.a_hours_per_week := 3;
     CourseCreate.a_required_room_type := Some "CLASSROOM";
     CourseCreate.a_required_equipment := None;
     CourseCreate.a_semester_number := 1;
     CourseCreate.a_department_id := 1;
     CourseCreate.a_prerequisites := None |}.

Definition algebra_row : Course.args :=
  {| Course.a_id := None;
     Course.a_course_code := "MA101";
     Course.a_name := "Linear Algebra";
     Course.a_description := None;
     Course.a_credits := 4;
     Course.a_course_type := "THEORY";
     Course.a_hours_per_week := 3;
     Course.a_required_room_type := Some "CLASSROOM";
     Course.a_required_equipment := None;
     Course.a_semester_number := 1;
     Course.a_department_id := 1;
     Course.a_prerequisites := None;
     Course.a_is_active := None;
     Course.a_created_at := None;
     Course.a_updated_at := None |}.

(** A teacher whose unavailable days hold a string that is no day. *)
Definition funday_teacher : TeacherCreate.args :=
  {| TeacherCreate.a_employee_id := "E-17";
     TeacherCreate.a_first_name := "Ada";
     TeacherCreate.a_last_name := "Byron";
     TeacherCreate.a_email := "ada@example.org";
     TeacherCreate.a_phone := None;
     TeacherCreate.a_department_id := 1;
     TeacherCreate.a_specializations := None;
     TeacherCreate.a_max_hours_per_week := None;
     TeacherCreate.a_preferred_time_slots := None;
     TeacherCreate.a_unavailable_days := Some ["FUNDAY"] |}.

Definition funday_teacher_row : Teacher.args :=
  {| Teacher.a_id := None;
     Teacher.a_employee_id := "E-17";
     Teacher.a_first_name := "Ada";
     Teacher.a_last_name := "Byron";
     Teacher.a_email := "ada@example.org";
     Teacher.a_phone := None;
     Teacher.a_department_id := 1;
     Teacher.a_specializations := None;
     Teacher.a_max_hours_per_week := None;
     Teacher.a_preferred_time_slots := None;
     Teacher.a_unavailable_days := Some ["FUNDAY"];
     Teacher.a_is_active := None;
     Teacher.a_created_at := None;
     Teacher.a_updated_at := None |}.

Definition fewer_hours : TeacherUpdate.t :=
  {| TeacherUpdate.first_name := None;
     TeacherUpdate.last_name := None;
     TeacherUpdate.email := None;
     TeacherUpdate.phone := None;
     TeacherUpdate.specializations := None;
     TeacherUpdate.max_hours_per_week := Some 12;
     TeacherUpdate.preferred_time_slots := None;
     TeacherUpdate.unavailable_days := None;
     TeacherUpdate.is_active := None |}.
(** A course of zero hours a week, as keyword arguments of the table
    class, and a section that takes it. *)
Definition idle_course : Course.kwargs :=
  {| Course.k_id := Some 101;
     Course.k_course_code := "MA101";
     Course.k_name := "Linear Algebra";
     Course.k_description := None;
     Course.k_credits := 4;
     Course.k_course_type := CourseType.THEORY;
     Course.k_hours_per_week := 0;
     Course.k_required_room_type := None;
     Course.k_required_equipment := None;
     Course.k_semester_number := 1;
     Course.k_department_id := 1;
     Course.k_prerequisites := None;
     Course.k_is_active := None;
     Course.k_created_at := None;
     Course.k_updated_at := None |}.

Definition section_a : Section.t :=
  {| Section.id := Some 1;
     Section.name := "A";
     Section.capacity := 30;
     Section.semester_id := 1;
     Section.is_active := true;
     Section.created_at := 0;
     Section.updated_at := 0 |}.

Definition stored_algebra : Course.args :=
  {| Course.a_id := Some 101;
     Course.a_course_code := "MA101";
     Course.a_name := "Linear Algebra";
     Course.a_description := None;
     Course.a_credits := 4;
     Course.a_course_type := "THEORY";
     Course.a_hours_per_week := 3;
     Course.a_required_room_type := Some "CLASSROOM";
     Course.a_required_equipment := None;
     Course.a_semester_number := 1;
     Course.a_department_id := 1;
     Course.a_prerequisites := None;
     Course.a_is_active := None;
     Course.a_created_at := None;
     Course.a_updated_at := None |}.
End Samples.

(** ** Sample rows and requests *)

Module Fixtures.
Definition department : Department.args :=
  {| Department.a_id := None;
     Department.a_name := "Mathematics";
     Department.a_code := "MATH";
     Department.a_description := None;
     Department.a_is_active := None;
     Department.a_created_at := None;
     Department.a_updated_at := None |}.

Definition department_create : DepartmentCreate.t :=
  {| DepartmentCreate.name := "Mathematics";
     DepartmentCreate.code := "MATH";
     DepartmentCreate.description := None |}.

Definition department_update : DepartmentUpdate.t :=
  {| DepartmentUpdate.name := Some "Mathematics";
     DepartmentUpdate.code := Some "MATH";
     DepartmentUpdate.description := Some "Pure and applied";
     DepartmentUpdate.is_active := None |}.

Definition semester : Semester.args :=
  {| Semester.a_id := None;
     Semester.a_name := "Fall 2024";
     Semester.a_year := 2020;
     Semester.a_semester_number := 1;
     Semester.a_start_date := 0;
     Semester.a_end_date := 0;
     Semester.a_department_id := 1;
     Semester.a_is_active := None;
     Semester.a_created_at := None;
     Semester.a_updated_at := None |}.

Definition semester_create : SemesterCreate.t :=
  {| SemesterCreate.name := "Fall 2024";
     SemesterCreate.year := 2020;
     SemesterCreate.semester_number := 1;
     SemesterCreate.start_date := 0;
     SemesterCreate.end_date := 0;
     SemesterCreate.department_id := 1 |}.

Definition semester_update : SemesterUpdate.t :=
  {| SemesterUpdate.name := Some "Fall 2024";
     SemesterUpdate.year := Some 2020;
     SemesterUpdate.semester_number := Some 1;
     SemesterUpdate.start_date := None;
     SemesterUpdate.end_date := None;
     SemesterUpdate.is_active := None |}.

Definition section : Section.args :=
  {| Section.a_id := None;
     Section.a_name := "CS-A";
     Section.a_capacity := 1;
     Section.a_semester_id := 1;
     Section.a_is_active := None;
     Section.a_created_at := None;
     Section.a_updated_at := None |}.

Definition section_create : SectionCreate.t :=
  {| SectionCreate.name := "CS-A";
     SectionCreate.capacity := 1;
     SectionCreate.semester_id := 1 |}.

Definition section_update : SectionUpdate.t :=
  {| SectionUpdate.name := Some "CS-A";
     SectionUpdate.capacity := Some 1;
     SectionUpdate.is_active := None |}.

Definition room : Room.args :=
  {| Room.a_id := None;
     Room.a_room_number := "B-204";
     Room.a_building := "Main";
     Room.a_floor := None;
     Room.a_capacity := 1;
     Room.a_room_type := "LAB";
     Room.a_equipment := None;
     Room.a_department_id := None;
     Room.a_is_available := None;
     Room.a_created_at := None;
     Room.a_updated_at := None |}.

Definition room_create : RoomCreate.args :=
  {| RoomCreate.a_room_number := "B-204";
     RoomCreate.a_building := "Main";
     RoomCreate.a_floor := None;
     RoomCreate.a_capacity := 1;
     RoomCreate.a_room_type := "LAB";
     RoomCreate.a_equipment := None;
     RoomCreate.a_department_id := None |}.

Definition room_update : RoomUpdate.args :=
  {| RoomUpdate.a_room_number := Some "B-204";
     RoomUpdate.a_building := Some "Main";
     RoomUpdate.a_floor := None;
     RoomUpdate.a_capacity := Some 1;
     RoomUpdate.a_room_type := Some "LAB";
     RoomUpdate.a_equipment := None;
     RoomUpdate.a_is_available := None |}.

Definition course : Course.args :=
  {| Course.a_id := None;
     Course.a_course_code := "MA101";
     Course.a_name := "Linear Algebra";
     Course.a_description := None;
     Course.a_credits := 1;
     Course.a_course_type := "THEORY";
     Course.a_hours_per_week := 1;
     Course.a_required_room_type := None;
     Course.a_required_equipment := None;
     Course.a_semester_number := 1;
     Course.a_department_id := 1;
     Course.a_prerequisites := None;
     Course.a_is_active := None;
     Course.a_created_at := None;
     Course.a_updated_at := None |}.

Definition course_create : CourseCreate.args :=
  {| CourseCreate.a_course_code := "MA101";
     CourseCreate.a_name := "Linear Algebra";
     CourseCreate.a_description := None;
     CourseCreate.a_credits := 1;
     CourseCreate.a_course_type := "THEORY";
     CourseCreate.a_hours_per_week := 1;
     CourseCreate.a_required_room_type := None;
     CourseCreate.a_required_equipment := None;
     CourseCreate.a_semester_number := 1;
     CourseCreate.a_department_id := 1;
     CourseCreate.a_prerequisites := None |}.

Definition course_update : CourseUpdate.args :=
  {| CourseUpdate.a_name := Some "Linear Algebra";
     CourseUpdate.a_description := Some "Pure and applied";
     CourseUpdate.a_credits := Some 1;
     CourseUpdate.a_course_type := Some "THEORY";
     CourseUpdate.a_hours_per_week := Some 1;
     CourseUpdate.a_required_room_type := Some "LAB";
     CourseUpdate.a_required_equipment := None;
     CourseUpdate.a_prerequisites := None;
     CourseUpdate.a_is_active := None |}.

Definition teacher : Teacher.args :=
  {| Teacher.a_id := None;
     Teacher.a_employee_id := "E-17";
     Teacher.a_first_name := "Ada";
     Teacher.a_last_name := "Byron";
     Teacher.a_email := "ada@example.org";
     Teacher.a_phone := None;
     Teacher.a_department_id := 1;
     Teacher.a_specializations := None;
     Teacher.a_max_hours_per_week := None;
     Teacher.a_preferred_time_slots := None;
     Teacher.a_unavailable_days := None;
     Teacher.a_is_active := None;
     Teacher.a_created_at := None;
     Teacher.a_updated_at := None |}.

Definition teacher_create : TeacherCreate.args :=
  {| TeacherCreate.a_employee_id := "E-17";
     TeacherCreate.a_first_name := "Ada";
     TeacherCreate.a_last_name := "Byron";
     TeacherCreate.a_email := "ada@example.org";
     TeacherCreate.a_phone := None;
     TeacherCreate.a_department_id := 1;
     TeacherCreate.a_specializations := None;
     TeacherCreate.a_max_hours_per_week := None;
     TeacherCreate.a_preferred_time_slots := None;
     TeacherCreate.a_unavailable_days := None |}.

Definition teacher_update : TeacherUpdate.t :=
  {| TeacherUpdate.first_name := Some "Ada";
     TeacherUpdate.last_name := Some "Byron";
     TeacherUpdate.email := Some "ada@example.org";
     TeacherUpdate.phone := Some "555-0100";
     TeacherUpdate.specializations := None;
     TeacherUpdate.max_hours_per_week := Some 12;
     TeacherUpdate.preferred_time_slots := None;
     TeacherUpdate.unavailable_days := None;
     TeacherUpdate.is_active := None |}.

Definition time_slot : TimeSlot.args :=
  {| TimeSlot.a_id := None;
     TimeSlot.a_name := "Period 1";
     TimeSlot.a_start_time := (mk_time 9 0 0 0);
     TimeSlot.a_end_time := (mk_time 10 0 0 0);
     TimeSlot.a_day_of_week := "MONDAY";
     TimeSlot.a_is_active := None;
     TimeSlot.a_created_at := None |}.

Definition time_slot_create : TimeSlotCreate.args :=
  {| TimeSlotCreate.a_name := "Period 1";
     TimeSlotCreate.a_start_time := (mk_time 9 0 0 0);
     TimeSlotCreate.a_end_time := (mk_time 10 0 0 0);
     TimeSlotCreate.a_day_of_week := "MONDAY" |}.

Definition time_slot_update : TimeSlotUpdate.args :=
  {| TimeSlotUpdate.a_name := Some "Period 1";
     TimeSlotUpdate.a_start_time := None;
     TimeSlotUpdate.a_end_time := None;
     TimeSlotUpdate.a_day_of_week := Some "MONDAY";
     TimeSlotUpdate.a_is_active := None |}.

Definition timetable : Timetable.args :=
  {| Timetable.a_id := None;
     Timetable.a_name := "Fall 2024";
     Timetable.a_semester_id := 1;
     Timetable.a_status := None;
     Timetable.a_generation_rules := None;
     Timetable.a_created_at := None;
     Timetable.a_updated_at := None;
     Timetable.a_generated_at := None;
     Timetable.a_generated_by := None |}.

Definition timetable_create : TimetableCreate.args :=
  {| TimetableCreate.a_name := "Fall 2024";
     TimetableCreate.a_semester_id := 1;
     TimetableCreate.a_generation_rules := None |}.

Definition timetable_update : TimetableUpdate.args :=
  {| TimetableUpdate.a_name := Some "Fall 2024";
     TimetableUpdate.a_status := Some "PUBLISHED";
     TimetableUpdate.a_generation_rules := None |}.

Definition timetable_entry : TimetableEntry.args :=
  {| TimetableEntry.a_id := None;
     TimetableEntry.a_timetable_id := 1;
     TimetableEntry.a_course_id := 1;
     TimetableEntry.a_teacher_id := 1;
     TimetableEntry.a_room_id := 1;
     TimetableEntry.a_section_id := 1;
     TimetableEntry.a_time_slot_id := 1;
     TimetableEntry.a_notes := None;
     TimetableEntry.a_created_at := None;
     TimetableEntry.a_updated_at := None |}.

Definition timetable_entry_create : TimetableEntryCreate.t :=
  {| TimetableEntryCreate.timetable_id := 1;
     TimetableEntryCreate.course_id := 1;
     TimetableEntryCreate.teacher_id := 1;
     TimetableEntryCreate.room_id := 1;
     TimetableEntryCreate.section_id := 1;
     TimetableEntryCreate.time_slot_id := 1;
     TimetableEntryCreate.notes := None |}.

Definition timetable_entry_update : TimetableEntryUpdate.t :=
  {| TimetableEntryUpdate.course_id := None;
     TimetableEntryUpdate.teacher_id := None;
     TimetableEntryUpdate.room_id := None;
     TimetableEntryUpdate.section_id := None;
     TimetableEntryUpdate.time_slot_id := None;
     TimetableEntryUpdate.notes := Some "moved from B-101" |}.

Definition course_assignment : CourseAssignment.args :=
  {| CourseAssignment.a_id := None;
     CourseAssignment.a_teacher_id := 1;
     CourseAssignment.a_course_id := 1;
     CourseAssignment.a_assigned_at := None;
     CourseAssignment.a_is_primary := None;
     CourseAssignment.a_is_active := None |}.

Definition course_assignment_create : CourseAssignmentCreate.args :=
  {| CourseAssignmentCreate.a_teacher_id := 1;
     CourseAssignmentCreate.a_course_id := 1;
     CourseAssignmentCreate.a_is_primary := None |}.

End Fixtures.

(* THEOREMS *)

(** * Properties of the data model *)

Lemma check_nil (field : string) (ok : bool) : check field ok = [] <-> ok = true.
Proof. destruct ok; simpl; split; congruence. Qed.

Lemma finish_Valid {A} (errors : list string) (a x : A) :
  finish errors a = Valid x <-> errors = [] /\ a = x.
Proof.
  destruct errors; simpl; split.
  - intros [= ->]. auto.
  - intros [_ ->]. reflexivity.
  - discriminate.
  - intros [[=] _].
  Qed.

Lemma ge_le_spec (lo hi n : Z) : ge_le lo hi n = true <-> lo <= n <= hi.
Proof. unfold ge_le. rewrite andb_true_iff, !Z.leb_le. tauto. Qed.

(** Splits [checks = []] into one hypothesis per field. *)
Ltac split_checks H :=
  repeat match type of H with
         | (_ ++ _)%list = [] => let H1 := fresh "Hfield" in
                                 apply app_eq_nil in H as [H1 H];
                                 apply check_nil in H1
         | check _ _ = [] => apply check_nil in H
         end.

Lemma Course_validate_hours (created_now updated_now : datetime)
    (a : Course.args) (c : Course.t) :
  Course.validate created_now updated_now a = Valid c -> 1 <= Course.hours_per_week c <= 10.
Proof.
  unfold Course.validate. intros H.
  destruct (CourseType.of_value _); [|discriminate].
  destruct (opt_enum _ _); [|discriminate].
  apply finish_Valid in H as [He <-]. split_checks He. simpl.
  now apply ge_le_spec.
Qed.

Lemma CourseCreate_validate_hours (a : CourseCreate.args) (c : CourseCreate.t) :
  CourseCreate.validate a = Valid c -> 1 <= CourseCreate.hours_per_week c <= 10.
Proof.
  unfold CourseCreate.validate. intros H.
  destruct (CourseType.of_value _); [|discriminate].
  destruct (opt_enum _ _); [|discriminate].
  apply finish_Valid in H as [He <-]. split_checks He. simpl.
  now apply ge_le_spec.
Qed.

Lemma DayOfWeek_of_value_spec (s : string) (d : DayOfWeek.t) :
  DayOfWeek.of_value s = Some d <-> DayOfWeek.value d = s.
Proof.
  split.
  - intros H. apply find_some in H as [_ H]. now apply String.eqb_eq in H.
  - intros <-. now destruct d.
Qed.

Lemma CourseType_of_value_spec (s : string) (c : CourseType.t) :
  CourseType.of_value s = Some c <-> CourseType.value c = s.
Proof.
  split.
  - intros H. apply find_some in H as [_ H]. now apply String.eqb_eq in H.
  - intros <-. now destruct c.
Qed.

Lemma RoomType_of_value_spec (s : string) (r : RoomType.t) :
  RoomType.of_value s = Some r <-> RoomType.value r = s.
Proof.
  split.
  - intros H. apply find_some in H as [_ H]. now apply String.eqb_eq in H.
  - intros <-. now destruct r.
Qed.

Lemma TimetableStatus_of_value_spec (s : string) (x : TimetableStatus.t) :
  TimetableStatus.of_value s = Some x <-> TimetableStatus.value x = s.
Proof.
  split.
  - intros H. apply find_some in H as [_ H]. now apply String.eqb_eq in H.
  - intros <-. now destruct x.
Qed.

(** C2, as stated, fails: a [TimeSlotCreate] and a [TimeSlot] whose start
    time 10:00 is after the end time 09:00 are both accepted. *)
Lemma timeslot_start_after_end_accepted :
  (exists ts, TimeSlotCreate.validate Samples.backwards_slot = Valid ts /\
              time_wf (TimeSlotCreate.start_time ts) = true /\
              time_wf (TimeSlotCreate.end_time ts) = true /\
              time_ltb (TimeSlotCreate.start_time ts) (TimeSlotCreate.end_time ts) = false) /\
  (exists ts, TimeSlot.validate 0 Samples.backwards_slot_row = Valid ts /\
              time_ltb (TimeSlot.start_time ts) (TimeSlot.end_time ts) = false).
Proof. split; eexists; (split; [reflexivity|]); simpl; auto. Qed.

(** C2, amended: validation of a [TimeSlotCreate] or [TimeSlot] looks at the
    length of [name] (at most 50) and at [day_of_week] (a member of
    [DayOfWeek]) and at nothing else; [start_time] and [end_time] are stored
    as given, in whatever order they come. *)
Theorem timeslot_validation_ignores_time_order :
  (forall (a : TimeSlotCreate.args) (ts : TimeSlotCreate.t),
      TimeSlotCreate.validate a = Valid ts <->
      (String.length (TimeSlotCreate.a_name a) <= 50)%nat /\
      DayOfWeek.value (TimeSlotCreate.day_of_week ts) = TimeSlotCreate.a_day_of_week a /\
      TimeSlotCreate.name ts = TimeSlotCreate.a_name a /\
      TimeSlotCreate.start_time ts = TimeSlotCreate.a_start_time a /\
      TimeSlotCreate.end_time ts = TimeSlotCreate.a_end_time a) /\
  (forall (utcnow : datetime) (a : TimeSlot.args) (ts : TimeSlot.t),
      TimeSlot.validate utcnow a = Valid ts <->
      (String.length (TimeSlot.a_name a) <= 50)%nat /\
      DayOfWeek.value (TimeSlot.day_of_week ts) = TimeSlot.a_day_of_week a /\
      TimeSlot.name ts = TimeSlot.a_name a /\
      TimeSlot.start_time ts = TimeSlot.a_start_time a /\
      TimeSlot.end_time ts = TimeSlot.a_end_time a /\
      TimeSlot.id ts = TimeSlot.a_id a /\
      TimeSlot.is_active ts = default true (TimeSlot.a_is_active a) /\
      TimeSlot.created_at ts = default utcnow (TimeSlot.a_created_at a)).
Proof.
  split.
  - intros a ts. unfold TimeSlotCreate.validate. split.
    + intros H. destruct (DayOfWeek.of_value _) as [d|] eqn:Hd; [|discriminate].
      apply finish_Valid in H as [He <-]. split_checks He. simpl.
      apply Nat.leb_le in Hfield. apply DayOfWeek_of_value_spec in Hd. auto.
    + intros (Hn & Hd & ? & ? & ?). apply DayOfWeek_of_value_spec in Hd.
      unfold enum_field. rewrite Hd. apply finish_Valid. split.
      * unfold max_length. apply Nat.leb_le in Hn. now rewrite Hn.
      * destruct ts; simpl in *; congruence.
  - intros utcnow a ts. unfold TimeSlot.validate. split.
    + intros H. destruct (DayOfWeek.of_value _) as [d|] eqn:Hd; [|discriminate].
      apply finish_Valid in H as [He <-]. split_checks He. simpl.
      apply Nat.leb_le in Hfield. apply DayOfWeek_of_value_spec in Hd.
      repeat split; auto.
    + intros (Hn & Hd & ? & ? & ? & ? & ? & ?). apply DayOfWeek_of_value_spec in Hd.
      unfold enum_field. rewrite Hd. apply finish_Valid. split.
      * unfold max_length. apply Nat.leb_le in Hn. now rewrite Hn.
      * destruct ts; simpl in *; congruence.
Qed.

(** C6, as stated, fails for a [Course] accepted by construction:
    the table class is built without validation, so
    [Course(..., hours_per_week=0)] is a Course of zero weekly hours. *)
Lemma course_constructed_with_zero_hours :
  Course.hours_per_week (Course.construct 0 0 Samples.idle_course) = 0 /\
  ~ Course.hours_per_week (Course.construct 0 0 Samples.idle_course) > 0.
Proof. split; [reflexivity|simpl; lia]. Qed.

(** C6, amended: a [Course] or [CourseCreate] that validation accepts has
    [hours_per_week > 0]; the constructor of the table class [Course] runs
    no validation and stores [hours_per_week] as it is given, whatever its
    sign. *)
Theorem course_hours_positive :
  (forall (created_now updated_now : datetime) (a : Course.args) (c : Course.t),
      Course.validate created_now updated_now a = Valid c -> Course.hours_per_week c > 0) /\
  (forall (a : CourseCreate.args) (c : CourseCreate.t),
      CourseCreate.validate a = Valid c -> CourseCreate.hours_per_week c > 0) /\
  (forall (created_now updated_now : datetime) (k : Course.kwargs),
      Course.hours_per_week (Course.construct created_now updated_now k) =
      Course.k_hours_per_week k).
Proof.
  split; [|split].
  - intros created_now updated_now a c H. apply Course_validate_hours in H. lia.
  - intros a c H. apply CourseCreate_validate_hours in H. lia.
  - reflexivity.
Qed.

Lemma course_hours_positive_witness :
  (exists c, Course.validate 0 0 Samples.algebra_row = Valid c /\
             Course.hours_per_week c > 0) /\
  (exists c, CourseCreate.validate Samples.algebra = Valid c /\
             CourseCreate.hours_per_week c > 0).
Proof.
  split; eexists; (split; [reflexivity|]).
  - apply (proj1 course_hours_positive 0 0 Samples.algebra_row). reflexivity.
  - apply (proj1 (proj2 course_hours_positive) Samples.algebra). reflexivity.
Defined.

(** The weekly hours of a CourseDemand are those of its course: positive
    when the course went through validation, and zero for the course that
    the constructor alone accepts. *)
Lemma demand_of_validated_course
    (created_now updated_now : datetime) (a : Course.args) (c : Course.t)
    (sec : Section.t) (d : Engine.CourseDemand) :
  Course.validate created_now updated_now a = Valid c ->
  Engine.demand_of c sec = Some d ->
  Engine.cd_hours d = Course.hours_per_week c /\ Engine.cd_hours d > 0.
Proof.
  intros H Hd. apply Course_validate_hours in H. unfold Engine.demand_of in Hd.
  destruct (Course.id c), (Section.id sec); try discriminate.
  injection Hd as <-. simpl. split; [reflexivity|lia].
Qed.

Lemma demand_of_validated_course_sample :
  exists c d, Course.validate 0 0 Samples.stored_algebra = Valid c /\
              Engine.demand_of c Samples.section_a = Some d /\
              Engine.cd_hours d = 3.
Proof. eexists. eexists. repeat split. Qed.

Lemma demand_of_constructed_course :
  exists d,
    Engine.demand_of (Course.construct 0 0 Samples.idle_course) Samples.section_a = Some d /\
    Engine.cd_hours d = 0.
Proof. eexists. split; reflexivity. Qed.

(** C8: a [Course] or [CourseCreate] that validation accepts has
    [1 <= hours_per_week <= 10]. *)
Theorem course_hours_bounded :
  (forall (created_now updated_now : datetime) (a : Course.args) (c : Course.t),
      Course.validate created_now updated_now a = Valid c -> 1 <= Course.hours_per_week c <= 10) /\
  (forall (a : CourseCreate.args) (c : CourseCreate.t),
      CourseCreate.validate a = Valid c -> 1 <= CourseCreate.hours_per_week c <= 10).
Proof.
  split.
  - exact Course_validate_hours.
  - exact CourseCreate_validate_hours.
Qed.

Lemma course_hours_bounded_witness :
  (exists c, Course.validate 0 0 Samples.algebra_row = Valid c /\
             1 <= Course.hours_per_week c <= 10) /\
  (exists c, CourseCreate.validate Samples.algebra = Valid c /\
             1 <= CourseCreate.hours_per_week c <= 10).
Proof.
  split; eexists; (split; [reflexivity|]).
  - apply (proj1 course_hours_bounded 0 0 Samples.algebra_row). reflexivity.
  - apply (proj2 course_hours_bounded Samples.algebra). reflexivity.
Defined.

(** The four enums are closed: a string is taken for a member exactly when
    it is the value of one of the listed members. *)
Lemma enums_closed :
  (forall s, enum_field DayOfWeek.of_value s = true <->
             In s (map DayOfWeek.value DayOfWeek.members)) /\
  (forall s, enum_field CourseType.of_value s = true <->
             In s (map CourseType.value CourseType.members)) /\
  (forall s, enum_field RoomType.of_value s = true <->
             In s (map RoomType.value RoomType.members)) /\
  (forall s, enum_field TimetableStatus.of_value s = true <->
             In s (map TimetableStatus.value TimetableStatus.members)).
Proof.
  unfold enum_field. repeat split.
  - destruct (DayOfWeek.of_value s) as [d|] eqn:H; [|discriminate].
    intros _. apply DayOfWeek_of_value_spec in H as <-. destruct d; simpl; tauto.
  - intros H. apply in_map_iff in H as (d & <- & _).
    now rewrite (proj2 (DayOfWeek_of_value_spec _ d) eq_refl).
  - destruct (CourseType.of_value s) as [d|] eqn:H; [|discriminate].
    intros _. apply CourseType_of_value_spec in H as <-. destruct d; simpl; tauto.
  - intros H. apply in_map_iff in H as (d & <- & _).
    now rewrite (proj2 (CourseType_of_value_spec _ d) eq_refl).
  - destruct (RoomType.of_value s) as [d|] eqn:H; [|discriminate].
    intros _. apply RoomType_of_value_spec in H as <-. destruct d; simpl; tauto.
  - intros H. apply in_map_iff in H as (d & <- & _).
    now rewrite (proj2 (RoomType_of_value_spec _ d) eq_refl).
  - destruct (TimetableStatus.of_value s) as [d|] eqn:H; [|discriminate].
    intros _. apply TimetableStatus_of_value_spec in H as <-. destruct d; simpl; tauto.
  - intros H. apply in_map_iff in H as (d & <- & _).
    now rewrite (proj2 (TimetableStatus_of_value_spec _ d) eq_refl).
Qed.

(** [unavailable_days] is declared [List[str]]: validation stores the list it
    is given and never looks at its elements. *)
Lemma TeacherCreate_unavailable_days_stored (a : TeacherCreate.args) (t : TeacherCreate.t) :
  TeacherCreate.validate a = Valid t ->
  TeacherCreate.unavailable_days t = default [] (TeacherCreate.a_unavailable_days a).
Proof.
  unfold TeacherCreate.validate. intros H.
  apply finish_Valid in H as [_ <-]. reflexivity.
Qed.

(** C7, on the code: the string FUNDAY is no [DayOfWeek] member, and a
    [TeacherCreate] and a [Teacher] holding it in [unavailable_days] are
    accepted with the string stored as it is. *)
Theorem teacher_unavailable_days_open_string :
  DayOfWeek.of_value "FUNDAY" = None /\
  (exists t, TeacherCreate.validate Samples.funday_teacher = Valid t /\
             TeacherCreate.unavailable_days t = ["FUNDAY"]) /\
  (exists t, Teacher.validate 0 0 Samples.funday_teacher_row = Valid t /\
             Teacher.unavailable_days t = ["FUNDAY"]).
Proof.
  split; [reflexivity|].
  split; eexists; (split; [reflexivity|]); reflexivity.
Qed.

(** C9: a [Timetable] built from its two required fields alone is accepted
    (the name being within its 100 characters) with [status = DRAFT],
    [generation_rules = {}], [generated_at = None] and [generated_by = None];
    a [TimetableCreate] built the same way has [generation_rules = {}]. *)
Theorem timetable_defaults (created_now updated_now : datetime)
    (name : string) (semester_id : Z) :
  (String.length name <= 100)%nat ->
  (exists t, Timetable.validate created_now updated_now
               (Timetable.required_only name semester_id) = Valid t /\
             Timetable.status t = TimetableStatus.DRAFT /\
             Timetable.generation_rules t = ∅ /\
             Timetable.generated_at t = None /\
             Timetable.generated_by t = None) /\
  (exists t, TimetableCreate.validate
               (TimetableCreate.mk_args name semester_id None) = Valid t /\
             TimetableCreate.generation_rules t = ∅).
Proof.
  intros Hn. apply Nat.leb_le in Hn.
  unfold Timetable.validate, TimetableCreate.validate, max_length. simpl.
  rewrite Hn. simpl. split; eexists; (split; [reflexivity|]); simpl; auto.
Qed.

Lemma timetable_defaults_witness :
  (String.length "Fall 2024" <= 100)%nat /\
  (exists t, Timetable.validate 0 0 (Timetable.required_only "Fall 2024" 3) = Valid t /\
             Timetable.status t = TimetableStatus.DRAFT /\
             Timetable.generation_rules t = ∅ /\
             Timetable.generated_at t = None /\
             Timetable.generated_by t = None).
Proof.
  split; [simpl; lia|].
  apply (timetable_defaults 0 0 "Fall 2024" 3). simpl; lia.
Defined.

(** C10: [max_hours_per_week] of a [Teacher] or [TeacherCreate] is 20 when
    it is not supplied, and whatever value validation accepts, on the row,
    on create or on update, lies in [1, 40]. *)
Theorem teacher_max_hours :
  (forall (created_now updated_now : datetime) (a : Teacher.args) (t : Teacher.t),
      Teacher.validate created_now updated_now a = Valid t ->
      (Teacher.a_max_hours_per_week a = None -> Teacher.max_hours_per_week t = 20) /\
      1 <= Teacher.max_hours_per_week t <= 40) /\
  (forall (a : TeacherCreate.args) (t : TeacherCreate.t),
      TeacherCreate.validate a = Valid t ->
      (TeacherCreate.a_max_hours_per_week a = None ->
       TeacherCreate.max_hours_per_week t = 20) /\
      1 <= TeacherCreate.max_hours_per_week t <= 40) /\
  (forall (a t : TeacherUpdate.t) (h : Z),
      TeacherUpdate.validate a = Valid t ->
      TeacherUpdate.max_hours_per_week t = Some h -> 1 <= h <= 40).
Proof.
  repeat split.
  1-3: unfold Teacher.validate in H; apply finish_Valid in H as [He <-];
       split_checks He; simpl.
  4-6: unfold TeacherCreate.validate in H; apply finish_Valid in H as [He <-];
       split_checks He; simpl.
  1,4: intros ->; reflexivity.
  1-4: match goal with
       | H : opt_ok _ ?o = true |- _ =>
           destruct o; simpl in *; [apply ge_le_spec in H|]; lia
       end.
  all: unfold TeacherUpdate.validate in H; apply finish_Valid in H as [He <-];
       split_checks He; rewrite H0 in He; simpl in He;
       apply ge_le_spec in He; lia.
Qed.

Lemma teacher_max_hours_witness :
  (exists t, TeacherCreate.validate Samples.funday_teacher = Valid t /\
             TeacherCreate.max_hours_per_week t = 20 /\
             1 <= TeacherCreate.max_hours_per_week t <= 40) /\
  (exists t, Teacher.validate 0 0 Samples.funday_teacher_row = Valid t /\
             Teacher.max_hours_per_week t = 20 /\
             1 <= Teacher.max_hours_per_week t <= 40) /\
  (exists t, TeacherUpdate.validate Samples.fewer_hours = Valid t /\
             1 <= 12 <= 40).
Proof.
  pose proof teacher_max_hours as (Hrow & Hcreate & Hupdate).
  split; [|split]; eexists; (split; [reflexivity|]).
  - destruct (Hcreate Samples.funday_teacher _ eq_refl) as [Hd Hb].
    split; [apply Hd; reflexivity | exact Hb].
  - destruct (Hrow 0 0 Samples.funday_teacher_row _ eq_refl) as [Hd Hb].
    split; [apply Hd; reflexivity | exact Hb].
  - apply (Hupdate Samples.fewer_hours _ 12 eq_refl). reflexivity.
Defined.

(** * Properties of the generation engine *)

Lemma existsb_false {A} (f : A -> bool) (l : list A) :
  existsb f l = false <-> forall x, In x l -> f x = false.
Proof.
  induction l as [|y l IH]; simpl.
  - split; [intros _ x []|reflexivity].
  - rewrite orb_false_iff, IH. split.
    + intros [Hy Hl] x [<-|Hx]; auto.
    + intros H. split; [|intros x Hx]; apply H; auto.
Qed.

Lemma insert_by_perm {A} (leb : A -> A -> bool) (x : A) (l : list A) :
  Permutation (Engine.insert_by leb x l) (x :: l).
Proof.
  induction l as [|y l IH]; simpl; [reflexivity|].
  destruct (leb x y); [reflexivity|].
  rewrite IH. apply perm_swap.
Qed.

Lemma sort_by_perm {A} (leb : A -> A -> bool) (l : list A) :
  Permutation (Engine.sort_by leb l) l.
Proof.
  induction l as [|x l IH]; simpl; [reflexivity|].
  unfold Engine.sort_by in *. simpl. rewrite insert_by_perm. now constructor.
Qed.


Section InsertionSort.
Context {A : Type} (leb : A -> A -> bool).
Hypothesis leb_total : forall a b, leb a b = true \/ leb b a = true.
Hypothesis leb_trans : forall a b c, leb a b = true -> leb b c = true -> leb a c = true.


End InsertionSort.




Section EngineProperties.
Import Engine.
Variable s : Snapshot.

(** ** Construction of the constraint model *)

Lemma build_model_fails (ds : list CourseDemand) (d : CourseDemand) :
  In d ds ->
  eligible_teachers s d = [] \/ fitting_rooms s d = [] ->
  exists d' r,
    In d' ds /\
    match r with
    | NoEligibleTeacher => eligible_teachers s d' = []
    | NoFittingRoom => fitting_rooms s d' = []
    end /\
    build_model s ds = inr (cd_course d', cd_section d', r).
Proof.
  induction ds as [|d0 ds IH]; intros Hin Hbad; [destruct Hin|].
  simpl.
  destruct (eligible_teachers s d0) as [|t ts] eqn:Ht.
  { exists d0, NoEligibleTeacher. simpl. auto. }
  destruct (fitting_rooms s d0) as [|r rs] eqn:Hr.
  { exists d0, NoFittingRoom. simpl. auto. }
  destruct Hin as [->|Hin].
  { destruct Hbad; congruence. }
  destruct (IH Hin Hbad) as (d' & r' & Hd' & Hr' & ->).
  exists d', r'. simpl. auto.
Qed.

Lemma build_model_domains (ds : list CourseDemand) (doms : Domains) :
  build_model s ds = inl doms ->
  doms = map (fun d => (d, initial_domain s d)) ds.
Proof.
  revert doms. induction ds as [|d ds IH]; simpl; intros doms H.
  - now injection H as <-.
  - destruct (eligible_teachers s d); [discriminate|].
    destruct (fitting_rooms s d); [discriminate|].
    destruct (build_model s ds) as [doms'|]; [|discriminate].
    injection H as <-. now rewrite (IH doms' eq_refl).
Qed.

(** ** Pairwise compatibility of a partial assignment *)

Lemma DayOfWeek_eqb_sym (a b : DayOfWeek.t) : DayOfWeek.eqb a b = DayOfWeek.eqb b a.
Proof. apply String.eqb_sym. Qed.

Lemma slot_overlap_sym (i j : Z) : slot_overlap s i j = slot_overlap s j i.
Proof.
  unfold slot_overlap. rewrite (Z.eqb_sym i j). f_equal.
  destruct (find_slot s i) as [a|], (find_slot s j) as [b|]; try reflexivity.
  unfold slots_overlap. rewrite (DayOfWeek_eqb_sym (ts_day a)).
  now rewrite <- !andb_assoc, (andb_comm (time_ltb (ts_start a) _)).
Qed.

Lemma clashes_sym (a b : Assignment) : clashes s a b = clashes s b a.
Proof.
  unfold clashes, teacher_clash, room_clash, section_clash.
  now rewrite (slot_overlap_sym (as_slot a)), (Z.eqb_sym (as_teacher a)),
    (Z.eqb_sym (as_room a)), (Z.eqb_sym (as_section a)).
Qed.

Lemma clashes_false (a b : Assignment) :
  clashes s a b = false <->
  (as_teacher a = as_teacher b \/ as_room a = as_room b \/ as_section a = as_section b ->
   slot_overlap s (as_slot a) (as_slot b) = false).
Proof.
  unfold clashes, teacher_clash, room_clash, section_clash.
  destruct (slot_overlap s _ _); rewrite ?andb_true_r, ?andb_false_r; simpl.
  - rewrite !orb_false_iff, !Z.eqb_neq. split.
    + intros [[? ?] ?] [?|[?|?]]; congruence.
    + intros H. repeat split; intros E; discriminate H; auto.
  - tauto.
Qed.

Lemma assign_same_demand (d d' : CourseDemand) (c : Candidate) :
  same_demand d' (cd_course d) (cd_section d) = true -> assign d' c = assign d c.
Proof.
  unfold same_demand. rewrite andb_true_iff, !Z.eqb_eq. intros [Hc Hs].
  unfold assign. now rewrite Hc, Hs.
Qed.

Lemma domain_of_pruned (doms : Domains) (partial : list Assignment)
    (d : CourseDemand) (c : Candidate) (b : Assignment) :
  pruned s doms partial -> In c (domain_of doms d) -> In b partial ->
  clashes s (assign d c) b = false.
Proof.
  unfold domain_of. intros Hp Hc Hb.
  destruct (List.find _ doms) as [dc|] eqn:Hf; [|destruct Hc].
  apply find_some in Hf as [Hin Hsame].
  rewrite <- (assign_same_demand d (fst dc) c Hsame). eauto.
Qed.

Lemma propagate_pruned (doms : Domains) (partial : list Assignment) (a : Assignment) :
  pruned s doms partial -> pruned s (propagate s a doms) (a :: partial).
Proof.
  intros Hp dc c b Hdc Hc Hb. unfold propagate in Hdc.
  apply in_map_iff in Hdc as (dc0 & <- & Hdc0). simpl in *.
  apply filter_In in Hc as [Hc Hno]. apply negb_true_iff in Hno.
  destruct Hb as [<-|Hb]; eauto.
Qed.

Lemma fold_propagate_pruned (doms : Domains) (locked : list Assignment) :
  pruned s (fold_right (propagate s) doms locked) locked.
Proof.
  induction locked as [|a locked IH]; simpl.
  - intros dc c b _ _ [].
  - now apply propagate_pruned.
Qed.

(** ** What the candidate loop returns *)

Lemma try_candidates_found limit allowed descend dead_end cands steps trail partial n :
  try_candidates limit allowed descend dead_end cands steps trail = (Found partial, n) ->
  exists c steps', In c cands /\ allowed c = true /\ descend c steps' = (Found partial, n).
Proof.
  revert steps trail. induction cands as [|c cands IH]; simpl; intros steps trail H.
  - discriminate.
  - destruct (out_of_budget limit steps); [discriminate|].
    destruct (allowed c) eqn:Hadm.
    + destruct (descend c (steps + 1)) as [[p|below|] n'] eqn:Hd.
      * injection H as -> ->. exists c, (steps + 1). auto.
      * apply IH in H as (c' & st & ? & ? & ?). exists c', st. auto.
      * discriminate.
    + apply IH in H as (c' & st & ? & ? & ?). exists c', st. auto.
Qed.

Lemma search_compatible limit vars doms partial steps partial' n :
  compatible s partial -> pruned s doms partial ->
  search s limit vars doms partial steps = (Found partial', n) ->
  compatible s partial'.
Proof.
  revert doms partial steps. induction vars as [|d vars IH]; simpl;
    intros doms partial steps Hc Hp H.
  - now injection H as <- _.
  - apply try_candidates_found in H as (c & st & Hin & _ & H).
    eapply IH; [| |exact H].
    + split; [|exact Hc]. intros b Hb. eapply domain_of_pruned; eauto.
    + now apply propagate_pruned.
Qed.

(** ** Locked entries *)

Lemma refusal_None (partial : list Assignment) (a : Assignment) :
  refusal s partial a = None <->
  forall k, violates s partial a k = false.
Proof.
  unfold refusal. split.
  - intros H k. apply (find_none _ _ H). destruct k; simpl; tauto.
  - intros H. destruct (List.find _ _) eqn:Hf; [|reflexivity].
    apply find_some in Hf as [_ Hf]. now rewrite H in Hf.
Qed.

Lemma refusal_no_clash (partial : list Assignment) (a b : Assignment) :
  refusal s partial a = None -> In b partial -> clashes s a b = false.
Proof.
  intros H Hb. rewrite refusal_None in H.
  pose proof (H TeacherOverlap) as Ht.
  pose proof (H RoomOverlap) as Hr.
  pose proof (H SectionOverlap) as Hs. simpl in *.
  unfold clashes.
  rewrite (proj1 (existsb_false _ _) Ht b Hb).
  rewrite (proj1 (existsb_false _ _) Hr b Hb).
  now rewrite (proj1 (existsb_false _ _) Hs b Hb).
Qed.

Lemma preassign_compatible (locked partial partial' : list Assignment) :
  compatible s partial -> preassign s locked partial = inl partial' ->
  compatible s partial'.
Proof.
  revert partial. induction locked as [|a locked IH]; simpl; intros partial Hc H.
  - now injection H as <-.
  - destruct (refusal s partial a) eqn:Hr; [discriminate|].
    apply (IH (a :: partial)); [|exact H].
    split; [|exact Hc]. intros b Hb. now apply refusal_no_clash with partial.
Qed.

Lemma compatible_app (l1 l2 : list Assignment) :
  compatible s (l1 ++ l2) <->
  compatible s l1 /\ compatible s l2 /\
  (forall a b, In a l1 -> In b l2 -> clashes s a b = false).
Proof.
  induction l1 as [|x l1 IH]; simpl.
  - split; [intros H|tauto]. repeat split; auto. intros a b [].
  - rewrite IH. split.
    + intros (Hx & H1 & H2 & H12). repeat split; auto.
      * intros b Hb. apply Hx, in_or_app. auto.
      * intros a b [<-|Ha] Hb; [apply Hx, in_or_app|]; auto.
    + intros ((Hx & H1) & H2 & H12). repeat split; auto.
      intros b Hb. apply in_app_or in Hb as [Hb|Hb]; auto.
Qed.

Lemma compatible_rev (partial : list Assignment) :
  compatible s partial -> compatible s (rev partial).
Proof.
  induction partial as [|a partial IH]; simpl; [tauto|].
  intros [Ha Hc]. apply compatible_app. repeat split; simpl; auto.
  - intros b [].
  - intros x b Hx [<-|[]]. rewrite clashes_sym. apply Ha. now apply in_rev.
Qed.

Lemma compatible_nth (l : list Assignment) (i j : nat) (a b : Assignment) :
  compatible s l -> i <> j -> nth_error l i = Some a -> nth_error l j = Some b ->
  clashes s a b = false.
Proof.
  revert i j. induction l as [|x l IH]; intros i j Hc Hij Hi Hj.
  - now destruct i.
  - destruct Hc as [Hx Hc]. destruct i as [|i], j as [|j]; simpl in *.
    + congruence.
    + injection Hi as <-. apply Hx. eapply nth_error_In; eauto.
    + injection Hj as <-. rewrite clashes_sym. apply Hx. eapply nth_error_In; eauto.
    + apply (IH i j); auto.
Qed.

Lemma run_compatible published limit cfg assignments :
  outcome (run s published limit cfg) = Generated assignments ->
  compatible s assignments.
Proof.
  unfold run.
  destruct (build_model s (demands s)) as [doms|[[? ?] ?]]; [|discriminate].
  destruct (preassign s _ []) as [locked|] eqn:Hpre; [|discriminate].
  destruct (search s limit _ _ locked 0) as [[partial|trail|] n] eqn:Hs;
    simpl; intros [= <-].
  apply compatible_rev.
  eapply search_compatible; [| |exact Hs].
  - eapply preassign_compatible; [|exact Hpre]. exact I.
  - apply fold_propagate_pruned.
Qed.

(** ** The step budget *)

Lemma try_candidates_steps limit allowed descend dead_end cands steps trail :
  (forall c st, st <= snd (descend c st)) ->
  steps <= snd (try_candidates limit allowed descend dead_end cands steps trail).
Proof.
  intros Hd. revert steps trail.
  induction cands as [|c cands IH]; simpl; intros steps trail; [lia|].
  destruct (out_of_budget limit steps); simpl; [lia|].
  destruct (allowed c).
  - pose proof (Hd c (steps + 1)) as Hc.
    destruct (descend c (steps + 1)) as [[p|below|] n]; simpl in *; try lia.
    specialize (IH n (trail ++ below)%list). lia.
  - specialize (IH (steps + 1) trail). lia.
Qed.

Lemma search_steps_grow limit vars doms partial steps :
  steps <= snd (search s limit vars doms partial steps).
Proof.
  revert doms partial steps. induction vars as [|d vars IH]; simpl;
    intros doms partial steps; [lia|].
  apply try_candidates_steps. intros c st. apply IH.
Qed.

Lemma agrees_same (l : Z) (r : SearchResult * Z) :
  snd r <= Z.max 0 l -> agrees l r r.
Proof.
  intros H. unfold agrees. now destruct (Z.leb_spec (snd r) (Z.max 0 l)); [|lia].
Qed.

Lemma agrees_over (l : Z) (free bounded : SearchResult * Z) :
  Z.max 0 l < snd free -> fst bounded = OutOfBudget -> agrees l free bounded.
Proof.
  intros H Hb. unfold agrees. now destruct (Z.leb_spec (snd free) (Z.max 0 l)); [lia|].
Qed.

Lemma try_candidates_agrees (l : Z) allowed descend_free descend dead_end cands steps trail :
  (forall c st, st <= snd (descend_free c st)) ->
  (forall c st, 0 <= st <= Z.max 0 l -> agrees l (descend_free c st) (descend c st)) ->
  0 <= steps <= Z.max 0 l ->
  agrees l (try_candidates None allowed descend_free dead_end cands steps trail)
           (try_candidates (Some l) allowed descend dead_end cands steps trail).
Proof.
  intros Hgrow Hd. revert steps trail.
  induction cands as [|c cands IH]; simpl; intros steps trail Hsteps.
  - apply agrees_same. simpl. lia.
  - destruct (Z.leb_spec l steps) as [Hout|Hin].
    + (* the budget is spent: whatever the free run does takes a step more *)
      apply agrees_over; [|reflexivity].
      destruct (allowed c).
      * pose proof (Hgrow c (steps + 1)) as Hc.
        destruct (descend_free c (steps + 1)) as [[p|below|] n]; simpl in *; try lia.
        pose proof (try_candidates_steps None allowed descend_free dead_end cands n
                      (trail ++ below)%list Hgrow). lia.
      * pose proof (try_candidates_steps None allowed descend_free dead_end cands
                      (steps + 1) trail Hgrow). lia.
    + destruct (allowed c); [|apply IH; lia].
      assert (0 <= steps + 1 <= Z.max 0 l) as Hnext by lia.
      pose proof (Hd c (steps + 1) Hnext) as Hc. unfold agrees in Hc.
      pose proof (Hgrow c (steps + 1)) as Hg.
      destruct (Z.leb_spec (snd (descend_free c (steps + 1))) (Z.max 0 l)) as [Hle|Hgt].
      * rewrite Hc.
        destruct (descend_free c (steps + 1)) as [[p|below|] n]; simpl in *.
        -- now apply agrees_same.
        -- apply IH. lia.
        -- now apply agrees_same.
      * destruct (descend c (steps + 1)) as [r n']. simpl in Hc. subst r.
        apply agrees_over; [|reflexivity].
        destruct (descend_free c (steps + 1)) as [[p|below|] n]; simpl in *; try lia.
        pose proof (try_candidates_steps None allowed descend_free dead_end cands n
                      (trail ++ below)%list Hgrow). lia.
Qed.

Lemma search_agrees (l : Z) vars doms partial steps :
  0 <= steps <= Z.max 0 l ->
  agrees l (search s None vars doms partial steps)
           (search s (Some l) vars doms partial steps).
Proof.
  revert doms partial steps. induction vars as [|d vars IH]; simpl;
    intros doms partial steps Hsteps.
  - apply agrees_same. simpl. lia.
  - apply try_candidates_agrees; auto.
    intros c st. apply search_steps_grow.
Qed.

(** The search that nothing stops never reports an exhausted budget. *)
Lemma try_candidates_free allowed descend dead_end cands steps trail :
  (forall c st, fst (descend c st) <> OutOfBudget) ->
  fst (try_candidates None allowed descend dead_end cands steps trail) <> OutOfBudget.
Proof.
  intros Hd. revert steps trail.
  induction cands as [|c cands IH]; simpl; intros steps trail; [discriminate|].
  destruct (allowed c); [|apply IH].
  pose proof (Hd c (steps + 1)) as Hc.
  destruct (descend c (steps + 1)) as [[p|below|] n]; simpl in *; auto; discriminate.
Qed.

Lemma search_free vars doms partial steps :
  fst (search s None vars doms partial steps) <> OutOfBudget.
Proof.
  revert doms partial steps. induction vars as [|d vars IH]; simpl;
    intros doms partial steps; [discriminate|].
  apply try_candidates_free. intros c st. apply IH.
Qed.

Lemma conclude_steps (r : SearchResult * Z) : search_steps (conclude r) = snd r.
Proof. now destruct r as [[p|t|] n]. Qed.

Lemma run_agrees published (l : Z) cfg :
  let free := run s published None cfg in
  let bounded := run s published (Some l) cfg in
  if search_steps free <=? Z.max 0 l
  then bounded = free
  else outcome bounded = TimeoutError.
Proof.
  unfold run.
  destruct (build_model s (demands s)) as [doms|[[? ?] ?]]; simpl.
  2: { destruct (Z.leb_spec 0 (Z.max 0 l)); [reflexivity|lia]. }
  destruct (preassign s _ []) as [locked|]; simpl.
  2: { destruct (Z.leb_spec 0 (Z.max 0 l)); [reflexivity|lia]. }
  pose proof (search_agrees l (open_units locked (search_order doms))
                (fold_right (propagate s) doms locked) locked 0) as H.
  unfold agrees in H. rewrite conclude_steps.
  destruct (snd _ <=? Z.max 0 l).
  - rewrite H by lia. reflexivity.
  - destruct (search s (Some l) _ _ locked 0) as [rb nb]. simpl in H.
    rewrite H by lia. reflexivity.
Qed.

Lemma run_free published cfg : outcome (run s published None cfg) <> TimeoutError.
Proof.
  unfold run.
  destruct (build_model s (demands s)) as [doms|[[? ?] ?]]; [|discriminate].
  destruct (preassign s _ []) as [locked|]; [|discriminate].
  pose proof (search_free (open_units locked (search_order doms))
                (fold_right (propagate s) doms locked) locked 0) as H.
  destruct (search s None _ _ locked 0) as [[p|t|] n]; simpl in *;
    [discriminate|discriminate|congruence].
Qed.

End EngineProperties.

(** ** Re-running generation over its own result *)

Section Idempotence.
Import Engine.
Variable s : Snapshot.

(** A snapshot holds a course at most once for a section. *)
Hypothesis demands_distinct : NoDup (map demand_key (demands s)).

Lemma same_demand_key (d : CourseDemand) (course section : Z) :
  same_demand d course section = true <-> demand_key d = (course, section).
Proof.
  unfold same_demand, demand_key. rewrite andb_true_iff, !Z.eqb_eq.
  split; [intros [-> ->]; reflexivity|intros [= -> ->]; auto].
Qed.

Lemma find_by_key (ds : list CourseDemand) (d : CourseDemand) :
  NoDup (map demand_key ds) -> In d ds ->
  List.find (fun d' => same_demand d' (cd_course d) (cd_section d)) ds = Some d.
Proof.
  induction ds as [|x ds IH]; simpl; intros Hnd Hin; [destruct Hin|].
  inversion Hnd as [|? ? Hx Hnd']; subst.
  destruct (same_demand x (cd_course d) (cd_section d)) eqn:Hsame.
  - destruct Hin as [->|Hin]; [reflexivity|].
    apply same_demand_key in Hsame. exfalso. apply Hx.
    rewrite Hsame. apply list_elem_of_In.
    change (In (demand_key d) (map demand_key ds)). now apply in_map.
  - destruct Hin as [->|Hin]; [|auto].
    assert (same_demand d (cd_course d) (cd_section d) = true) as E
        by now apply same_demand_key.
    congruence.
Qed.
















(** *** The invariant s holds when the search starts *)


Lemma open_units_In (partial : list Assignment) (ds : list CourseDemand)
    (d : CourseDemand) :
  In d (open_units partial ds) -> In d ds.
Proof.
  unfold open_units. intros H. apply in_flat_map in H as (d' & Hd' & H).
  now apply repeat_spec in H as ->.
Qed.





Lemma model_demands (doms : Domains) :
  build_model s (demands s) = inl doms -> map fst doms = demands s.
Proof.
  intros H. rewrite (build_model_domains s _ _ H), map_map. simpl. apply map_id.
Qed.

Lemma search_order_perm (doms : Domains) :
  build_model s (demands s) = inl doms ->
  Permutation (search_order doms) (demands s).
Proof.
  intros H. unfold search_order. rewrite <- (model_demands doms H).
  apply Permutation_map, sort_by_perm.
Qed.




(** *** The two runs *)




(** *** A conflict is only reported when no placement exists *)

Lemma domain_of_propagate (a : Assignment) (doms : Domains) (d : CourseDemand) :
  domain_of (propagate s a doms) d =
  List.filter (fun c => negb (clashes s (assign d c) a)) (domain_of doms d).
Proof.
  unfold domain_of, propagate. induction doms as [|dc doms IH]; simpl; [reflexivity|].
  destruct (same_demand (fst dc) (cd_course d) (cd_section d)) eqn:E; [|exact IH].
  simpl. apply List.filter_ext. intros c. now rewrite (assign_same_demand d (fst dc) c E).
Qed.

Lemma propagate_complete (a : Assignment) (doms : Domains) (partial : list Assignment) :
  domains_complete s doms partial -> domains_complete s (propagate s a doms) (a :: partial).
Proof.
  intros H d c Hd Hc Hfree. rewrite domain_of_propagate. apply filter_In. split.
  - apply H; auto. intros b Hb. apply Hfree. simpl. auto.
  - apply negb_true_iff, Hfree. simpl. auto.
Qed.

Lemma domain_of_found (ds : list CourseDemand) (d : CourseDemand) :
  List.find (fun d' => same_demand d' (cd_course d) (cd_section d)) ds = Some d ->
  domain_of (map (fun d' => (d', initial_domain s d')) ds) d = initial_domain s d.
Proof.
  unfold domain_of. induction ds as [|x ds IH]; simpl; [discriminate|].
  destruct (same_demand x (cd_course d) (cd_section d)).
  - now intros [= ->].
  - exact IH.
Qed.

Lemma model_domain_of (doms : Domains) (d : CourseDemand) :
  build_model s (demands s) = inl doms -> In d (demands s) ->
  domain_of doms d = initial_domain s d.
Proof.
  intros Hm Hd. rewrite (build_model_domains s _ _ Hm).
  apply domain_of_found. now apply find_by_key.
Qed.

Lemma fold_propagate_complete (doms : Domains) (locked : list Assignment) :
  build_model s (demands s) = inl doms ->
  domains_complete s (fold_right (propagate s) doms locked) locked.
Proof.
  intros Hm. induction locked as [|a locked IH]; simpl.
  - intros d c Hd Hc _. now rewrite (model_domain_of doms d Hm Hd).
  - now apply propagate_complete.
Qed.

Lemma try_candidates_complete allowed descend dead_end cands steps trail (c : Candidate) :
  In c cands -> allowed c = true ->
  (forall c' st, fst (descend c' st) <> OutOfBudget) ->
  (forall st, exists partial n, descend c st = (Found partial, n)) ->
  exists partial n,
    try_candidates None allowed descend dead_end cands steps trail = (Found partial, n).
Proof.
  intros Hin Hok Hfree Hfound. revert steps trail.
  induction cands as [|c0 cands IH]; simpl; intros steps trail; [destruct Hin|].
  destruct (allowed c0) eqn:Hc0.
  - pose proof (Hfree c0 (steps + 1)) as Hf.
    destruct (descend c0 (steps + 1)) as [[p|below|] n] eqn:Hd; simpl in Hf.
    + eauto.
    + destruct Hin as [->|Hin]; [|now apply IH].
      destruct (Hfound (steps + 1)) as (p & n' & E). congruence.
    + congruence.
  - destruct Hin as [->|Hin]; [congruence|now apply IH].
Qed.

Lemma search_complete vars doms partial steps (cs : list Candidate) :
  (forall d, In d vars -> In d (demands s)) ->
  domains_complete s doms partial ->
  places s vars partial cs ->
  exists partial' n, search s None vars doms partial steps = (Found partial', n).
Proof.
  revert doms partial steps cs. induction vars as [|d vars IH];
    intros doms partial steps cs Hvars Hdoms Hcs.
  - simpl. eauto.
  - destruct cs as [|c cs]; [destruct Hcs|].
    destruct Hcs as (Hc & Hfree & Hload & Hcs). simpl.
    apply try_candidates_complete with c.
    + apply Hdoms; auto. apply Hvars. simpl. auto.
    + exact Hload.
    + intros c' st. apply search_free.
    + intros st. apply IH with cs; auto.
      * intros d' Hd'. apply Hvars. simpl. auto.
      * now apply propagate_complete.
Qed.

Lemma run_conflict_genuine published cfg conflicts :
  outcome (run s published None cfg) = SearchConflict conflicts ->
  (exists c, preassign s (if lock_existing_entries cfg then published else []) [] = inr c) \/
  (exists doms locked,
      build_model s (demands s) = inl doms /\
      preassign s (if lock_existing_entries cfg then published else []) [] = inl locked /\
      forall cs, ~ places s (open_units locked (search_order doms)) locked cs).
Proof.
  unfold run.
  destruct (build_model s (demands s)) as [doms|[[? ?] ?]] eqn:Hm; [|discriminate].
  destruct (preassign s _ []) as [locked|c] eqn:Hpre; [|eauto].
  intros H. right. exists doms, locked. repeat split; auto.
  intros cs Hcs.
  destruct (search_complete (open_units locked (search_order doms))
              (fold_right (propagate s) doms locked) locked 0 cs) as (p & n & E); auto.
  - intros d Hd. apply open_units_In in Hd.
    eapply Permutation_in; [apply search_order_perm; exact Hm|exact Hd].
  - now apply fold_propagate_complete.
  - rewrite E in H. discriminate.
Qed.

End Idempotence.

(** ** The search returns the first placement in the order of the candidates *)






Section FirstChoice.
Import Engine.
Variable s : Snapshot.











End FirstChoice.

Import Engine.

(** C1: in every generated result, two different timetable entries that
    share the teacher, the room or the section are on time slots that do
    not overlap. *)
Theorem generated_entries_do_not_overlap
    (s : Snapshot) (published : list Assignment) (rules : gmap string json)
    (assignments : list Assignment) (timetable_id : Z) (now : datetime)
    (i j : nat) (e1 e2 : TimetableEntry.t) :
  outcome (generate s published rules) = Generated assignments ->
  i <> j ->
  nth_error (materialize timetable_id now assignments) i = Some e1 ->
  nth_error (materialize timetable_id now assignments) j = Some e2 ->
  TimetableEntry.teacher_id e1 = TimetableEntry.teacher_id e2 \/
  TimetableEntry.room_id e1 = TimetableEntry.room_id e2 \/
  TimetableEntry.section_id e1 = TimetableEntry.section_id e2 ->
  slot_overlap s (TimetableEntry.time_slot_id e1) (TimetableEntry.time_slot_id e2) = false.
Proof.
  intros Hgen Hij H1 H2 Hshared.
  apply run_compatible in Hgen. unfold materialize in *.
  rewrite nth_error_map in H1, H2.
  destruct (nth_error assignments i) as [a|] eqn:Ha; [|discriminate].
  destruct (nth_error assignments j) as [b|] eqn:Hb; [|discriminate].
  injection H1 as <-. injection H2 as <-. simpl in *.
  now apply (clashes_false s a b); [eapply compatible_nth; eauto|].
Qed.

Lemma generated_entries_do_not_overlap_witness :
  slot_overlap Scenario.week 2 1 = false.
Proof.
  apply (generated_entries_do_not_overlap Scenario.week [] ∅
           [ {| as_course := 101; as_section := 1; as_teacher := 7; as_room := 5; as_slot := 2 |};
             {| as_course := 101; as_section := 1; as_teacher := 7; as_room := 5; as_slot := 1 |};
             {| as_course := 102; as_section := 1; as_teacher := 8; as_room := 5; as_slot := 3 |};
             {| as_course := 102; as_section := 1; as_teacher := 8; as_room := 5; as_slot := 4 |};
             {| as_course := 101; as_section := 2; as_teacher := 8; as_room := 6; as_slot := 1 |};
             {| as_course := 101; as_section := 2; as_teacher := 8; as_room := 6; as_slot := 2 |} ]
           1 0 0%nat 1%nat
           (entry_of 1 0 {| as_course := 101; as_section := 1; as_teacher := 7;
                            as_room := 5; as_slot := 2 |})
           (entry_of 1 0 {| as_course := 101; as_section := 1; as_teacher := 7;
                            as_room := 5; as_slot := 1 |})).
  - vm_compute. reflexivity.
  - lia.
  - reflexivity.
  - reflexivity.
  - left. reflexivity.
Defined.

(** C3: when some demand of the snapshot has no eligible teacher or no
    fitting room, the run ends with a ModelError and zero search steps, and
    the error names a demand of the snapshot for which the reason it gives
    is true. *)
Theorem model_error_before_search
    (s : Snapshot) (published : list Assignment) (rules : gmap string json)
    (d : CourseDemand) :
  In d (demands s) ->
  eligible_teachers s d = [] \/ fitting_rooms s d = [] ->
  exists d' reason,
    In d' (demands s) /\
    generate s published rules =
      {| outcome := ModelError (cd_course d') (cd_section d') reason;
         search_steps := 0 |} /\
    match reason with
    | NoEligibleTeacher => eligible_teachers s d' = []
    | NoFittingRoom => fitting_rooms s d' = []
    end.
Proof.
  intros Hin Hbad.
  destruct (build_model_fails s (demands s) d Hin Hbad) as (d' & r & Hd' & Hr & Hb).
  exists d', r. repeat split; auto.
  unfold generate, run. now rewrite Hb.
Qed.

Lemma model_error_before_search_witness :
  exists d' reason,
    In d' (demands Scenario.no_teacher) /\
    generate Scenario.no_teacher [] ∅ =
      {| outcome := ModelError (cd_course d') (cd_section d') reason;
         search_steps := 0 |} /\
    match reason with
    | NoEligibleTeacher => eligible_teachers Scenario.no_teacher d' = []
    | NoFittingRoom => fitting_rooms Scenario.no_teacher d' = []
    end.
Proof.
  apply (model_error_before_search Scenario.no_teacher [] ∅ (Scenario.lecture 103 1 1)).
  - simpl. auto.
  - left. reflexivity.
Defined.

(** C5: a run whose search needs more steps than the configured budget
    ends with TimeoutError; a run that ends with SearchConflict stayed within
    its budget and is the result the search gives when nothing stops it,
    which is never a TimeoutError; and, in a snapshot that holds each course
    once per section, a SearchConflict means that a locked entry is refused
    by a hard constraint or that no choice of candidates places s the open
    hour-units. *)
Theorem budget_exhaustion_is_timeout
    (s : Snapshot) (published : list Assignment) (rules : gmap string json) :
  let budget := Z.max 0 (max_search_steps (read_config rules)) in
  let free := generate_unbounded s published rules in
  let locked := if lock_existing_entries (read_config rules) then published else [] in
  outcome free <> TimeoutError /\
  (budget < search_steps free ->
   outcome (generate s published rules) = TimeoutError) /\
  (search_steps free <= budget -> generate s published rules = free) /\
  (forall conflicts,
      outcome (generate s published rules) = SearchConflict conflicts ->
      search_steps free <= budget /\ outcome free = SearchConflict conflicts) /\
  (NoDup (map demand_key (demands s)) ->
   forall conflicts,
      outcome (generate s published rules) = SearchConflict conflicts ->
      (exists c, preassign s locked [] = inr c) \/
      (exists doms placed,
          build_model s (demands s) = inl doms /\
          preassign s locked [] = inl placed /\
          forall cs, ~ places s (open_units placed (search_order doms)) placed cs)).
Proof.
  intros budget free locked.
  pose proof (run_agrees s published (max_search_steps (read_config rules))
                (read_config rules)) as H.
  cbv zeta in H.
  change (run s published None (read_config rules)) with free in H.
  change (run s published (Some _) (read_config rules))
    with (generate s published rules) in H.
  change (Z.max 0 _) with budget in H.
  assert (forall conflicts,
             outcome (generate s published rules) = SearchConflict conflicts ->
             search_steps free <= budget /\ outcome free = SearchConflict conflicts)
    as Hconflict.
  { intros conflicts Hc.
    destruct (Z.leb_spec (search_steps free) budget) as [Hle|Hgt].
    - split; [exact Hle|]. rewrite <- H. exact Hc.
    - rewrite H in Hc. discriminate. }
  split; [apply run_free|].
  split; [|split; [|split]].
  - intros Hgt. destruct (Z.leb_spec (search_steps free) budget); [lia|exact H].
  - intros Hle. destruct (Z.leb_spec (search_steps free) budget); [exact H|lia].
  - exact Hconflict.
  - intros Hkeys conflicts Hc. apply Hconflict in Hc as [_ Hc].
    now apply (run_conflict_genuine s Hkeys published (read_config rules) conflicts).
Qed.

Lemma budget_exhaustion_is_timeout_witness :
  outcome (generate Scenario.week [] (Scenario.rules 3 true)) = TimeoutError /\
  exists doms placed,
    build_model Scenario.forced_conflict (demands Scenario.forced_conflict) = inl doms /\
    preassign Scenario.forced_conflict [] [] = inl placed /\
    forall cs, ~ places Scenario.forced_conflict
                   (open_units placed (search_order doms)) placed cs.
Proof.
  split.
  - apply (budget_exhaustion_is_timeout Scenario.week [] (Scenario.rules 3 true)).
    vm_compute. reflexivity.
  - destruct (budget_exhaustion_is_timeout Scenario.forced_conflict [] ∅)
      as (_ & _ & _ & _ & H).
    assert (NoDup (map demand_key (demands Scenario.forced_conflict))) as Hkeys
        by (apply (bool_decide_unpack _); vm_compute; exact I).
    destruct (H Hkeys [conflict_of 102 1 SectionOverlap] eq_refl) as [[c Hc]|Hno].
    + discriminate Hc.
    + exact Hno.
Defined.




(** ** The scenarios of section 8 on the model *)

Lemma scenario_trivial_success :
  generate Scenario.trivial [] ∅ =
    {| outcome := Generated [ {| as_course := 101; as_section := 1; as_teacher := 7;
                                 as_room := 5; as_slot := 1 |} ];
       search_steps := 1 |} /\
  soft_score Scenario.trivial (read_config ∅)
    [ {| as_course := 101; as_section := 1; as_teacher := 7; as_room := 5; as_slot := 1 |} ]
  = (2, 2).
Proof. split; vm_compute; reflexivity. Qed.

Lemma scenario_forced_conflict :
  outcome (generate Scenario.forced_conflict [] ∅) =
    SearchConflict [conflict_of 102 1 SectionOverlap].
Proof. vm_compute. reflexivity. Qed.

Lemma scenario_load_exhaustion :
  exists others,
    outcome (generate Scenario.load_exhaustion [] ∅) =
      SearchConflict
        ({| cf_kind := TeacherLoad; cf_course := 102; cf_section := 2;
            cf_explanation := "teacher load exceeded" |} :: others).
Proof. eexists. vm_compute. reflexivity. Qed.

Lemma scenario_timeout :
  outcome (generate Scenario.week [] (Scenario.rules 3 false)) = TimeoutError /\
  exists assignments,
    outcome (generate Scenario.week [] (Scenario.rules 6 false)) = Generated assignments.
Proof. split; [|eexists]; vm_compute; reflexivity. Qed.

(** * Further properties of the data model *)

Lemma max_length_spec (n : nat) (s : string) :
  max_length n s = true <-> (String.length s <= n)%nat.
Proof. unfold max_length. apply Nat.leb_le. Qed.

Lemma DayOfWeek_value_of_value (d : DayOfWeek.t) :
  DayOfWeek.of_value (DayOfWeek.value d) = Some d.
Proof. now destruct d. Qed.

Lemma CourseType_value_of_value (c : CourseType.t) :
  CourseType.of_value (CourseType.value c) = Some c.
Proof. now destruct c. Qed.

Lemma RoomType_value_of_value (r : RoomType.t) :
  RoomType.of_value (RoomType.value r) = Some r.
Proof. now destruct r. Qed.

Lemma TimetableStatus_value_of_value (x : TimetableStatus.t) :
  TimetableStatus.of_value (TimetableStatus.value x) = Some x.
Proof. now destruct x. Qed.

Lemma opt_enum_spec {E} (of_value : string -> option E) (value : E -> string)
    (o : option string) (r : option E) :
  (forall s m, of_value s = Some m -> value m = s) ->
  opt_enum of_value o = Some r -> option_map value r = o.
Proof.
  intros Hv. unfold opt_enum. destruct o as [s|]; [|now intros [= <-]].
  destruct (of_value s) as [m|] eqn:E'; [|discriminate].
  intros [= <-]. simpl. now rewrite (Hv s m E').
Qed.

Lemma opt_enum_value {E} (of_value : string -> option E) (value : E -> string)
    (r : option E) :
  (forall m, of_value (value m) = Some m) ->
  opt_enum of_value (option_map value r) = Some r /\
  opt_ok (enum_field of_value) (option_map value r) = true.
Proof.
  intros Hv. destruct r as [m|]; simpl; [|auto].
  unfold enum_field. now rewrite Hv.
Qed.

(** Takes an accepted validation apart: the enum fields that were parsed,
    then one hypothesis for each check that passed. *)
Ltac invert_validate H :=
  repeat match type of H with
         | match ?x with _ => _ end = Valid _ =>
             let E := fresh "Hparse" in destruct x eqn:E; try discriminate H
         end;
  let He := fresh "Hchecks" in
  apply finish_Valid in H as [He <-]; split_checks He; simpl in *.

Ltac use_bounds :=
  repeat match goal with
         | H : max_length _ _ = true |- _ => apply max_length_spec in H
         | H : ge_le _ _ _ = true |- _ => apply ge_le_spec in H
         | H : opt_ok _ ?o = true, E : ?o = Some _ |- _ => rewrite E in H; simpl in H
         end.

Ltac settle_bounds :=
  repeat split; intros; use_bounds; try assumption; try lia.

Ltac pass_checks :=
  repeat match goal with
         | H : ?b = true |- context [check _ ?b] => rewrite H
         end.

(** Closes the goal that a row validates to the expected record, from the
    checks that the request passed. *)
Ltac rebuild_row :=
  rewrite ?DayOfWeek_value_of_value, ?CourseType_value_of_value,
    ?RoomType_value_of_value, ?TimetableStatus_value_of_value;
  rewrite ?(proj1 (opt_enum_value RoomType.of_value RoomType.value _
                     RoomType_value_of_value)),
    ?(proj2 (opt_enum_value RoomType.of_value RoomType.value _
               RoomType_value_of_value));
  unfold enum_field;
  rewrite ?DayOfWeek_value_of_value, ?CourseType_value_of_value,
    ?RoomType_value_of_value, ?TimetableStatus_value_of_value;
  repeat match goal with
         | H : opt_ok _ ?o = true |- context [default _ ?o] =>
             destruct o; simpl in H |- *
         end;
  pass_checks; reflexivity.

(** ** The enums *)

(** Each enum member is found again from its value, and no two members of
    an enum share a value. *)
Theorem enum_value_round_trip :
  (forall d, DayOfWeek.of_value (DayOfWeek.value d) = Some d) /\
  (forall c, CourseType.of_value (CourseType.value c) = Some c) /\
  (forall r, RoomType.of_value (RoomType.value r) = Some r) /\
  (forall x, TimetableStatus.of_value (TimetableStatus.value x) = Some x) /\
  (forall d d', DayOfWeek.value d = DayOfWeek.value d' -> d = d') /\
  (forall c c', CourseType.value c = CourseType.value c' -> c = c') /\
  (forall r r', RoomType.value r = RoomType.value r' -> r = r') /\
  (forall x x', TimetableStatus.value x = TimetableStatus.value x' -> x = x').
Proof.
  repeat apply conj.
  - exact DayOfWeek_value_of_value.
  - exact CourseType_value_of_value.
  - exact RoomType_value_of_value.
  - exact TimetableStatus_value_of_value.
  - intros d d' H. apply (f_equal DayOfWeek.of_value) in H.
    rewrite !DayOfWeek_value_of_value in H. congruence.
  - intros c c' H. apply (f_equal CourseType.of_value) in H.
    rewrite !CourseType_value_of_value in H. congruence.
  - intros r r' H. apply (f_equal RoomType.of_value) in H.
    rewrite !RoomType_value_of_value in H. congruence.
  - intros x x' H. apply (f_equal TimetableStatus.of_value) in H.
    rewrite !TimetableStatus_value_of_value in H. congruence.
Qed.

Lemma enum_value_round_trip_witness :
  DayOfWeek.FRIDAY = DayOfWeek.FRIDAY.
Proof.
  apply (proj1 (proj2 (proj2 (proj2 (proj2 enum_value_round_trip))))).
  reflexivity.
Defined.

(** A string names both a course type and a room type only when it is LAB:
    the two enums share that one value. *)
Theorem course_and_room_type_share_lab (s : string) :
  enum_field CourseType.of_value s && enum_field RoomType.of_value s = true <->
  s = "LAB".
Proof.
  split.
  - unfold enum_field. intros H. apply andb_true_iff in H as [Hc Hr].
    destruct (CourseType.of_value s) as [c|] eqn:Ec; [|discriminate].
    destruct (RoomType.of_value s) as [r|] eqn:Er; [|discriminate].
    apply CourseType_of_value_spec in Ec. apply RoomType_of_value_spec in Er.
    subst s. destruct c, r; try discriminate Er; reflexivity.
  - intros ->. reflexivity.
Qed.

(** An accepted value holds, in each enum-typed field, the member that the
    given string is the value of, and no member where no string was given:
    no string outside the enum gets into an enum-typed field of a [Room],
    [RoomCreate], [RoomUpdate], [Course], [CourseCreate], [CourseUpdate],
    [TimeSlotUpdate] or [TimetableUpdate]. *)
Theorem enum_fields_hold_the_named_member :
  (forall (created_now updated_now : datetime) (a : Room.args) (r : Room.t),
      Room.validate created_now updated_now a = Valid r ->
      RoomType.value (Room.room_type r) = Room.a_room_type a) /\
  (forall (a : RoomCreate.args) (r : RoomCreate.t),
      RoomCreate.validate a = Valid r ->
      RoomType.value (RoomCreate.room_type r) = RoomCreate.a_room_type a) /\
  (forall (a : RoomUpdate.args) (r : RoomUpdate.t),
      RoomUpdate.validate a = Valid r ->
      option_map RoomType.value (RoomUpdate.room_type r) = RoomUpdate.a_room_type a) /\
  (forall (created_now updated_now : datetime) (a : Course.args) (r : Course.t),
      Course.validate created_now updated_now a = Valid r ->
      CourseType.value (Course.course_type r) = Course.a_course_type a /\
      option_map RoomType.value (Course.required_room_type r) =
        Course.a_required_room_type a) /\
  (forall (a : CourseCreate.args) (r : CourseCreate.t),
      CourseCreate.validate a = Valid r ->
      CourseType.value (CourseCreate.course_type r) = CourseCreate.a_course_type a /\
      option_map RoomType.value (CourseCreate.required_room_type r) =
        CourseCreate.a_required_room_type a) /\
  (forall (a : CourseUpdate.args) (r : CourseUpdate.t),
      CourseUpdate.validate a = Valid r ->
      option_map CourseType.value (CourseUpdate.course_type r) =
        CourseUpdate.a_course_type a /\
      option_map RoomType.value (CourseUpdate.required_room_type r) =
        CourseUpdate.a_required_room_type a) /\
  (forall (a : TimeSlotUpdate.args) (r : TimeSlotUpdate.t),
      TimeSlotUpdate.validate a = Valid r ->
      option_map DayOfWeek.value (TimeSlotUpdate.day_of_week r) =
        TimeSlotUpdate.a_day_of_week a) /\
  (forall (a : TimetableUpdate.args) (r : TimetableUpdate.t),
      TimetableUpdate.validate a = Valid r ->
      option_map TimetableStatus.value (TimetableUpdate.status r) =
        TimetableUpdate.a_status a).
Proof.
  pose proof (fun s m => proj1 (DayOfWeek_of_value_spec s m)) as Hday.
  pose proof (fun s m => proj1 (CourseType_of_value_spec s m)) as Hcourse.
  pose proof (fun s m => proj1 (RoomType_of_value_spec s m)) as Hroom.
  pose proof (fun s m => proj1 (TimetableStatus_of_value_spec s m)) as Hstatus.
  repeat apply conj; intros.
  - unfold Room.validate in H. invert_validate H. auto.
  - unfold RoomCreate.validate in H. invert_validate H. auto.
  - unfold RoomUpdate.validate in H. invert_validate H.
    eapply opt_enum_spec; eauto.
  - unfold Course.validate in H. invert_validate H.
    split; [auto|eapply opt_enum_spec; eauto].
  - unfold CourseCreate.validate in H. invert_validate H.
    split; [auto|eapply opt_enum_spec; eauto].
  - unfold CourseUpdate.validate in H. invert_validate H.
    split; eapply opt_enum_spec; eauto.
  - unfold TimeSlotUpdate.validate in H. invert_validate H.
    eapply opt_enum_spec; eauto.
  - unfold TimetableUpdate.validate in H. invert_validate H.
    eapply opt_enum_spec; eauto.
Qed.

Lemma enum_fields_hold_the_named_member_witness :
  (exists r, Room.validate 0 0 Fixtures.room = Valid r /\
             RoomType.value (Room.room_type r) = "LAB") /\
  (exists r, RoomCreate.validate Fixtures.room_create = Valid r /\
             RoomType.value (RoomCreate.room_type r) = "LAB") /\
  (exists r, RoomUpdate.validate Fixtures.room_update = Valid r /\
             option_map RoomType.value (RoomUpdate.room_type r) = Some "LAB") /\
  (exists r, Course.validate 0 0 Fixtures.course = Valid r /\
             CourseType.value (Course.course_type r) = "THEORY" /\
             option_map RoomType.value (Course.required_room_type r) = None) /\
  (exists r, CourseCreate.validate Fixtures.course_create = Valid r /\
             CourseType.value (CourseCreate.course_type r) = "THEORY" /\
             option_map RoomType.value (CourseCreate.required_room_type r) = None) /\
  (exists r, CourseUpdate.validate Fixtures.course_update = Valid r /\
             option_map CourseType.value (CourseUpdate.course_type r) = Some "THEORY" /\
             option_map RoomType.value (CourseUpdate.required_room_type r) = Some "LAB") /\
  (exists r, TimeSlotUpdate.validate Fixtures.time_slot_update = Valid r /\
             option_map DayOfWeek.value (TimeSlotUpdate.day_of_week r) = Some "MONDAY") /\
  (exists r, TimetableUpdate.validate Fixtures.timetable_update = Valid r /\
             option_map TimetableStatus.value (TimetableUpdate.status r) =
               Some "PUBLISHED").
Proof.
  pose proof enum_fields_hold_the_named_member
    as (H0 & H1 & H2 & H3 & H4 & H5 & H6 & H7).
  repeat apply conj; eexists; (split; [reflexivity|]).
  - apply (H0 0 0 Fixtures.room). reflexivity.
  - apply (H1 Fixtures.room_create). reflexivity.
  - apply (H2 Fixtures.room_update). reflexivity.
  - apply (H3 0 0 Fixtures.course). reflexivity.
  - apply (H4 Fixtures.course_create). reflexivity.
  - apply (H5 Fixtures.course_update). reflexivity.
  - apply (H6 Fixtures.time_slot_update). reflexivity.
  - apply (H7 Fixtures.timetable_update). reflexivity.
Defined.

(** ** Bounds on what validation accepts *)

(** An accepted [Department], [DepartmentCreate] or [DepartmentUpdate] keeps
    [name] within 100 characters, [code] within 10 and [description], when
    there is one, within 500; an update is bound on the fields it sets. *)
Theorem department_strings_bounded :
  (forall (created_now updated_now : datetime)
          (a : Department.args) (r : Department.t),
      Department.validate created_now updated_now a = Valid r ->
      (String.length (Department.name r) <= 100)%nat /\
      (String.length (Department.code r) <= 10)%nat /\
      (forall x, Department.description r = Some x -> (String.length x <= 500)%nat)) /\
  (forall (a : DepartmentCreate.t) (r : DepartmentCreate.t),
      DepartmentCreate.validate a = Valid r ->
      (String.length (DepartmentCreate.name r) <= 100)%nat /\
      (String.length (DepartmentCreate.code r) <= 10)%nat /\
      (forall x, DepartmentCreate.description r = Some x -> (String.length x <= 500)%nat)) /\
  (forall (a : DepartmentUpdate.t) (r : DepartmentUpdate.t),
      DepartmentUpdate.validate a = Valid r ->
      (forall x, DepartmentUpdate.name r = Some x -> (String.length x <= 100)%nat) /\
      (forall x, DepartmentUpdate.code r = Some x -> (String.length x <= 10)%nat) /\
      (forall x, DepartmentUpdate.description r = Some x -> (String.length x <= 500)%nat)).
Proof.
  repeat apply conj; intros.
  - unfold Department.validate in H. invert_validate H. settle_bounds.
  - unfold DepartmentCreate.validate in H. invert_validate H. settle_bounds.
  - unfold DepartmentUpdate.validate in H. invert_validate H. settle_bounds.
Qed.

Lemma department_strings_bounded_witness :
  (exists r, Department.validate 0 0 Fixtures.department = Valid r /\
      (String.length (Department.name r) <= 100)%nat /\
      (String.length (Department.code r) <= 10)%nat /\
      (forall x, Department.description r = Some x -> (String.length x <= 500)%nat)) /\
  (exists r, DepartmentCreate.validate Fixtures.department_create = Valid r /\
      (String.length (DepartmentCreate.name r) <= 100)%nat /\
      (String.length (DepartmentCreate.code r) <= 10)%nat /\
      (forall x, DepartmentCreate.description r = Some x -> (String.length x <= 500)%nat)) /\
  (exists r, DepartmentUpdate.validate Fixtures.department_update = Valid r /\
      (forall x, DepartmentUpdate.name r = Some x -> (String.length x <= 100)%nat) /\
      (forall x, DepartmentUpdate.code r = Some x -> (String.length x <= 10)%nat) /\
      (forall x, DepartmentUpdate.description r = Some x -> (String.length x <= 500)%nat)).
Proof.
  pose proof department_strings_bounded as (H0 & H1 & H2).
  repeat apply conj; eexists; (split; [reflexivity|]).
  - apply (H0 0 0 Fixtures.department). reflexivity.
  - apply (H1 Fixtures.department_create). reflexivity.
  - apply (H2 Fixtures.department_update). reflexivity.
Defined.

(** An accepted [Semester], [SemesterCreate] or [SemesterUpdate] has its
    [year] in 2020..2050, its [semester_number] in 1..8 and its [name] within
    50 characters; an update is bound on the fields it sets. *)
Theorem semester_fields_bounded :
  (forall (created_now updated_now : datetime) (a : Semester.args) (r : Semester.t),
      Semester.validate created_now updated_now a = Valid r ->
      (String.length (Semester.name r) <= 50)%nat /\
      2020 <= Semester.year r <= 2050 /\
      1 <= Semester.semester_number r <= 8) /\
  (forall (a : SemesterCreate.t) (r : SemesterCreate.t),
      SemesterCreate.validate a = Valid r ->
      (String.length (SemesterCreate.name r) <= 50)%nat /\
      2020 <= SemesterCreate.year r <= 2050 /\
      1 <= SemesterCreate.semester_number r <= 8) /\
  (forall (a : SemesterUpdate.t) (r : SemesterUpdate.t),
      SemesterUpdate.validate a = Valid r ->
      (forall x, SemesterUpdate.name r = Some x -> (String.length x <= 50)%nat) /\
      (forall x, SemesterUpdate.year r = Some x -> 2020 <= x <= 2050) /\
      (forall x, SemesterUpdate.semester_number r = Some x -> 1 <= x <= 8)).
Proof.
  repeat apply conj; intros.
  - unfold Semester.validate in H. invert_validate H. settle_bounds.
  - unfold SemesterCreate.validate in H. invert_validate H. settle_bounds.
  - unfold SemesterUpdate.validate in H. invert_validate H. settle_bounds.
Qed.

Lemma semester_fields_bounded_witness :
  (exists r, Semester.validate 0 0 Fixtures.semester = Valid r /\
      (String.length (Semester.name r) <= 50)%nat /\
      2020 <= Semester.year r <= 2050 /\
      1 <= Semester.semester_number r <= 8) /\
  (exists r, SemesterCreate.validate Fixtures.semester_create = Valid r /\
      (String.length (SemesterCreate.name r) <= 50)%nat /\
      2020 <= SemesterCreate.year r <= 2050 /\
      1 <= SemesterCreate.semester_number r <= 8) /\
  (exists r, SemesterUpdate.validate Fixtures.semester_update = Valid r /\
      (forall x, SemesterUpdate.name r = Some x -> (String.length x <= 50)%nat) /\
      (forall x, SemesterUpdate.year r = Some x -> 2020 <= x <= 2050) /\
      (forall x, SemesterUpdate.semester_number r = Some x -> 1 <= x <= 8)).
Proof.
  pose proof semester_fields_bounded as (H0 & H1 & H2).
  repeat apply conj; eexists; (split; [reflexivity|]).
  - apply (H0 0 0 Fixtures.semester). reflexivity.
  - apply (H1 Fixtures.semester_create). reflexivity.
  - apply (H2 Fixtures.semester_update). reflexivity.
Defined.

(** An accepted [Section], [SectionCreate] or [SectionUpdate] has its
    [capacity] in 1..200 and its [name] within 10 characters; an update is
    bound on the fields it sets. *)
Theorem section_fields_bounded :
  (forall (created_now updated_now : datetime) (a : Section.args) (r : Section.t),
      Section.validate created_now updated_now a = Valid r ->
      (String.length (Section.name r) <= 10)%nat /\
      1 <= Section.capacity r <= 200) /\
  (forall (a : SectionCreate.t) (r : SectionCreate.t),
      SectionCreate.validate a = Valid r ->
      (String.length (SectionCreate.name r) <= 10)%nat /\
      1 <= SectionCreate.capacity r <= 200) /\
  (forall (a : SectionUpdate.t) (r : SectionUpdate.t),
      SectionUpdate.validate a = Valid r ->
      (forall x, SectionUpdate.name r = Some x -> (String.length x <= 10)%nat) /\
      (forall x, SectionUpdate.capacity r = Some x -> 1 <= x <= 200)).
Proof.
  repeat apply conj; intros.
  - unfold Section.validate in H. invert_validate H. settle_bounds.
  - unfold SectionCreate.validate in H. invert_validate H. settle_bounds.
  - unfold SectionUpdate.validate in H. invert_validate H. settle_bounds.
Qed.

Lemma section_fields_bounded_witness :
  (exists r, Section.validate 0 0 Fixtures.section = Valid r /\
      (String.length (Section.name r) <= 10)%nat /\
      1 <= Section.capacity r <= 200) /\
  (exists r, SectionCreate.validate Fixtures.section_create = Valid r /\
      (String.length (SectionCreate.name r) <= 10)%nat /\
      1 <= SectionCreate.capacity r <= 200) /\
  (exists r, SectionUpdate.validate Fixtures.section_update = Valid r /\
      (forall x, SectionUpdate.name r = Some x -> (String.length x <= 10)%nat) /\
      (forall x, SectionUpdate.capacity r = Some x -> 1 <= x <= 200)).
Proof.
  pose proof section_fields_bounded as (H0 & H1 & H2).
  repeat apply conj; eexists; (split; [reflexivity|]).
  - apply (H0 0 0 Fixtures.section). reflexivity.
  - apply (H1 Fixtures.section_create). reflexivity.
  - apply (H2 Fixtures.section_update). reflexivity.
Defined.

(** An accepted [Room], [RoomCreate] or [RoomUpdate] has its [capacity] in
    1..500, its [room_number] within 20 characters and its [building] within
    50; an update is bound on the fields it sets. *)
Theorem room_fields_bounded :
  (forall (created_now updated_now : datetime) (a : Room.args) (r : Room.t),
      Room.validate created_now updated_now a = Valid r ->
      (String.length (Room.room_number r) <= 20)%nat /\
      (String.length (Room.building r) <= 50)%nat /\
      1 <= Room.capacity r <= 500) /\
  (forall (a : RoomCreate.args) (r : RoomCreate.t),
      RoomCreate.validate a = Valid r ->
      (String.length (RoomCreate.room_number r) <= 20)%nat /\
      (String.length (RoomCreate.building r) <= 50)%nat /\
      1 <= RoomCreate.capacity r <= 500) /\
  (forall (a : RoomUpdate.args) (r : RoomUpdate.t),
      RoomUpdate.validate a = Valid r ->
      (forall x, RoomUpdate.room_number r = Some x -> (String.length x <= 20)%nat) /\
      (forall x, RoomUpdate.building r = Some x -> (String.length x <= 50)%nat) /\
      (forall x, RoomUpdate.capacity r = Some x -> 1 <= x <= 500)).
Proof.
  repeat apply conj; intros.
  - unfold Room.validate in H. invert_validate H. settle_bounds.
  - unfold RoomCreate.validate in H. invert_validate H. settle_bounds.
  - unfold RoomUpdate.validate in H. invert_validate H. settle_bounds.
Qed.

Lemma room_fields_bounded_witness :
  (exists r, Room.validate 0 0 Fixtures.room = Valid r /\
      (String.length (Room.room_number r) <= 20)%nat /\
      (String.length (Room.building r) <= 50)%nat /\
      1 <= Room.capacity r <= 500) /\
  (exists r, RoomCreate.validate Fixtures.room_create = Valid r /\
      (String.length (RoomCreate.room_number r) <= 20)%nat /\
      (String.length (RoomCreate.building r) <= 50)%nat /\
      1 <= RoomCreate.capacity r <= 500) /\
  (exists r, RoomUpdate.validate Fixtures.room_update = Valid r /\
      (forall x, RoomUpdate.room_number r = Some x -> (String.length x <= 20)%nat) /\
      (forall x, RoomUpdate.building r = Some x -> (String.length x <= 50)%nat) /\
      (forall x, RoomUpdate.capacity r = Some x -> 1 <= x <= 500)).
Proof.
  pose proof room_fields_bounded as (H0 & H1 & H2).
  repeat apply conj; eexists; (split; [reflexivity|]).
  - apply (H0 0 0 Fixtures.room). reflexivity.
  - apply (H1 Fixtures.room_create). reflexivity.
  - apply (H2 Fixtures.room_update). reflexivity.
Defined.

(** An accepted [Course] or [CourseCreate] has its [credits] in 1..10, its
    [semester_number] in 1..8, its [course_code] within 20 characters, its
    [name] within 200 and its [description] within 1000; an accepted
    [CourseUpdate] has the [credits] and [hours_per_week] it sets in 1..10 and
    the strings it sets within the same lengths. *)
Theorem course_fields_bounded :
  (forall (created_now updated_now : datetime) (a : Course.args) (r : Course.t),
      Course.validate created_now updated_now a = Valid r ->
      (String.length (Course.course_code r) <= 20)%nat /\
      (String.length (Course.name r) <= 200)%nat /\
      (forall x, Course.description r = Some x -> (String.length x <= 1000)%nat) /\
      1 <= Course.credits r <= 10 /\
      1 <= Course.semester_number r <= 8) /\
  (forall (a : CourseCreate.args) (r : CourseCreate.t),
      CourseCreate.validate a = Valid r ->
      (String.length (CourseCreate.course_code r) <= 20)%nat /\
      (String.length (CourseCreate.name r) <= 200)%nat /\
      (forall x, CourseCreate.description r = Some x -> (String.length x <= 1000)%nat) /\
      1 <= CourseCreate.credits r <= 10 /\
      1 <= CourseCreate.semester_number r <= 8) /\
  (forall (a : CourseUpdate.args) (r : CourseUpdate.t),
      CourseUpdate.validate a = Valid r ->
      (forall x, CourseUpdate.name r = Some x -> (String.length x <= 200)%nat) /\
      (forall x, CourseUpdate.description r = Some x -> (String.length x <= 1000)%nat) /\
      (forall x, CourseUpdate.credits r = Some x -> 1 <= x <= 10) /\
      (forall x, CourseUpdate.hours_per_week r = Some x -> 1 <= x <= 10)).
Proof.
  repeat apply conj; intros.
  - unfold Course.validate in H. invert_validate H. settle_bounds.
  - unfold CourseCreate.validate in H. invert_validate H. settle_bounds.
  - unfold CourseUpdate.validate in H. invert_validate H. settle_bounds.
Qed.

Lemma course_fields_bounded_witness :
  (exists r, Course.validate 0 0 Fixtures.course = Valid r /\
      (String.length (Course.course_code r) <= 20)%nat /\
      (String.length (Course.name r) <= 200)%nat /\
      (forall x, Course.description r = Some x -> (String.length x <= 1000)%nat) /\
      1 <= Course.credits r <= 10 /\
      1 <= Course.semester_number r <= 8) /\
  (exists r, CourseCreate.validate Fixtures.course_create = Valid r /\
      (String.length (CourseCreate.course_code r) <= 20)%nat /\
      (String.length (CourseCreate.name r) <= 200)%nat /\
      (forall x, CourseCreate.description r = Some x -> (String.length x <= 1000)%nat) /\
      1 <= CourseCreate.credits r <= 10 /\
      1 <= CourseCreate.semester_number r <= 8) /\
  (exists r, CourseUpdate.validate Fixtures.course_update = Valid r /\
      (forall x, CourseUpdate.name r = Some x -> (String.length x <= 200)%nat) /\
      (forall x, CourseUpdate.description r = Some x -> (String.length x <= 1000)%nat) /\
      (forall x, CourseUpdate.credits r = Some x -> 1 <= x <= 10) /\
      (forall x, CourseUpdate.hours_per_week r = Some x -> 1 <= x <= 10)).
Proof.
  pose proof course_fields_bounded as (H0 & H1 & H2).
  repeat apply conj; eexists; (split; [reflexivity|]).
  - apply (H0 0 0 Fixtures.course). reflexivity.
  - apply (H1 Fixtures.course_create). reflexivity.
  - apply (H2 Fixtures.course_update). reflexivity.
Defined.

(** An accepted [Teacher], [TeacherCreate] or [TeacherUpdate] keeps
    [employee_id] within 20 characters, [first_name] and [last_name] within
    50, [email] within 255 and [phone] within 20; an update is bound on the
    fields it sets. *)
Theorem teacher_strings_bounded :
  (forall (created_now updated_now : datetime) (a : Teacher.args) (r : Teacher.t),
      Teacher.validate created_now updated_now a = Valid r ->
      (String.length (Teacher.employee_id r) <= 20)%nat /\
      (String.length (Teacher.first_name r) <= 50)%nat /\
      (String.length (Teacher.last_name r) <= 50)%nat /\
      (String.length (Teacher.email r) <= 255)%nat /\
      (forall x, Teacher.phone r = Some x -> (String.length x <= 20)%nat)) /\
  (forall (a : TeacherCreate.args) (r : TeacherCreate.t),
      TeacherCreate.validate a = Valid r ->
      (String.length (TeacherCreate.employee_id r) <= 20)%nat /\
      (String.length (TeacherCreate.first_name r) <= 50)%nat /\
      (String.length (TeacherCreate.last_name r) <= 50)%nat /\
      (String.length (TeacherCreate.email r) <= 255)%nat /\
      (forall x, TeacherCreate.phone r = Some x -> (String.length x <= 20)%nat)) /\
  (forall (a : TeacherUpdate.t) (r : TeacherUpdate.t),
      TeacherUpdate.validate a = Valid r ->
      (forall x, TeacherUpdate.first_name r = Some x -> (String.length x <= 50)%nat) /\
      (forall x, TeacherUpdate.last_name r = Some x -> (String.length x <= 50)%nat) /\
      (forall x, TeacherUpdate.email r = Some x -> (String.length x <= 255)%nat) /\
      (forall x, TeacherUpdate.phone r = Some x -> (String.length x <= 20)%nat)).
Proof.
  repeat apply conj; intros.
  - unfold Teacher.validate in H. invert_validate H. settle_bounds.
  - unfold TeacherCreate.validate in H. invert_validate H. settle_bounds.
  - unfold TeacherUpdate.validate in H. invert_validate H. settle_bounds.
Qed.

Lemma teacher_strings_bounded_witness :
  (exists r, Teacher.validate 0 0 Fixtures.teacher = Valid r /\
      (String.length (Teacher.employee_id r) <= 20)%nat /\
      (String.length (Teacher.first_name r) <= 50)%nat /\
      (String.length (Teacher.last_name r) <= 50)%nat /\
      (String.length (Teacher.email r) <= 255)%nat /\
      (forall x, Teacher.phone r = Some x -> (String.length x <= 20)%nat)) /\
  (exists r, TeacherCreate.validate Fixtures.teacher_create = Valid r /\
      (String.length (TeacherCreate.employee_id r) <= 20)%nat /\
      (String.length (TeacherCreate.first_name r) <= 50)%nat /\
      (String.length (TeacherCreate.last_name r) <= 50)%nat /\
      (String.length (TeacherCreate.email r) <= 255)%nat /\
      (forall x, TeacherCreate.phone r = Some x -> (String.length x <= 20)%nat)) /\
  (exists r, TeacherUpdate.validate Fixtures.teacher_update = Valid r /\
      (forall x, TeacherUpdate.first_name r = Some x -> (String.length x <= 50)%nat) /\
      (forall x, TeacherUpdate.last_name r = Some x -> (String.length x <= 50)%nat) /\
      (forall x, TeacherUpdate.email r = Some x -> (String.length x <= 255)%nat) /\
      (forall x, TeacherUpdate.phone r = Some x -> (String.length x <= 20)%nat)).
Proof.
  pose proof teacher_strings_bounded as (H0 & H1 & H2).
  repeat apply conj; eexists; (split; [reflexivity|]).
  - apply (H0 0 0 Fixtures.teacher). reflexivity.
  - apply (H1 Fixtures.teacher_create). reflexivity.
  - apply (H2 Fixtures.teacher_update). reflexivity.
Defined.

(** An accepted [Timetable], [TimetableCreate] or [TimetableUpdate] keeps
    [name] within 100 characters, and a [Timetable] its [generated_by] within
    100; an accepted [TimetableEntry], [TimetableEntryCreate] or
    [TimetableEntryUpdate] keeps its [notes] within 500; an accepted
    [TimeSlotUpdate] keeps the [name] it sets within 50. *)
Theorem timetable_strings_bounded :
  (forall (created_now updated_now : datetime) (a : Timetable.args) (r : Timetable.t),
      Timetable.validate created_now updated_now a = Valid r ->
      (String.length (Timetable.name r) <= 100)%nat /\
      (forall x, Timetable.generated_by r = Some x -> (String.length x <= 100)%nat)) /\
  (forall (a : TimetableCreate.args) (r : TimetableCreate.t),
      TimetableCreate.validate a = Valid r ->
      (String.length (TimetableCreate.name r) <= 100)%nat) /\
  (forall (a : TimetableUpdate.args) (r : TimetableUpdate.t),
      TimetableUpdate.validate a = Valid r ->
      (forall x, TimetableUpdate.name r = Some x -> (String.length x <= 100)%nat)) /\
  (forall (created_now updated_now : datetime)
          (a : TimetableEntry.args) (r : TimetableEntry.t),
      TimetableEntry.validate created_now updated_now a = Valid r ->
      (forall x, TimetableEntry.notes r = Some x -> (String.length x <= 500)%nat)) /\
  (forall (a : TimetableEntryCreate.t) (r : TimetableEntryCreate.t),
      TimetableEntryCreate.validate a = Valid r ->
      (forall x, TimetableEntryCreate.notes r = Some x -> (String.length x <= 500)%nat)) /\
  (forall (a : TimetableEntryUpdate.t) (r : TimetableEntryUpdate.t),
      TimetableEntryUpdate.validate a = Valid r ->
      (forall x, TimetableEntryUpdate.notes r = Some x -> (String.length x <= 500)%nat)) /\
  (forall (a : TimeSlotUpdate.args) (r : TimeSlotUpdate.t),
      TimeSlotUpdate.validate a = Valid r ->
      (forall x, TimeSlotUpdate.name r = Some x -> (String.length x <= 50)%nat)).
Proof.
  repeat apply conj; intros.
  - unfold Timetable.validate in H. invert_validate H. settle_bounds.
  - unfold TimetableCreate.validate in H. invert_validate H. settle_bounds.
  - unfold TimetableUpdate.validate in H. invert_validate H. settle_bounds.
  - unfold TimetableEntry.validate in H. invert_validate H. settle_bounds.
  - unfold TimetableEntryCreate.validate in H. invert_validate H. settle_bounds.
  - unfold TimetableEntryUpdate.validate in H. invert_validate H. settle_bounds.
  - unfold TimeSlotUpdate.validate in H. invert_validate H. settle_bounds.
Qed.

Lemma timetable_strings_bounded_witness :
  (exists r, Timetable.validate 0 0 Fixtures.timetable = Valid r /\
      (String.length (Timetable.name r) <= 100)%nat /\
      (forall x, Timetable.generated_by r = Some x -> (String.length x <= 100)%nat)) /\
  (exists r, TimetableCreate.validate Fixtures.timetable_create = Valid r /\
      (String.length (TimetableCreate.name r) <= 100)%nat) /\
  (exists r, TimetableUpdate.validate Fixtures.timetable_update = Valid r /\
      (forall x, TimetableUpdate.name r = Some x -> (String.length x <= 100)%nat)) /\
  (exists r, TimetableEntry.validate 0 0 Fixtures.timetable_entry = Valid r /\
      (forall x, TimetableEntry.notes r = Some x -> (String.length x <= 500)%nat)) /\
  (exists r, TimetableEntryCreate.validate Fixtures.timetable_entry_create = Valid r /\
      (forall x, TimetableEntryCreate.notes r = Some x -> (String.length x <= 500)%nat)) /\
  (exists r, TimetableEntryUpdate.validate Fixtures.timetable_entry_update = Valid r /\
      (forall x, TimetableEntryUpdate.notes r = Some x -> (String.length x <= 500)%nat)) /\
  (exists r, TimeSlotUpdate.validate Fixtures.time_slot_update = Valid r /\
      (forall x, TimeSlotUpdate.name r = Some x -> (String.length x <= 50)%nat)).
Proof.
  pose proof timetable_strings_bounded as (H0 & H1 & H2 & H3 & H4 & H5 & H6).
  repeat apply conj; eexists; (split; [reflexivity|]).
  - apply (H0 0 0 Fixtures.timetable). reflexivity.
  - apply (H1 Fixtures.timetable_create). reflexivity.
  - apply (H2 Fixtures.timetable_update). reflexivity.
  - apply (H3 0 0 Fixtures.timetable_entry). reflexivity.
  - apply (H4 Fixtures.timetable_entry_create). reflexivity.
  - apply (H5 Fixtures.timetable_entry_update). reflexivity.
  - apply (H6 Fixtures.time_slot_update). reflexivity.
Defined.

(** The fields of an accepted [DepartmentCreate], passed on to [Department],
    are accepted again and stored unchanged; what the request does not carry
    takes the defaults of the row. *)
Theorem department_row_from_create
    (created_now updated_now : datetime) (a : DepartmentCreate.t) (x : DepartmentCreate.t) :
  DepartmentCreate.validate a = Valid x ->
  Department.validate created_now updated_now
    {| Department.a_id := None;
       Department.a_name := DepartmentCreate.name x;
       Department.a_code := DepartmentCreate.code x;
       Department.a_description := DepartmentCreate.description x;
       Department.a_is_active := None;
       Department.a_created_at := None;
       Department.a_updated_at := None |} =
  Valid {| Department.id := None;
           Department.name := DepartmentCreate.name x;
           Department.code := DepartmentCreate.code x;
           Department.description := DepartmentCreate.description x;
           Department.is_active := true;
           Department.created_at := created_now;
           Department.updated_at := updated_now |}.
Proof.
  intros H. unfold DepartmentCreate.validate in H. invert_validate H.
  unfold Department.validate. simpl. rebuild_row.
Qed.

Lemma department_row_from_create_witness :
  exists x, DepartmentCreate.validate Fixtures.department_create = Valid x /\
  Department.validate 0 0
    {| Department.a_id := None;
       Department.a_name := DepartmentCreate.name x;
       Department.a_code := DepartmentCreate.code x;
       Department.a_description := DepartmentCreate.description x;
       Department.a_is_active := None;
       Department.a_created_at := None;
       Department.a_updated_at := None |} =
  Valid {| Department.id := None;
           Department.name := DepartmentCreate.name x;
           Department.code := DepartmentCreate.code x;
           Department.description := DepartmentCreate.description x;
           Department.is_active := true;
           Department.created_at := 0;
           Department.updated_at := 0 |}.
Proof.
  eexists. split; [reflexivity|].
  apply (department_row_from_create 0 0 Fixtures.department_create). reflexivity.
Defined.

(** The fields of an accepted [SemesterCreate], passed on to [Semester], are
    accepted again and stored unchanged; what the request does not carry takes
    the defaults of the row. *)
Theorem semester_row_from_create
    (created_now updated_now : datetime) (a : SemesterCreate.t) (x : SemesterCreate.t) :
  SemesterCreate.validate a = Valid x ->
  Semester.validate created_now updated_now
    {| Semester.a_id := None;
       Semester.a_name := SemesterCreate.name x;
       Semester.a_year := SemesterCreate.year x;
       Semester.a_semester_number := SemesterCreate.semester_number x;
       Semester.a_start_date := SemesterCreate.start_date x;
       Semester.a_end_date := SemesterCreate.end_date x;
       Semester.a_department_id := SemesterCreate.department_id x;
       Semester.a_is_active := None;
       Semester.a_created_at := None;
       Semester.a_updated_at := None |} =
  Valid {| Semester.id := None;
           Semester.name := SemesterCreate.name x;
           Semester.year := SemesterCreate.year x;
           Semester.semester_number := SemesterCreate.semester_number x;
           Semester.start_date := SemesterCreate.start_date x;
           Semester.end_date := SemesterCreate.end_date x;
           Semester.department_id := SemesterCreate.department_id x;
           Semester.is_active := true;
           Semester.created_at := created_now;
           Semester.updated_at := updated_now |}.
Proof.
  intros H. unfold SemesterCreate.validate in H. invert_validate H.
  unfold Semester.validate. simpl. rebuild_row.
Qed.

Lemma semester_row_from_create_witness :
  exists x, SemesterCreate.validate Fixtures.semester_create = Valid x /\
  Semester.validate 0 0
    {| Semester.a_id := None;
       Semester.a_name := SemesterCreate.name x;
       Semester.a_year := SemesterCreate.year x;
       Semester.a_semester_number := SemesterCreate.semester_number x;
       Semester.a_start_date := SemesterCreate.start_date x;
       Semester.a_end_date := SemesterCreate.end_date x;
       Semester.a_department_id := SemesterCreate.department_id x;
       Semester.a_is_active := None;
       Semester.a_created_at := None;
       Semester.a_updated_at := None |} =
  Valid {| Semester.id := None;
           Semester.name := SemesterCreate.name x;
           Semester.year := SemesterCreate.year x;
           Semester.semester_number := SemesterCreate.semester_number x;
           Semester.start_date := SemesterCreate.start_date x;
           Semester.end_date := SemesterCreate.end_date x;
           Semester.department_id := SemesterCreate.department_id x;
           Semester.is_active := true;
           Semester.created_at := 0;
           Semester.updated_at := 0 |}.
Proof.
  eexists. split; [reflexivity|].
  apply (semester_row_from_create 0 0 Fixtures.semester_create). reflexivity.
Defined.

(** The fields of an accepted [SectionCreate], passed on to [Section], are
    accepted again and stored unchanged; what the request does not carry takes
    the defaults of the row. *)
Theorem section_row_from_create
    (created_now updated_now : datetime) (a : SectionCreate.t) (x : SectionCreate.t) :
  SectionCreate.validate a = Valid x ->
  Section.validate created_now updated_now
    {| Section.a_id := None;
       Section.a_name := SectionCreate.name x;
       Section.a_capacity := SectionCreate.capacity x;
       Section.a_semester_id := SectionCreate.semester_id x;
       Section.a_is_active := None;
       Section.a_created_at := None;
       Section.a_updated_at := None |} =
  Valid {| Section.id := None;
           Section.name := SectionCreate.name x;
           Section.capacity := SectionCreate.capacity x;
           Section.semester_id := SectionCreate.semester_id x;
           Section.is_active := true;
           Section.created_at := created_now;
           Section.updated_at := updated_now |}.
Proof.
  intros H. unfold SectionCreate.validate in H. invert_validate H.
  unfold Section.validate. simpl. rebuild_row.
Qed.

Lemma section_row_from_create_witness :
  exists x, SectionCreate.validate Fixtures.section_create = Valid x /\
  Section.validate 0 0
    {| Section.a_id := None;
       Section.a_name := SectionCreate.name x;
       Section.a_capacity := SectionCreate.capacity x;
       Section.a_semester_id := SectionCreate.semester_id x;
       Section.a_is_active := None;
       Section.a_created_at := None;
       Section.a_updated_at := None |} =
  Valid {| Section.id := None;
           Section.name := SectionCreate.name x;
           Section.capacity := SectionCreate.capacity x;
           Section.semester_id := SectionCreate.semester_id x;
           Section.is_active := true;
           Section.created_at := 0;
           Section.updated_at := 0 |}.
Proof.
  eexists. split; [reflexivity|].
  apply (section_row_from_create 0 0 Fixtures.section_create). reflexivity.
Defined.

(** The fields of an accepted [TeacherCreate], passed on to [Teacher], are
    accepted again and stored unchanged; what the request does not carry takes
    the defaults of the row. *)
Theorem teacher_row_from_create
    (created_now updated_now : datetime) (a : TeacherCreate.args) (x : TeacherCreate.t) :
  TeacherCreate.validate a = Valid x ->
  Teacher.validate created_now updated_now
    {| Teacher.a_id := None;
       Teacher.a_employee_id := TeacherCreate.employee_id x;
       Teacher.a_first_name := TeacherCreate.first_name x;
       Teacher.a_last_name := TeacherCreate.last_name x;
       Teacher.a_email := TeacherCreate.email x;
       Teacher.a_phone := TeacherCreate.phone x;
       Teacher.a_department_id := TeacherCreate.department_id x;
       Teacher.a_specializations := Some (TeacherCreate.specializations x);
       Teacher.a_max_hours_per_week := Some (TeacherCreate.max_hours_per_week x);
       Teacher.a_preferred_time_slots := Some (TeacherCreate.preferred_time_slots x);
       Teacher.a_unavailable_days := Some (TeacherCreate.unavailable_days x);
       Teacher.a_is_active := None;
       Teacher.a_created_at := None;
       Teacher.a_updated_at := None |} =
  Valid {| Teacher.id := None;
           Teacher.employee_id := TeacherCreate.employee_id x;
           Teacher.first_name := TeacherCreate.first_name x;
           Teacher.last_name := TeacherCreate.last_name x;
           Teacher.email := TeacherCreate.email x;
           Teacher.phone := TeacherCreate.phone x;
           Teacher.department_id := TeacherCreate.department_id x;
           Teacher.specializations := TeacherCreate.specializations x;
           Teacher.max_hours_per_week := TeacherCreate.max_hours_per_week x;
           Teacher.preferred_time_slots := TeacherCreate.preferred_time_slots x;
           Teacher.unavailable_days := TeacherCreate.unavailable_days x;
           Teacher.is_active := true;
           Teacher.created_at := created_now;
           Teacher.updated_at := updated_now |}.
Proof.
  intros H. unfold TeacherCreate.validate in H. invert_validate H.
  unfold Teacher.validate. simpl. rebuild_row.
Qed.

Lemma teacher_row_from_create_witness :
  exists x, TeacherCreate.validate Fixtures.teacher_create = Valid x /\
  Teacher.validate 1 2
    {| Teacher.a_id := None;
       Teacher.a_employee_id := TeacherCreate.employee_id x;
       Teacher.a_first_name := TeacherCreate.first_name x;
       Teacher.a_last_name := TeacherCreate.last_name x;
       Teacher.a_email := TeacherCreate.email x;
       Teacher.a_phone := TeacherCreate.phone x;
       Teacher.a_department_id := TeacherCreate.department_id x;
       Teacher.a_specializations := Some (TeacherCreate.specializations x);
       Teacher.a_max_hours_per_week := Some (TeacherCreate.max_hours_per_week x);
       Teacher.a_preferred_time_slots := Some (TeacherCreate.preferred_time_slots x);
       Teacher.a_unavailable_days := Some (TeacherCreate.unavailable_days x);
       Teacher.a_is_active := None;
       Teacher.a_created_at := None;
       Teacher.a_updated_at := None |} =
  Valid {| Teacher.id := None;
           Teacher.employee_id := TeacherCreate.employee_id x;
           Teacher.first_name := TeacherCreate.first_name x;
           Teacher.last_name := TeacherCreate.last_name x;
           Teacher.email := TeacherCreate.email x;
           Teacher.phone := TeacherCreate.phone x;
           Teacher.department_id := TeacherCreate.department_id x;
           Teacher.specializations := TeacherCreate.specializations x;
           Teacher.max_hours_per_week := TeacherCreate.max_hours_per_week x;
           Teacher.preferred_time_slots := TeacherCreate.preferred_time_slots x;
           Teacher.unavailable_days := TeacherCreate.unavailable_days x;
           Teacher.is_active := true;
           Teacher.created_at := 1;
           Teacher.updated_at := 2 |}.
Proof.
  eexists. split; [reflexivity|].
  apply (teacher_row_from_create 1 2 Fixtures.teacher_create). reflexivity.
Defined.

(** The fields of an accepted [RoomCreate], passed on to [Room], are accepted
    again and stored unchanged; what the request does not carry takes the
    defaults of the row. *)
Theorem room_row_from_create
    (created_now updated_now : datetime) (a : RoomCreate.args) (x : RoomCreate.t) :
  RoomCreate.validate a = Valid x ->
  Room.validate created_now updated_now
    {| Room.a_id := None;
       Room.a_room_number := RoomCreate.room_number x;
       Room.a_building := RoomCreate.building x;
       Room.a_floor := RoomCreate.floor x;
       Room.a_capacity := RoomCreate.capacity x;
       Room.a_room_type := RoomType.value (RoomCreate.room_type x);
       Room.a_equipment := Some (RoomCreate.equipment x);
       Room.a_department_id := RoomCreate.department_id x;
       Room.a_is_available := None;
       Room.a_created_at := None;
       Room.a_updated_at := None |} =
  Valid {| Room.id := None;
           Room.room_number := RoomCreate.room_number x;
           Room.building := RoomCreate.building x;
           Room.floor := RoomCreate.floor x;
           Room.capacity := RoomCreate.capacity x;
           Room.room_type := RoomCreate.room_type x;
           Room.equipment := RoomCreate.equipment x;
           Room.department_id := RoomCreate.department_id x;
           Room.is_available := true;
           Room.created_at := created_now;
           Room.updated_at := updated_now |}.
Proof.
  intros H. unfold RoomCreate.validate in H. invert_validate H.
  unfold Room.validate. simpl. rebuild_row.
Qed.

Lemma room_row_from_create_witness :
  exists x, RoomCreate.validate Fixtures.room_create = Valid x /\
  Room.validate 0 0
    {| Room.a_id := None;
       Room.a_room_number := RoomCreate.room_number x;
       Room.a_building := RoomCreate.building x;
       Room.a_floor := RoomCreate.floor x;
       Room.a_capacity := RoomCreate.capacity x;
       Room.a_room_type := RoomType.value (RoomCreate.room_type x);
       Room.a_equipment := Some (RoomCreate.equipment x);
       Room.a_department_id := RoomCreate.department_id x;
       Room.a_is_available := None;
       Room.a_created_at := None;
       Room.a_updated_at := None |} =
  Valid {| Room.id := None;
           Room.room_number := RoomCreate.room_number x;
           Room.building := RoomCreate.building x;
           Room.floor := RoomCreate.floor x;
           Room.capacity := RoomCreate.capacity x;
           Room.room_type := RoomCreate.room_type x;
           Room.equipment := RoomCreate.equipment x;
           Room.department_id := RoomCreate.department_id x;
           Room.is_available := true;
           Room.created_at := 0;
           Room.updated_at := 0 |}.
Proof.
  eexists. split; [reflexivity|].
  apply (room_row_from_create 0 0 Fixtures.room_create). reflexivity.
Defined.

(** The fields of an accepted [CourseCreate], passed on to [Course], are
    accepted again and stored unchanged; what the request does not carry takes
    the defaults of the row. *)
Theorem course_row_from_create
    (created_now updated_now : datetime) (a : CourseCreate.args) (x : CourseCreate.t) :
  CourseCreate.validate a = Valid x ->
  Course.validate created_now updated_now
    {| Course.a_id := None;
       Course.a_course_code := CourseCreate.course_code x;
       Course.a_name := CourseCreate.name x;
       Course.a_description := CourseCreate.description x;
       Course.a_credits := CourseCreate.credits x;
       Course.a_course_type := CourseType.value (CourseCreate.course_type x);
       Course.a_hours_per_week := CourseCreate.hours_per_week x;
       Course.a_required_room_type :=
           option_map RoomType.value (CourseCreate.required_room_type x);
       Course.a_required_equipment := Some (CourseCreate.required_equipment x);
       Course.a_semester_number := CourseCreate.semester_number x;
       Course.a_department_id := CourseCreate.department_id x;
       Course.a_prerequisites := Some (CourseCreate.prerequisites x);
       Course.a_is_active := None;
       Course.a_created_at := None;
       Course.a_updated_at := None |} =
  Valid {| Course.id := None;
           Course.course_code := CourseCreate.course_code x;
           Course.name := CourseCreate.name x;
           Course.description := CourseCreate.description x;
           Course.credits := CourseCreate.credits x;
           Course.course_type := CourseCreate.course_type x;
           Course.hours_per_week := CourseCreate.hours_per_week x;
           Course.required_room_type := CourseCreate.required_room_type x;
           Course.required_equipment := CourseCreate.required_equipment x;
           Course.semester_number := CourseCreate.semester_number x;
           Course.department_id := CourseCreate.department_id x;
           Course.prerequisites := CourseCreate.prerequisites x;
           Course.is_active := true;
           Course.created_at := created_now;
           Course.updated_at := updated_now |}.
Proof.
  intros H. unfold CourseCreate.validate in H. invert_validate H.
  unfold Course.validate. simpl. rebuild_row.
Qed.

Lemma course_row_from_create_witness :
  exists x, CourseCreate.validate Fixtures.course_create = Valid x /\
  Course.validate 1 2
    {| Course.a_id := None;
       Course.a_course_code := CourseCreate.course_code x;
       Course.a_name := CourseCreate.name x;
       Course.a_description := CourseCreate.description x;
       Course.a_credits := CourseCreate.credits x;
       Course.a_course_type := CourseType.value (CourseCreate.course_type x);
       Course.a_hours_per_week := CourseCreate.hours_per_week x;
       Course.a_required_room_type :=
           option_map RoomType.value (CourseCreate.required_room_type x);
       Course.a_required_equipment := Some (CourseCreate.required_equipment x);
       Course.a_semester_number := CourseCreate.semester_number x;
       Course.a_department_id := CourseCreate.department_id x;
       Course.a_prerequisites := Some (CourseCreate.prerequisites x);
       Course.a_is_active := None;
       Course.a_created_at := None;
       Course.a_updated_at := None |} =
  Valid {| Course.id := None;
           Course.course_code := CourseCreate.course_code x;
           Course.name := CourseCreate.name x;
           Course.description := CourseCreate.description x;
           Course.credits := CourseCreate.credits x;
           Course.course_type := CourseCreate.course_type x;
           Course.hours_per_week := CourseCreate.hours_per_week x;
           Course.required_room_type := CourseCreate.required_room_type x;
           Course.required_equipment := CourseCreate.required_equipment x;
           Course.semester_number := CourseCreate.semester_number x;
           Course.department_id := CourseCreate.department_id x;
           Course.prerequisites := CourseCreate.prerequisites x;
           Course.is_active := true;
           Course.created_at := 1;
           Course.updated_at := 2 |}.
Proof.
  eexists. split; [reflexivity|].
  apply (course_row_from_create 1 2 Fixtures.course_create). reflexivity.
Defined.

(** The fields of an accepted [TimeSlotCreate], passed on to [TimeSlot], are
    accepted again and stored unchanged; what the request does not carry takes
    the defaults of the row. *)
Theorem time_slot_row_from_create
    (utcnow : datetime) (a : TimeSlotCreate.args) (x : TimeSlotCreate.t) :
  TimeSlotCreate.validate a = Valid x ->
  TimeSlot.validate utcnow
    {| TimeSlot.a_id := None;
       TimeSlot.a_name := TimeSlotCreate.name x;
       TimeSlot.a_start_time := TimeSlotCreate.start_time x;
       TimeSlot.a_end_time := TimeSlotCreate.end_time x;
       TimeSlot.a_day_of_week := DayOfWeek.value (TimeSlotCreate.day_of_week x);
       TimeSlot.a_is_active := None;
       TimeSlot.a_created_at := None |} =
  Valid {| TimeSlot.id := None;
           TimeSlot.name := TimeSlotCreate.name x;
           TimeSlot.start_time := TimeSlotCreate.start_time x;
           TimeSlot.end_time := TimeSlotCreate.end_time x;
           TimeSlot.day_of_week := TimeSlotCreate.day_of_week x;
           TimeSlot.is_active := true;
           TimeSlot.created_at := utcnow |}.
Proof.
  intros H. unfold TimeSlotCreate.validate in H. invert_validate H.
  unfold TimeSlot.validate. simpl. rebuild_row.
Qed.

Lemma time_slot_row_from_create_witness :
  exists x, TimeSlotCreate.validate Fixtures.time_slot_create = Valid x /\
  TimeSlot.validate 0
    {| TimeSlot.a_id := None;
       TimeSlot.a_name := TimeSlotCreate.name x;
       TimeSlot.a_start_time := TimeSlotCreate.start_time x;
       TimeSlot.a_end_time := TimeSlotCreate.end_time x;
       TimeSlot.a_day_of_week := DayOfWeek.value (TimeSlotCreate.day_of_week x);
       TimeSlot.a_is_active := None;
       TimeSlot.a_created_at := None |} =
  Valid {| TimeSlot.id := None;
           TimeSlot.name := TimeSlotCreate.name x;
           TimeSlot.start_time := TimeSlotCreate.start_time x;
           TimeSlot.end_time := TimeSlotCreate.end_time x;
           TimeSlot.day_of_week := TimeSlotCreate.day_of_week x;
           TimeSlot.is_active := true;
           TimeSlot.created_at := 0 |}.
Proof.
  eexists. split; [reflexivity|].
  apply (time_slot_row_from_create 0 Fixtures.time_slot_create). reflexivity.
Defined.

(** The fields of an accepted [CourseAssignmentCreate], passed on to
    [CourseAssignment], are accepted again and stored unchanged; what the
    request does not carry takes the defaults of the row. *)
Theorem course_assignment_row_from_create
    (assigned_now : datetime) (a : CourseAssignmentCreate.args) (x : CourseAssignmentCreate.t) :
  CourseAssignmentCreate.validate a = Valid x ->
  CourseAssignment.validate assigned_now
    {| CourseAssignment.a_id := None;
       CourseAssignment.a_teacher_id := CourseAssignmentCreate.teacher_id x;
       CourseAssignment.a_course_id := CourseAssignmentCreate.course_id x;
       CourseAssignment.a_assigned_at := None;
       CourseAssignment.a_is_primary := Some (CourseAssignmentCreate.is_primary x);
       CourseAssignment.a_is_active := None |} =
  Valid {| CourseAssignment.id := None;
           CourseAssignment.teacher_id := CourseAssignmentCreate.teacher_id x;
           CourseAssignment.course_id := CourseAssignmentCreate.course_id x;
           CourseAssignment.assigned_at := assigned_now;
           CourseAssignment.is_primary := CourseAssignmentCreate.is_primary x;
           CourseAssignment.is_active := true |}.
Proof.
  intros H. unfold CourseAssignmentCreate.validate in H. invert_validate H.
  unfold CourseAssignment.validate. simpl. rebuild_row.
Qed.

Lemma course_assignment_row_from_create_witness :
  exists x, CourseAssignmentCreate.validate Fixtures.course_assignment_create = Valid x /\
  CourseAssignment.validate 0
    {| CourseAssignment.a_id := None;
       CourseAssignment.a_teacher_id := CourseAssignmentCreate.teacher_id x;
       CourseAssignment.a_course_id := CourseAssignmentCreate.course_id x;
       CourseAssignment.a_assigned_at := None;
       CourseAssignment.a_is_primary := Some (CourseAssignmentCreate.is_primary x);
       CourseAssignment.a_is_active := None |} =
  Valid {| CourseAssignment.id := None;
           CourseAssignment.teacher_id := CourseAssignmentCreate.teacher_id x;
           CourseAssignment.course_id := CourseAssignmentCreate.course_id x;
           CourseAssignment.assigned_at := 0;
           CourseAssignment.is_primary := CourseAssignmentCreate.is_primary x;
           CourseAssignment.is_active := true |}.
Proof.
  eexists. split; [reflexivity|].
  apply (course_assignment_row_from_create 0 Fixtures.course_assignment_create). reflexivity.
Defined.

(** The fields of an accepted [TimetableCreate], passed on to [Timetable], are
    accepted again and stored unchanged; what the request does not carry takes
    the defaults of the row. *)
Theorem timetable_row_from_create
    (created_now updated_now : datetime) (a : TimetableCreate.args) (x : TimetableCreate.t) :
  TimetableCreate.validate a = Valid x ->
  Timetable.validate created_now updated_now
    {| Timetable.a_id := None;
       Timetable.a_name := TimetableCreate.name x;
       Timetable.a_semester_id := TimetableCreate.semester_id x;
       Timetable.a_status := None;
       Timetable.a_generation_rules := Some (TimetableCreate.generation_rules x);
       Timetable.a_created_at := None;
       Timetable.a_updated_at := None;
       Timetable.a_generated_at := None;
       Timetable.a_generated_by := None |} =
  Valid {| Timetable.id := None;
           Timetable.name := TimetableCreate.name x;
           Timetable.semester_id := TimetableCreate.semester_id x;
           Timetable.status := TimetableStatus.DRAFT;
           Timetable.generation_rules := TimetableCreate.generation_rules x;
           Timetable.created_at := created_now;
           Timetable.updated_at := updated_now;
           Timetable.generated_at := None;
           Timetable.generated_by := None |}.
Proof.
  intros H. unfold TimetableCreate.validate in H. invert_validate H.
  unfold Timetable.validate. simpl. rebuild_row.
Qed.

Lemma timetable_row_from_create_witness :
  exists x, TimetableCreate.validate Fixtures.timetable_create = Valid x /\
  Timetable.validate 1 2
    {| Timetable.a_id := None;
       Timetable.a_name := TimetableCreate.name x;
       Timetable.a_semester_id := TimetableCreate.semester_id x;
       Timetable.a_status := None;
       Timetable.a_generation_rules := Some (TimetableCreate.generation_rules x);
       Timetable.a_created_at := None;
       Timetable.a_updated_at := None;
       Timetable.a_generated_at := None;
       Timetable.a_generated_by := None |} =
  Valid {| Timetable.id := None;
           Timetable.name := TimetableCreate.name x;
           Timetable.semester_id := TimetableCreate.semester_id x;
           Timetable.status := TimetableStatus.DRAFT;
           Timetable.generation_rules := TimetableCreate.generation_rules x;
           Timetable.created_at := 1;
           Timetable.updated_at := 2;
           Timetable.generated_at := None;
           Timetable.generated_by := None |}.
Proof.
  eexists. split; [reflexivity|].
  apply (timetable_row_from_create 1 2 Fixtures.timetable_create). reflexivity.
Defined.

(** The fields of an accepted [TimetableEntryCreate], passed on to
    [TimetableEntry], are accepted again and stored unchanged; what the
    request does not carry takes the defaults of the row. *)
Theorem timetable_entry_row_from_create
    (created_now updated_now : datetime) (a : TimetableEntryCreate.t) (x : TimetableEntryCreate.t) :
  TimetableEntryCreate.validate a = Valid x ->
  TimetableEntry.validate created_now updated_now
    {| TimetableEntry.a_id := None;
       TimetableEntry.a_timetable_id := TimetableEntryCreate.timetable_id x;
       TimetableEntry.a_course_id := TimetableEntryCreate.course_id x;
       TimetableEntry.a_teacher_id := TimetableEntryCreate.teacher_id x;
       TimetableEntry.a_room_id := TimetableEntryCreate.room_id x;
       TimetableEntry.a_section_id := TimetableEntryCreate.section_id x;
       TimetableEntry.a_time_slot_id := TimetableEntryCreate.time_slot_id x;
       TimetableEntry.a_notes := TimetableEntryCreate.notes x;
       TimetableEntry.a_created_at := None;
       TimetableEntry.a_updated_at := None |} =
  Valid {| TimetableEntry.id := None;
           TimetableEntry.timetable_id := TimetableEntryCreate.timetable_id x;
           TimetableEntry.course_id := TimetableEntryCreate.course_id x;
           TimetableEntry.teacher_id := TimetableEntryCreate.teacher_id x;
           TimetableEntry.room_id := TimetableEntryCreate.room_id x;
           TimetableEntry.section_id := TimetableEntryCreate.section_id x;
           TimetableEntry.time_slot_id := TimetableEntryCreate.time_slot_id x;
           TimetableEntry.notes := TimetableEntryCreate.notes x;
           TimetableEntry.created_at := created_now;
           TimetableEntry.updated_at := updated_now |}.
Proof.
  intros H. unfold TimetableEntryCreate.validate in H. invert_validate H.
  unfold TimetableEntry.validate. simpl. rebuild_row.
Qed.

Lemma timetable_entry_row_from_create_witness :
  exists x, TimetableEntryCreate.validate Fixtures.timetable_entry_create = Valid x /\
  TimetableEntry.validate 1 2
    {| TimetableEntry.a_id := None;
       TimetableEntry.a_timetable_id := TimetableEntryCreate.timetable_id x;
       TimetableEntry.a_course_id := TimetableEntryCreate.course_id x;
       TimetableEntry.a_teacher_id := TimetableEntryCreate.teacher_id x;
       TimetableEntry.a_room_id := TimetableEntryCreate.room_id x;
       TimetableEntry.a_section_id := TimetableEntryCreate.section_id x;
       TimetableEntry.a_time_slot_id := TimetableEntryCreate.time_slot_id x;
       TimetableEntry.a_notes := TimetableEntryCreate.notes x;
       TimetableEntry.a_created_at := None;
       TimetableEntry.a_updated_at := None |} =
  Valid {| TimetableEntry.id := None;
           TimetableEntry.timetable_id := TimetableEntryCreate.timetable_id x;
           TimetableEntry.course_id := TimetableEntryCreate.course_id x;
           TimetableEntry.teacher_id := TimetableEntryCreate.teacher_id x;
           TimetableEntry.room_id := TimetableEntryCreate.room_id x;
           TimetableEntry.section_id := TimetableEntryCreate.section_id x;
           TimetableEntry.time_slot_id := TimetableEntryCreate.time_slot_id x;
           TimetableEntry.notes := TimetableEntryCreate.notes x;
           TimetableEntry.created_at := 1;
           TimetableEntry.updated_at := 2 |}.
Proof.
  eexists. split; [reflexivity|].
  apply (timetable_entry_row_from_create 1 2 Fixtures.timetable_entry_create). reflexivity.
Defined.

(** ** What validation does not look at *)

(** Validation of a semester looks at the length of [name] and at the
    ranges of [year] and [semester_number] and at nothing else:
    [start_date], [end_date] and [department_id] are stored as given, in
    whatever order the two dates come. *)
Theorem semester_validation_ignores_dates
    (a : SemesterCreate.t) (r : SemesterCreate.t) :
  SemesterCreate.validate a = Valid r <->
  (String.length (SemesterCreate.name a) <= 50)%nat /\
  2020 <= SemesterCreate.year a <= 2050 /\
  1 <= SemesterCreate.semester_number a <= 8 /\
  r = a.
Proof.
  unfold SemesterCreate.validate. rewrite finish_Valid. split.
  - intros [He E]. split_checks He.
    apply max_length_spec in Hfield. apply ge_le_spec in Hfield0, He. auto.
  - intros (Hn & Hy & Hs & ->). split; [|reflexivity].
    apply max_length_spec in Hn. apply ge_le_spec in Hy, Hs.
    now rewrite Hn, Hy, Hs.
Qed.

(** Validation of a timetable entry looks at the length of [notes] and at
    nothing else: the six ids are stored as given, whatever they are, so
    two entries that put one teacher on one time slot are both accepted. *)
Theorem entry_validation_ignores_ids
    (a : TimetableEntryCreate.t) (r : TimetableEntryCreate.t) :
  TimetableEntryCreate.validate a = Valid r <->
  (forall n, TimetableEntryCreate.notes a = Some n -> (String.length n <= 500)%nat) /\
  r = a.
Proof.
  unfold TimetableEntryCreate.validate. rewrite finish_Valid, check_nil. split.
  - intros [He <-]. split; [|reflexivity]. intros n E. rewrite E in He.
    now apply max_length_spec.
  - intros [Hn ->]. split; [|reflexivity].
    destruct (TimetableEntryCreate.notes a) as [n|]; [|reflexivity].
    apply max_length_spec. auto.
Qed.
(** ** The tables and their references *)

(** The ten tables have ten different names, and every foreign key of a
    table names the [id] of one of them. *)
Theorem foreign_keys_resolve :
  NoDup (map Schema.table_name Schema.tables) /\
  forall t column key,
    In t Schema.tables -> In (column, key) (Schema.foreign_keys t) ->
    exists t', In t' Schema.tables /\ key = Schema.key_of t'.
Proof.
  split.
  - apply (bool_decide_unpack _). vm_compute. exact I.
  - assert (forallb (fun t =>
              forallb (fun fk =>
                existsb (fun t' => String.eqb (snd fk) (Schema.key_of t')) Schema.tables)
              (Schema.foreign_keys t)) Schema.tables = true) as H
        by (vm_compute; reflexivity).
    intros t column key Ht Hfk.
    rewrite forallb_forall in H. specialize (H t Ht).
    rewrite forallb_forall in H. specialize (H (column, key) Hfk).
    apply existsb_exists in H as (t' & Ht' & E).
    exists t'. split; [exact Ht'|]. now apply String.eqb_eq in E.
Qed.

Lemma foreign_keys_resolve_witness :
  exists t', In t' Schema.tables /\ "semesters.id" = Schema.key_of t'.
Proof.
  apply (proj2 foreign_keys_resolve
           (Schema.mk_table "Section" "sections" [("semester_id", "semesters.id")])
           "semester_id" "semesters.id").
  - simpl. auto.
  - simpl. auto.
Defined.

(** Every relationship is named back by the attribute that its
    [back_populates] names; of the two, one is a list and the other a single
    object; and the class of the single one holds a foreign key to the table
    of the other. *)
Theorem relationships_mirror_each_other (r : Schema.relationship) :
  In r Schema.relationships ->
  exists r',
    In r' Schema.relationships /\
    Schema.mirrors r r' = true /\
    Schema.rel_many r' = negb (Schema.rel_many r) /\
    (if Schema.rel_many r then Schema.holds_key r' else Schema.holds_key r) = true.
Proof.
  assert (forallb (fun r =>
            existsb (fun r' =>
              Schema.mirrors r r' &&
              Bool.eqb (Schema.rel_many r') (negb (Schema.rel_many r)) &&
              (if Schema.rel_many r then Schema.holds_key r' else Schema.holds_key r))
            Schema.relationships) Schema.relationships = true) as H
      by (vm_compute; reflexivity).
  intros Hr. rewrite forallb_forall in H. specialize (H r Hr).
  apply existsb_exists in H as (r' & Hr' & E).
  apply andb_true_iff in E as [E Hk]. apply andb_true_iff in E as [Hm Hn].
  exists r'. repeat split; auto. now apply Bool.eqb_prop in Hn.
Qed.

Lemma relationships_mirror_each_other_witness :
  exists r',
    In r' Schema.relationships /\
    Schema.mirrors
      (Schema.mk_relationship "Teacher" "course_assignments" "CourseAssignment"
         "teacher" true) r' = true /\
    Schema.rel_many r' = false /\
    Schema.holds_key r' = true.
Proof.
  apply (relationships_mirror_each_other
           (Schema.mk_relationship "Teacher" "course_assignments" "CourseAssignment"
              "teacher" true)).
  simpl. auto 20.
Defined.

